(** * A shallow embedding of [jax/_src/compiler.py]

    The module is the interface between JAX and the XLA compiler: it builds
    the compile options ([get_compile_options]), wraps the native compile
    call ([backend_compile]) and implements the persistent compilation cache
    policy ([compile_or_get_cached], [_cache_read], [_cache_write]).

    The Python code is effectful: it calls collaborators that live outside
    the module (the compilation cache, the backend, the clock, the logger,
    the metrics sink).  Those are taken as oracles gathered in a [World]
    record.  A computation of the monad [M] threads the mutable state of the
    process, returns the events it emitted (one per call that leaves the
    module, in order), and ends with a value or with a Python exception, the
    [Raise] result. *)

From Stdlib Require Import ZArith NArith PArith List String Ascii Bool Lia.
From Stdlib Require Import DecimalString DecimalNat.
From Stdlib Require Import Floats.SpecFloat.
Import ListNotations.

Local Open Scope Z_scope.

(** ** Python values *)

Module Py.

(** A Python [str] is a sequence of Unicode code points. *)
Definition codepoint := N.
Definition str := list codepoint.

(** The code points of a literal of the source, all ASCII. *)
Definition str_of_string (s : string) : str :=
  map N_of_ascii (list_ascii_of_string s).

Definition str_eqb (a b : str) : bool :=
  if list_eq_dec N.eq_dec a b then true else false.

(** [needle in haystack] on strings. *)
Fixpoint startswith (needle hay : str) : bool :=
  match needle, hay with
  | [], _ => true
  | _ :: _, [] => false
  | c :: needle', d :: hay' => N.eqb c d && startswith needle' hay'
  end.

Fixpoint contains (needle hay : str) : bool :=
  startswith needle hay ||
  match hay with
  | [] => false
  | _ :: hay' => contains needle hay'
  end.

(** [x in l] for a list of strings. *)
Definition str_in (x : str) (l : list str) : bool :=
  existsb (str_eqb x) l.

(** [str(n)] for a non-negative integer. *)
Definition str_of_nat (n : nat) : str :=
  str_of_string (NilEmpty.string_of_uint (Nat.to_uint n)).

Local Open Scope N_scope.

Definition in_range (lo hi c : codepoint) : bool :=
  N.leb lo c && N.leb c hi.

(** [str.isalnum] on one character: the Unicode character database, written
    out for Basic Latin and the Latin-1 Supplement; [beyond] answers for the
    code points from U+0100 on. *)
Definition Py_UNICODE_ISALNUM (beyond : codepoint -> bool) (c : codepoint)
    : bool :=
  if N.ltb c 256 then
    in_range 48 57 c || in_range 65 90 c || in_range 97 122 c
    || N.eqb c 170 || N.eqb c 178 || N.eqb c 179 || N.eqb c 181
    || N.eqb c 185 || N.eqb c 186 || in_range 188 190 c
    || in_range 192 214 c || in_range 216 246 c || in_range 248 255 c
  else beyond c.

(** Regular expressions: a character set such as [[^\w.)( -]], whose items
    are the category [\w] and literal characters, and [re.sub] with such a
    set as the whole pattern. *)
Inductive set_item :=
| CategoryWord
| Literal (c : codepoint).

Arguments Literal c%_N.

Record char_set := {
  negate : bool;
  items : list set_item
}.

Definition item_matches (beyond : codepoint -> bool) (c : codepoint)
    (i : set_item) : bool :=
  match i with
  | CategoryWord => Py_UNICODE_ISALNUM beyond c || N.eqb c 95
  | Literal d => N.eqb c d
  end.

Definition set_matches (beyond : codepoint -> bool) (p : char_set)
    (c : codepoint) : bool :=
  xorb (negate p) (existsb (item_matches beyond c) (items p)).

Definition re_sub (beyond : codepoint -> bool) (p : char_set) (repl s : str)
    : str :=
  flat_map (fun c => if set_matches beyond p c then repl else [c]) s.

Local Close Scope N_scope.

(** A Python [float] is an IEEE-754 binary64 number. *)
Definition float := spec_float.
Definition prec : Z := 53.
Definition emax : Z := 1024.

Definition fsub (x y : float) : float := SFsub prec emax x y.
Definition flt (x y : float) : bool := SFltb x y.
Definition fle (x y : float) : bool := SFleb x y.

Definition is_nan (x : float) : bool :=
  match x with S754_nan => true | _ => false end.

Definition is_finite (x : float) : bool :=
  match x with S754_zero _ | S754_finite _ _ _ => true | _ => false end.

(** Truth value of a float: only zeros are false. *)
Definition float_bool (x : float) : bool :=
  match x with S754_zero _ => false | _ => true end.

(** Exceptions.  [except Exception] catches every class but the three that
    derive from [BaseException] only. *)
Inductive exn_class :=
| ValueError
| IndexError
| AttributeError
| AssertionError
| OverflowError
| OtherException (name : string)
| KeyboardInterrupt
| SystemExit
| GeneratorExit.

Definition is_Exception (c : exn_class) : bool :=
  match c with
  | KeyboardInterrupt | SystemExit | GeneratorExit => false
  | _ => true
  end.

End Py.

Import Py.

(** ** Data model *)

(** [numpy] arrays of devices: a shape, a dtype and the elements in row-major
    order.  The elements are device ids or device objects exposing [id]. *)
Inductive np_dtype := dtype_int | dtype_object.

Record Device := { id : Z }.

Inductive np_elt :=
| EInt (i : Z)
| EDevice (d : Device).

Record ndarray := {
  shape : list Z;
  dtype : np_dtype;
  data : list np_elt
}.

Definition ndim (a : ndarray) : Z := Z.of_nat (List.length (shape a)).

(** [a[:, None]] on a 1-dimensional array: a new trailing axis of length 1. *)
Definition add_trailing_axis (a : ndarray) : ndarray :=
  {| shape := shape a ++ [1]; dtype := dtype a; data := data a |}.

(** An MLIR module: its [sym_name] attribute and its two serialisations. *)
Record ir_Module := {
  sym_name : str;
  module_text : str;
  module_bytecode : list N
}.

(** Arguments of a format string ([str.format], [%]-formatting of the logger,
    f-strings): the message text is the template together with them. *)
#[warnings="-register-all"]
Inductive fmt_arg :=
| ArgInt (i : Z)
| ArgFloat (x : float)
| ArgStr (s : str)
| ArgArray (a : ndarray)
| ArgTuple (t : list Z)
| ArgExn (c : exn_class) (template : string) (args : list fmt_arg).

Record exn := {
  exn_class_of : exn_class;
  exn_template : string;
  exn_args : list fmt_arg
}.

Inductive result (A : Type) :=
| Ok (a : A)
| Raise (e : exn).
Arguments Ok {A} a.
Arguments Raise {A} e.

(** [type(ex).__name__] and [str(ex)] of a caught exception. *)
Definition arg_of_exn (e : exn) : fmt_arg :=
  ArgExn (exn_class_of e) (exn_template e) (exn_args e).

Definition raise_cls {A} (c : exn_class) (msg : string) : result A :=
  Raise {| exn_class_of := c; exn_template := msg; exn_args := [] |}.

(** [int(x)] on a float: truncation toward zero; infinities and NaN raise. *)
Definition int_of_float (x : float) : result Z :=
  match x with
  | S754_zero _ => Ok 0
  | S754_finite s m e => Ok (cond_Zopp s (Z.shiftl (Zpos m) e))
  | S754_infinity _ =>
      raise_cls OverflowError "cannot convert float infinity to integer"
  | S754_nan => raise_cls ValueError "cannot convert float NaN to integer"
  end.

(** [float(i)] as done by [int - float]: round to nearest even; too large an
    integer raises. *)
Definition float_of_int (i : Z) : result float :=
  match binary_normalize prec emax i 0 false with
  | S754_infinity _ =>
      raise_cls OverflowError "int too large to convert to float"
  | f => Ok f
  end.

(** [t[i]] on a tuple. *)
Definition tuple_index (t : list Z) (i : nat) : result Z :=
  match nth_error t i with
  | Some x => Ok x
  | None => raise_cls IndexError "tuple index out of range"
  end.

(** *** [xla_client] *)

Module xc.

(** The device assignment object built by [xc.DeviceAssignment.create]. *)
Record DeviceAssignment := {
  replica_count : Z;
  computation_count : Z;
  assigned_ids : list Z
}.

Record DebugOptions := {
  xla_gpu_cuda_data_dir : option str;
  xla_backend_optimization_level : Z;
  xla_llvm_disable_expensive_passes : bool;
  xla_test_all_input_layouts : bool
}.

Record ExecutableBuildOptions := {
  use_spmd_partitioning : bool;
  use_auto_spmd_partitioning : bool;
  fdo_profile : option (list N);
  auto_spmd_partitioning_mesh_shape : list Z;
  auto_spmd_partitioning_mesh_ids : list Z;
  debug_options : DebugOptions
}.

Record CompileOptions := {
  num_replicas : Z;
  num_partitions : Z;
  executable_build_options : ExecutableBuildOptions;
  device_assignment : option DeviceAssignment;
  env_option_overrides : list (str * str);
  profile_version : Z
}.

Inductive LoadedExecutable := loaded (handle : nat).

Definition host_callback := nat.

(** What [backend.compile] receives as its first argument. *)
Inductive built_c :=
| Bytecode (b : list N)
| ModuleObject (m : ir_Module).

(** A backend ([xc.Client]).  [needs_str_ir] is [None] when the object has no
    such attribute.  [compile_fn] is the native entry point; its last argument
    is [None] when the keyword [host_callbacks] is not passed. *)
Record Client := {
  platform : str;
  needs_str_ir : option bool;
  compile_fn : built_c -> CompileOptions -> option (list host_callback) ->
               result LoadedExecutable
}.

End xc.

Import xc.

(** ** Effects *)

Inductive log_level := DEBUG | INFO | ERROR.

(** One event per call that leaves the module. *)
Inductive Event :=
| EvLog (level : log_level) (template : string) (args : list fmt_arg)
| EvWarn (template : string) (args : list fmt_arg)
| EvWriteText (dir file contents : str)
| EvGetCacheKey (computation : ir_Module) (devices : ndarray)
    (compile_options : CompileOptions) (backend : Client) (original : bool)
| EvCacheGet (cache_key : str) (compile_options : CompileOptions)
    (backend : Client)
| EvCachePut (cache_key module_name : str) (executable : LoadedExecutable)
    (backend : Client) (compile_time : Z)
| EvCompile (backend : Client) (built : built_c) (options : CompileOptions)
    (host_callbacks : option (list host_callback))
| EvMetric (name : string) (secs : float).

(** The flags, the environment and the collaborators of the module. *)
Record World := {
  (* configuration *)
  _DISABLE_MOST_OPTIMIZATIONS : bool;
  _DUMP_IR_TO : str;
  jax_xla_profile_version : Z;
  jax_raise_persistent_cache_errors : bool;
  jax_persistent_cache_min_compile_time_secs : option float;
  jax_use_original_compilation_cache_key_generation : bool;
  XLA_FLAGS : option str;
  cuda_path : option str;
  (* the Unicode character database from U+0100 on *)
  unicode_isalnum : codepoint -> bool;
  (* the function [get_latest_profile_version], as currently patched *)
  get_latest_profile_version : unit -> Z;
  (* xla_client *)
  xc_CompileOptions : CompileOptions;
  xc_DeviceAssignment_create : ndarray -> result DeviceAssignment;
  (* compilation_cache *)
  is_initialized : bool;
  get_cache_key : ir_Module -> ndarray -> CompileOptions -> Client -> bool ->
                  result str;
  get_executable_and_time : str -> CompileOptions -> Client ->
                            result (option LoadedExecutable * option Z);
  put_executable_and_time : str -> str -> LoadedExecutable -> Client -> Z ->
                            result unit;
  (* the successive readings of [time.monotonic()] *)
  monotonic_reading : nat -> float
}.

(** The mutable state of the process that the module reads: how many times
    the clock was read and the counter of dumped files. *)
Record State := {
  clock_reads : nat;
  _ir_dump_counter : nat
}.

(** A computation runs from a state to a result, the new state and the
    events it emitted, oldest first. *)
Definition M (A : Type) : Type := State -> result A * State * list Event.

Definition ret {A} (a : A) : M A := fun st => (Ok a, st, []).

(** The events [evs] happened before the run [run]. *)
Definition after {A} (evs : list Event) (run : result A * State * list Event)
    : result A * State * list Event :=
  (fst (fst run), snd (fst run), evs ++ snd run).

Definition bind {A B} (m : M A) (k : A -> M B) : M B :=
  fun st =>
    match m st with
    | (Ok a, st', evs) => after evs (k a st')
    | (Raise e, st', evs) => (Raise e, st', evs)
    end.

Declare Scope py_scope.
Delimit Scope py_scope with py.
Notation "x <- m ;; k" := (bind m (fun x => k))
  (at level 61, m at next level, right associativity) : py_scope.
Notation "' pat <- m ;; k" := (bind m (fun x => match x with pat => k end))
  (at level 61, pat pattern, m at next level, right associativity) : py_scope.
Notation "m ;; k" := (bind m (fun _ => k))
  (at level 61, right associativity) : py_scope.
Local Open Scope py_scope.

Definition raise {A} (e : exn) : M A := fun st => (Raise e, st, []).

Definition lift {A} (r : result A) : M A := fun st => (r, st, []).

Definition emit (e : Event) : M unit := fun st => (Ok tt, st, [e]).

(** [try: body  except Exception as ex: handler ex] *)
Definition try_except {A} (body : M A) (handler : exn -> M A) : M A :=
  fun st =>
    match body st with
    | (Raise ex, st', evs) =>
        if is_Exception (exn_class_of ex) then after evs (handler ex st')
        else (Raise ex, st', evs)
    | r => r
    end.

Definition assertion_error : exn :=
  {| exn_class_of := AssertionError; exn_template := ""; exn_args := [] |}.

(** [assert c] *)
Definition py_assert (c : bool) : M unit :=
  if c then ret tt else raise assertion_error.

(** [time.monotonic()] *)
Definition tick (st : State) : State :=
  {| clock_reads := S (clock_reads st);
     _ir_dump_counter := _ir_dump_counter st |}.

Definition time_monotonic (w : World) : M float :=
  fun st => (Ok (monotonic_reading w (clock_reads st)), tick st, []).

(** [next(_ir_dump_counter)] *)
Definition next_ir_dump_counter : M nat :=
  fun st => (Ok (_ir_dump_counter st),
             {| clock_reads := clock_reads st;
                _ir_dump_counter := S (_ir_dump_counter st) |},
             []).

Definition logger_debug (t : string) (args : list fmt_arg) : M unit :=
  emit (EvLog DEBUG t args).
Definition logger_info (t : string) (args : list fmt_arg) : M unit :=
  emit (EvLog INFO t args).
Definition logger_error (t : string) (args : list fmt_arg) : M unit :=
  emit (EvLog ERROR t args).
Definition warnings_warn (t : string) (args : list fmt_arg) : M unit :=
  emit (EvWarn t args).
Definition record_event_duration_secs (name : string) (secs : float) : M unit :=
  emit (EvMetric name secs).

(** ** The module [jax/_src/compiler.py] *)

Abbreviation py s := (str_of_string s) (only parsing).

Section Compiler.

Variable w : World.

(** [x or []] *)
Definition or_empty {A} (x : option (list A)) : list A :=
  match x with Some l => l | None => [] end.

(** [np.vectorize(lambda d: d.id, otypes=[int])(a)] *)
Fixpoint ids_of (l : list np_elt) : result (list np_elt) :=
  match l with
  | [] => Ok []
  | EDevice d :: l' =>
      match ids_of l' with
      | Ok r => Ok (EInt (id d) :: r)
      | Raise e => Raise e
      end
  | EInt _ :: _ => raise_cls AttributeError "'int' object has no attribute 'id'"
  end.

Definition vectorize_id (a : ndarray) : result ndarray :=
  match ids_of (data a) with
  | Ok r => Ok {| shape := shape a; dtype := dtype_int; data := r |}
  | Raise e => Raise e
  end.

(** Lines 130-132: device objects are replaced by their ids. *)
Definition ids_of_devices (a : ndarray) : result ndarray :=
  match dtype a with
  | dtype_object => vectorize_id a
  | dtype_int => Ok a
  end.

Definition ValueError_format {A} (msg : string) (args : list fmt_arg) : M A :=
  raise {| exn_class_of := ValueError; exn_template := msg; exn_args := args |}.

(** Lines 112-136: validation and conversion of the device assignment. *)
Definition convert_device_assignment
    (num_replicas num_partitions : Z) (device_assignment : ndarray)
    : M DeviceAssignment :=
  logger_debug
    "get_compile_options: num_replicas=%s num_partitions=%s device_assignment=%s"
    [ArgInt num_replicas; ArgInt num_partitions; ArgArray device_assignment] ;;
  (* Allow 1D device assignment if num_partitions is 1. *)
  let device_assignment :=
    if (ndim device_assignment =? 1) && (num_partitions =? 1)
    then add_trailing_axis device_assignment
    else device_assignment in
  shape0 <- lift (tuple_index (shape device_assignment) 0) ;;
  (if negb (num_replicas =? shape0) then
     ValueError_format "device_assignment does not match num_replicas: {} vs {}."
       [ArgArray device_assignment; ArgInt num_replicas]
   else ret tt) ;;
  shape1 <- lift (tuple_index (shape device_assignment) 1) ;;
  (if negb (num_partitions =? shape1) then
     ValueError_format "device_assignment does not match num_partitions: {} vs {}."
       [ArgArray device_assignment; ArgInt num_partitions]
   else ret tt) ;;
  device_assignment <- lift (ids_of_devices device_assignment) ;;
  device_assignment <- lift (xc_DeviceAssignment_create w device_assignment) ;;
  py_assert (replica_count device_assignment =? num_replicas) ;;
  py_assert (computation_count device_assignment =? num_partitions) ;;
  ret device_assignment.

(** Lines 157-174: the XLA-AutoFDO profile version. *)
Definition resolve_profile_version : M Z :=
  let jax_xla_profile_version := jax_xla_profile_version w in
  if jax_xla_profile_version >? 0 then
    logger_debug
      "get_compile_options XLA-AutoFDO profile: using JAX XLA profile version %d from flag"
      [ArgInt jax_xla_profile_version] ;;
    ret jax_xla_profile_version
  else
    let fdo_profile_version := get_latest_profile_version w tt in
    if negb (fdo_profile_version =? 0) then
      logger_debug
        "get_compile_options XLA-AutoFDO profile: using XLA-AutoFDO profile version %d"
        [ArgInt fdo_profile_version] ;;
      ret fdo_profile_version
    else
      let no_profile_dont_retrieve := -1 in
      logger_error
        "get_compile_options XLA-AutoFDO profile: XLA-AutoFDO profile version is 0; this should not happen"
        [] ;;
      ret no_profile_dont_retrieve.

(** Lines 69-176.  The Python code creates the options object and assigns
    its fields one after the other; here every assigned value is computed in
    the same order and the record is assembled at the end.  The fields that
    the code leaves alone keep the value they have in a fresh
    [xc.CompileOptions()]. *)
Definition get_compile_options
    (num_replicas num_partitions : Z)
    (device_assignment : option ndarray)
    (use_spmd_partitioning use_auto_spmd_partitioning : bool)
    (auto_spmd_partitioning_mesh_shape
       auto_spmd_partitioning_mesh_ids : option (list Z))
    (env_options_overrides : option (list (str * str)))
    (fdo_profile : option (list N))
    : M CompileOptions :=
  let compile_options := xc_CompileOptions w in
  let build_options := executable_build_options compile_options in
  let fdo :=
    match fdo_profile with
    | Some p => Some p
    | None => xc.fdo_profile build_options
    end in
  let mesh_shape :=
    if use_auto_spmd_partitioning
    then or_empty auto_spmd_partitioning_mesh_shape
    else xc.auto_spmd_partitioning_mesh_shape build_options in
  let mesh_ids :=
    if use_auto_spmd_partitioning
    then or_empty auto_spmd_partitioning_mesh_ids
    else xc.auto_spmd_partitioning_mesh_ids build_options in
  assignment <-
    match device_assignment with
    | Some a =>
        d <- convert_device_assignment num_replicas num_partitions a ;;
        ret (Some d)
    | None => ret (xc.device_assignment compile_options)
    end ;;
  let overrides :=
    match env_options_overrides with
    | Some items => items
    | None => env_option_overrides compile_options
    end in
  let debug := debug_options build_options in
  let cuda_dir :=
    match cuda_path w with
    | Some p => Some p
    | None => xla_gpu_cuda_data_dir debug
    end in
  let debug :=
    if _DISABLE_MOST_OPTIMIZATIONS w then
      {| xla_gpu_cuda_data_dir := cuda_dir;
         xla_backend_optimization_level := 0;
         xla_llvm_disable_expensive_passes := true;
         xla_test_all_input_layouts := false |}
    else
      {| xla_gpu_cuda_data_dir := cuda_dir;
         xla_backend_optimization_level := xla_backend_optimization_level debug;
         xla_llvm_disable_expensive_passes :=
           xla_llvm_disable_expensive_passes debug;
         xla_test_all_input_layouts := xla_test_all_input_layouts debug |} in
  version <- resolve_profile_version ;;
  ret {| num_replicas := num_replicas;
         num_partitions := num_partitions;
         executable_build_options :=
           {| use_spmd_partitioning := use_spmd_partitioning;
              use_auto_spmd_partitioning := use_auto_spmd_partitioning;
              fdo_profile := fdo;
              auto_spmd_partitioning_mesh_shape := mesh_shape;
              auto_spmd_partitioning_mesh_ids := mesh_ids;
              debug_options := debug |};
         device_assignment := assignment;
         env_option_overrides := overrides;
         profile_version := version |}.

Definition _module_to_string (module : ir_Module) : str := module_text module.

Definition _module_to_bytecode (module : ir_Module) : list N :=
  module_bytecode module.

(** [backend.compile(...)] *)
Definition backend_dot_compile (backend : Client) (built : built_c)
    (options : CompileOptions) (host_callbacks : option (list host_callback))
    : M LoadedExecutable :=
  emit (EvCompile backend built options host_callbacks) ;;
  lift (compile_fn backend built options host_callbacks).

(** [getattr(backend, "needs_str_ir", default)] *)
Definition getattr_needs_str_ir (backend : Client) (default : bool) : bool :=
  match needs_str_ir backend with
  | Some v => v
  | None => default
  end.

(** Truth value of a sequence. *)
Definition nonempty {A} (l : list A) : bool :=
  match l with [] => false | _ :: _ => true end.

(** Lines 190-213.  The decorator only annotates the call for the
    profiler. *)
Definition backend_compile (backend : Client) (module : ir_Module)
    (options : CompileOptions) (host_callbacks : list host_callback)
    : M LoadedExecutable :=
  let built_c :=
    if getattr_needs_str_ir backend true
    then Bytecode (_module_to_bytecode module)
    else ModuleObject module in
  if nonempty host_callbacks then
    backend_dot_compile backend built_c options (Some host_callbacks)
  else
    backend_dot_compile backend built_c options None.

(** The pattern [[^\w.)( -]]. *)
Definition unsafe_for_filename : char_set :=
  {| negate := true;
     items := [CategoryWord; Literal 46; Literal 41; Literal 40; Literal 32;
               Literal 45] |}.

(** Line 219: [re.sub(r'[^\w.)( -]', '', s)]. *)
Definition _make_string_safe_for_filename (s : str) : str :=
  re_sub (unicode_isalnum w) unsafe_for_filename [] s.

(** Lines 221-225; the write of the file is the event [EvWriteText]. *)
Definition _dump_ir_to_file (name ir : str) : M unit :=
  id <- next_ir_dump_counter ;;
  let name := py "jax_ir" ++ str_of_nat id ++ py "_"
              ++ _make_string_safe_for_filename name ++ py ".mlir" in
  emit (EvWriteText (_DUMP_IR_TO w) name ir).

(** The three entry points of [compilation_cache] that the module calls. *)
Definition compilation_cache_get_cache_key (computation : ir_Module)
    (devices : ndarray) (compile_options : CompileOptions) (backend : Client)
    (original : bool) : M str :=
  emit (EvGetCacheKey computation devices compile_options backend original) ;;
  lift (get_cache_key w computation devices compile_options backend original).

Definition compilation_cache_get_executable_and_time (cache_key : str)
    (compile_options : CompileOptions) (backend : Client)
    : M (option LoadedExecutable * option Z) :=
  emit (EvCacheGet cache_key compile_options backend) ;;
  lift (get_executable_and_time w cache_key compile_options backend).

Definition compilation_cache_put_executable_and_time
    (cache_key module_name : str) (executable : LoadedExecutable)
    (backend : Client) (compile_time : Z) : M unit :=
  emit (EvCachePut cache_key module_name executable backend compile_time) ;;
  lift (put_executable_and_time w cache_key module_name executable backend
          compile_time).

(** Lines 287-303. *)
Definition _cache_read (module_name cache_key : str)
    (compile_options : CompileOptions) (backend : Client)
    : M (option LoadedExecutable * option Z) :=
  try_except
    (compilation_cache_get_executable_and_time cache_key compile_options backend)
    (fun ex =>
       if jax_raise_persistent_cache_errors w then raise ex
       else
         warnings_warn
           "Error reading persistent compilation cache entry for '{module_name}': {type(ex).__name__}: {ex}"
           [ArgStr module_name; arg_of_exn ex] ;;
         ret (None, None)).

(** Lines 306-342.  [write] is the [try] statement that ends the function;
    [int(compile_time_secs)] is evaluated inside it. *)
Definition _cache_write (cache_key : str) (compile_time_secs : float)
    (module_name : str) (backend : Client) (executable : LoadedExecutable)
    (host_callbacks : list host_callback) : M unit :=
  let write :=
    try_except
      (seconds <- lift (int_of_float compile_time_secs) ;;
       compilation_cache_put_executable_and_time cache_key module_name
         executable backend seconds)
      (fun ex =>
         if jax_raise_persistent_cache_errors w then raise ex
         else
           warnings_warn
             "Error writing persistent compilation cache entry for '{module_name}': {type(ex).__name__}: {ex}"
             [ArgStr module_name; arg_of_exn ex]) in
  if nonempty host_callbacks then
    logger_info
      "Not writing persistent cache entry for '%s' because it uses host callbacks (e.g. from jax.debug.print or breakpoint)"
      [ArgStr module_name]
  else
    match jax_persistent_cache_min_compile_time_secs w with
    | Some min_compile_time =>
        if float_bool min_compile_time then
          if flt compile_time_secs min_compile_time then
            logger_info
              "Not writing persistent cache entry for '%s' because it took < %.2f seconds to compile (%.2fs)"
              [ArgStr module_name; ArgFloat min_compile_time;
               ArgFloat compile_time_secs]
          else
            logger_info
              "'%s' took at least %.2f seconds to compile (%.2fs), writing persistent cache entry"
              [ArgStr module_name; ArgFloat min_compile_time;
               ArgFloat compile_time_secs] ;;
            write
        else write
    | None => write
    end.

(** [os.environ.get("XLA_FLAGS", "")] *)
Definition environ_XLA_FLAGS : str :=
  match XLA_FLAGS w with Some v => v | None => [] end.

(** Lines 243-248. *)
Definition supported_platforms : list str :=
  [py "tpu"; py "gpu"]
  ++ (if contains (py "--xla_cpu_use_xla_runtime=true") environ_XLA_FLAGS
      then [py "cpu"] else []).

Definition use_compilation_cache (backend : Client) : bool :=
  is_initialized w && str_in (platform backend) supported_platforms.

(** [int - float] *)
Definition int_sub_float (i : Z) (x : float) : M float :=
  f <- lift (float_of_int i) ;;
  ret (fsub f x).

(** Lines 228-284. *)
Definition compile_or_get_cached (backend : Client) (computation : ir_Module)
    (devices : ndarray) (compile_options : CompileOptions)
    (host_callbacks : list host_callback) : M LoadedExecutable :=
  let module_name := sym_name computation in
  (if nonempty (_DUMP_IR_TO w)
   then _dump_ir_to_file module_name (_module_to_string computation)
   else ret tt) ;;
  if negb (use_compilation_cache backend) then
    backend_compile backend computation compile_options host_callbacks
  else
    cache_key <- compilation_cache_get_cache_key computation devices
                   compile_options backend
                   (jax_use_original_compilation_cache_key_generation w) ;;
    cache_retrieval_start <- time_monotonic w ;;
    '(retrieved_executable, retrieved_compile_time) <-
       _cache_read module_name cache_key compile_options backend ;;
    now <- time_monotonic w ;;
    let cache_retrieval_time := fsub now cache_retrieval_start in
    match retrieved_executable with
    | Some retrieved_executable =>
        match retrieved_compile_time with
        | None => (* assert retrieved_compile_time is not None *)
            raise assertion_error
        | Some retrieved_compile_time =>
            logger_info "Persistent compilation cache hit for '%s'"
              [ArgStr module_name] ;;
            record_event_duration_secs
              "/jax/compilation_cache/cache_retrieval_time_sec"
              cache_retrieval_time ;;
            saved <- int_sub_float retrieved_compile_time cache_retrieval_time ;;
            record_event_duration_secs
              "/jax/compilation_cache/original_compile_time_saved_sec" saved ;;
            ret retrieved_executable
        end
    | None =>
        start_time <- time_monotonic w ;;
        executable <- backend_compile backend computation compile_options
                        host_callbacks ;;
        now <- time_monotonic w ;;
        let compile_time := fsub now start_time in
        _cache_write cache_key compile_time module_name backend executable
          host_callbacks ;;
        ret executable
    end.

End Compiler.

(** ** Sample inputs, used to run the model *)

Module Sample.

(** [m * 2^e] as a float. *)
Definition float_lit (m e : Z) : float := binary_normalize prec emax m e false.

Definition module : ir_Module :=
  {| sym_name := py "jit_f/" ++ [233%N] ++ py ":1";
     module_text := py "module @jit_f {}";
     module_bytecode := [77; 76; 239; 82]%N |}.

Definition executable : LoadedExecutable := loaded 7.
Definition cached_executable : LoadedExecutable := loaded 8.

Definition options : CompileOptions :=
  {| num_replicas := 1;
     num_partitions := 1;
     executable_build_options :=
       {| use_spmd_partitioning := false;
          use_auto_spmd_partitioning := false;
          fdo_profile := None;
          auto_spmd_partitioning_mesh_shape := [];
          auto_spmd_partitioning_mesh_ids := [];
          debug_options :=
            {| xla_gpu_cuda_data_dir := None;
               xla_backend_optimization_level := 3;
               xla_llvm_disable_expensive_passes := false;
               xla_test_all_input_layouts := false |} |};
     device_assignment := None;
     env_option_overrides := [];
     profile_version := 0 |}.

Definition backend (name : string) (str_ir : option bool) : Client :=
  {| platform := py name;
     needs_str_ir := str_ir;
     compile_fn := fun _ _ _ => Ok executable |}.

Definition tpu : Client := backend "tpu" None.
Definition cpu : Client := backend "cpu" None.

(** [DeviceAssignment.create] on an array of ids with two axes. *)
Definition create (a : ndarray) : result DeviceAssignment :=
  match shape a with
  | [r; c] =>
      Ok {| replica_count := r;
            computation_count := c;
            assigned_ids :=
              map (fun x => match x with EInt i => i | EDevice d => id d end)
                (data a) |}
  | _ => raise_cls (OtherException "XlaRuntimeError")
           "Argument to DeviceAssignment constructor must be a 2D array"
  end.

Definition devices : ndarray :=
  {| shape := [1]; dtype := dtype_int; data := [EInt 0] |}.

(** The clock reads 100.0, 100.25, 101.0, 106.75, ... seconds. *)
Definition clock (n : nat) : float :=
  match n with
  | O => float_lit 100 0
  | 1%nat => float_lit 401 (-2)
  | 2%nat => float_lit 101 0
  | _ => float_lit 427 (-2)
  end.

(** A process with the cache initialised and empty, and a minimum compile
    time of 2.0 seconds. *)
Definition world : World :=
  {| _DISABLE_MOST_OPTIMIZATIONS := false;
     _DUMP_IR_TO := [];
     jax_xla_profile_version := 0;
     jax_raise_persistent_cache_errors := false;
     jax_persistent_cache_min_compile_time_secs := Some (float_lit 2 0);
     jax_use_original_compilation_cache_key_generation := false;
     XLA_FLAGS := None;
     cuda_path := None;
     unicode_isalnum := fun _ => false;
     get_latest_profile_version := fun _ => -1;
     xc_CompileOptions := options;
     xc_DeviceAssignment_create := create;
     is_initialized := true;
     get_cache_key := fun m _ _ _ _ => Ok (py "key-" ++ sym_name m);
     get_executable_and_time := fun _ _ _ => Ok (None, None);
     put_executable_and_time := fun _ _ _ _ _ => Ok tt;
     monotonic_reading := clock |}.

Definition start : State := {| clock_reads := 0; _ir_dump_counter := 0 |}.

(** [np.array([0, 1])] and [np.array([[0], [1], [2]])] *)
Definition two_ids : ndarray :=
  {| shape := [2]; dtype := dtype_int; data := [EInt 0; EInt 1] |}.

Definition three_by_one : ndarray :=
  {| shape := [3; 1]; dtype := dtype_int; data := [EInt 0; EInt 1; EInt 2] |}.

End Sample.

(** * Vocabulary of the statements *)

(** ** Events and runs *)

Definition is_compile (e : Event) : bool :=
  match e with EvCompile _ _ _ _ => true | _ => false end.

Definition is_put (e : Event) : bool :=
  match e with EvCachePut _ _ _ _ _ => true | _ => false end.

Definition is_metric (e : Event) : bool :=
  match e with EvMetric _ _ => true | _ => false end.

Definition is_error_log (e : Event) : bool :=
  match e with EvLog ERROR _ _ => true | _ => false end.

(** The calls into the persistent cache: key derivation, lookup, write. *)
Definition is_cache_call (e : Event) : bool :=
  match e with
  | EvGetCacheKey _ _ _ _ _ | EvCacheGet _ _ _ | EvCachePut _ _ _ _ _ => true
  | _ => false
  end.

Definition events {A} (run : result A * State * list Event) : list Event :=
  snd run.

Definition outcome {A} (run : result A * State * list Event) : result A :=
  fst (fst run).

Definition final {A} (run : result A * State * list Event) : State :=
  snd (fst run).

(** ** Compile options *)

(** The device assignment, when there is one, passes its validation. *)
Definition device_assignment_accepted (w : World) (nr np : Z)
    (da : option ndarray) (st : State) : Prop :=
  match da with
  | None => True
  | Some a => exists d, outcome (convert_device_assignment w nr np a st) = Ok d
  end.

Definition profile_version_error : Event :=
  EvLog ERROR
    "get_compile_options XLA-AutoFDO profile: XLA-AutoFDO profile version is 0; this should not happen"
    [].

Definition raises (c : exn_class) {A} (run : result A * State * list Event)
    : Prop :=
  exists e, outcome run = Raise e /\ exn_class_of e = c.

(** The message of [e] quotes the two shapes: they are among the values it
    is formatted from. *)
Definition quotes_shapes (e : exn) (actual expected : list Z) : Prop :=
  In (ArgTuple actual) (exn_args e) /\ In (ArgTuple expected) (exn_args e).

Definition refused_quoting_shapes {A} (run : result A * State * list Event)
    (actual expected : list Z) : Prop :=
  exists e,
    outcome run = Raise e /\ exn_class_of e = ValueError
    /\ quotes_shapes e actual expected.

(** The device assignment after line 120: a 1-dimensional one gets a second
    axis when there is one partition. *)
Definition allow_1d (num_partitions : Z) (a : ndarray) : ndarray :=
  if (ndim a =? 1) && (num_partitions =? 1) then add_trailing_axis a else a.

(** ** File names *)

Local Open Scope N_scope.

(** The characters of the set [[A-Za-z0-9_.() -]]. *)
Definition ascii_safe (c : codepoint) : bool :=
  in_range 65 90 c || in_range 97 122 c || in_range 48 57 c
  || N.eqb c 95 || N.eqb c 46 || N.eqb c 40 || N.eqb c 41 || N.eqb c 32
  || N.eqb c 45.

Local Close Scope N_scope.

(** ** The steps of a request *)

(** When the specification lets a request use the persistent cache: the
    cache is initialised and the platform is "tpu" or "gpu", or is "cpu" while
    the environment variable [XLA_FLAGS] is set to a string that holds
    [--xla_cpu_use_xla_runtime=true]. *)
Definition cache_eligible (w : World) (backend : Client) : Prop :=
  is_initialized w = true
  /\ (platform backend = py "tpu"
      \/ platform backend = py "gpu"
      \/ (platform backend = py "cpu"
          /\ exists pre post,
               XLA_FLAGS w
               = Some (pre ++ py "--xla_cpu_use_xla_runtime=true" ++ post))).

(** Lines 238-239: the dump of the IR, when a directory is configured. *)
Definition dump_events (w : World) (computation : ir_Module) (st : State)
    : list Event :=
  if nonempty (_DUMP_IR_TO w) then
    [EvWriteText (_DUMP_IR_TO w)
       (py "jax_ir" ++ str_of_nat (_ir_dump_counter st) ++ py "_"
        ++ _make_string_safe_for_filename w (sym_name computation)
        ++ py ".mlir")
       (_module_to_string computation)]
  else [].

Definition dump_state (w : World) (st : State) : State :=
  if nonempty (_DUMP_IR_TO w) then
    {| clock_reads := clock_reads st;
       _ir_dump_counter := S (_ir_dump_counter st) |}
  else st.

(** What [backend_compile] hands to the native entry point. *)
Definition built_for (backend : Client) (module : ir_Module) : built_c :=
  if getattr_needs_str_ir backend true
  then Bytecode (_module_to_bytecode module)
  else ModuleObject module.

Definition keyword_host_callbacks (host_callbacks : list host_callback)
    : option (list host_callback) :=
  if nonempty host_callbacks then Some host_callbacks else None.

Definition read_warning (module_name : str) (ex : exn) : Event :=
  EvWarn
    "Error reading persistent compilation cache entry for '{module_name}': {type(ex).__name__}: {ex}"
    [ArgStr module_name; arg_of_exn ex].

Definition write_warning (module_name : str) (ex : exn) : Event :=
  EvWarn
    "Error writing persistent compilation cache entry for '{module_name}': {type(ex).__name__}: {ex}"
    [ArgStr module_name; arg_of_exn ex].

(** The two admission gates of [_cache_write], as the code tests them. *)
Definition admitted (w : World) (host_callbacks : list host_callback)
    (compile_time_secs : float) : bool :=
  negb (nonempty host_callbacks)
  && match jax_persistent_cache_min_compile_time_secs w with
     | Some min_compile_time =>
         negb (float_bool min_compile_time
               && flt compile_time_secs min_compile_time)
     | None => true
     end.

(** Lines 334-342: the write, once admitted. *)
Definition write_attempt (w : World) (cache_key : str)
    (compile_time_secs : float) (module_name : str) (backend : Client)
    (executable : LoadedExecutable) (st : State)
    : result unit * State * list Event :=
  match int_of_float compile_time_secs with
  | Raise ex =>
      if is_Exception (exn_class_of ex)
         && negb (jax_raise_persistent_cache_errors w)
      then (Ok tt, st, [write_warning module_name ex])
      else (Raise ex, st, [])
  | Ok seconds =>
      let put := EvCachePut cache_key module_name executable backend seconds in
      match put_executable_and_time w cache_key module_name executable backend
              seconds with
      | Ok _ => (Ok tt, st, [put])
      | Raise ex =>
          if is_Exception (exn_class_of ex)
             && negb (jax_raise_persistent_cache_errors w)
          then (Ok tt, st, [put; write_warning module_name ex])
          else (Raise ex, st, [put])
      end
  end.

Definition is_info_log (e : Event) : bool :=
  match e with EvLog INFO _ _ => true | _ => false end.

(** Lines 278-284: compile, time the compilation, write to the cache. *)
Definition compile_and_write (w : World) (backend : Client)
    (computation : ir_Module) (compile_options : CompileOptions)
    (host_callbacks : list host_callback) (cache_key : str)
    : M LoadedExecutable :=
  start_time <- time_monotonic w ;;
  executable <- backend_compile backend computation compile_options
                  host_callbacks ;;
  now <- time_monotonic w ;;
  _cache_write w cache_key (fsub now start_time) (sym_name computation)
    backend executable host_callbacks ;;
  ret executable.

(** Lines 264-276: a hit, with its two metrics. *)
Definition hit (w : World) (module_name : str)
    (retrieved_executable : LoadedExecutable) (retrieved_compile_time : Z)
    (cache_retrieval_time : float) (st : State)
    : result LoadedExecutable * State * list Event :=
  after
    [EvLog INFO "Persistent compilation cache hit for '%s'" [ArgStr module_name];
     EvMetric "/jax/compilation_cache/cache_retrieval_time_sec"
       cache_retrieval_time]
    match float_of_int retrieved_compile_time with
    | Ok f =>
        (Ok retrieved_executable, st,
         [EvMetric "/jax/compilation_cache/original_compile_time_saved_sec"
            (fsub f cache_retrieval_time)])
    | Raise e => (Raise e, st, [])
    end.

(** The duration measured by two successive readings of the clock, the first
    one being the reading number [n]. *)
Definition measured (w : World) (n : nat) : float :=
  fsub (monotonic_reading w (S n)) (monotonic_reading w n).

(** The same process with another answer of the cache to lookups. *)
Definition with_lookup (w : World)
    (lookup : str -> CompileOptions -> Client ->
              result (option LoadedExecutable * option Z)) : World :=
  {| _DISABLE_MOST_OPTIMIZATIONS := _DISABLE_MOST_OPTIMIZATIONS w;
     _DUMP_IR_TO := _DUMP_IR_TO w;
     jax_xla_profile_version := jax_xla_profile_version w;
     jax_raise_persistent_cache_errors := jax_raise_persistent_cache_errors w;
     jax_persistent_cache_min_compile_time_secs :=
       jax_persistent_cache_min_compile_time_secs w;
     jax_use_original_compilation_cache_key_generation :=
       jax_use_original_compilation_cache_key_generation w;
     XLA_FLAGS := XLA_FLAGS w;
     cuda_path := cuda_path w;
     unicode_isalnum := unicode_isalnum w;
     get_latest_profile_version := get_latest_profile_version w;
     xc_CompileOptions := xc_CompileOptions w;
     xc_DeviceAssignment_create := xc_DeviceAssignment_create w;
     is_initialized := is_initialized w;
     get_cache_key := get_cache_key w;
     get_executable_and_time := lookup;
     put_executable_and_time := put_executable_and_time w;
     monotonic_reading := monotonic_reading w |}.

(** The cache answers every lookup with "not found". *)
Definition not_found (w : World) : World :=
  with_lookup w (fun _ _ _ => Ok (None, None)).

(** The same process with another value of the environment variable
    [XLA_FLAGS] ([None]: the variable is not set). *)
Definition with_xla_flags (w : World) (flags : option str) : World :=
  {| _DISABLE_MOST_OPTIMIZATIONS := _DISABLE_MOST_OPTIMIZATIONS w;
     _DUMP_IR_TO := _DUMP_IR_TO w;
     jax_xla_profile_version := jax_xla_profile_version w;
     jax_raise_persistent_cache_errors := jax_raise_persistent_cache_errors w;
     jax_persistent_cache_min_compile_time_secs :=
       jax_persistent_cache_min_compile_time_secs w;
     jax_use_original_compilation_cache_key_generation :=
       jax_use_original_compilation_cache_key_generation w;
     XLA_FLAGS := flags;
     cuda_path := cuda_path w;
     unicode_isalnum := unicode_isalnum w;
     get_latest_profile_version := get_latest_profile_version w;
     xc_CompileOptions := xc_CompileOptions w;
     xc_DeviceAssignment_create := xc_DeviceAssignment_create w;
     is_initialized := is_initialized w;
     get_cache_key := get_cache_key w;
     get_executable_and_time := get_executable_and_time w;
     put_executable_and_time := put_executable_and_time w;
     monotonic_reading := monotonic_reading w |}.

(** The same process with another setting of
    [jax_persistent_cache_min_compile_time_secs]. *)
Definition with_min_compile_time (w : World) (seconds : option float) : World :=
  {| _DISABLE_MOST_OPTIMIZATIONS := _DISABLE_MOST_OPTIMIZATIONS w;
     _DUMP_IR_TO := _DUMP_IR_TO w;
     jax_xla_profile_version := jax_xla_profile_version w;
     jax_raise_persistent_cache_errors := jax_raise_persistent_cache_errors w;
     jax_persistent_cache_min_compile_time_secs := seconds;
     jax_use_original_compilation_cache_key_generation :=
       jax_use_original_compilation_cache_key_generation w;
     XLA_FLAGS := XLA_FLAGS w;
     cuda_path := cuda_path w;
     unicode_isalnum := unicode_isalnum w;
     get_latest_profile_version := get_latest_profile_version w;
     xc_CompileOptions := xc_CompileOptions w;
     xc_DeviceAssignment_create := xc_DeviceAssignment_create w;
     is_initialized := is_initialized w;
     get_cache_key := get_cache_key w;
     get_executable_and_time := get_executable_and_time w;
     put_executable_and_time := put_executable_and_time w;
     monotonic_reading := monotonic_reading w |}.

(** ** Durations *)

(** The exact value of a finite float is [numerator / denominator]. *)
Definition numerator (x : float) : Z :=
  match x with
  | S754_finite s m e => cond_Zopp s (Zpos m * 2 ^ Z.max e 0)
  | _ => 0
  end.

Definition denominator (x : float) : Z :=
  match x with
  | S754_finite s m e => 2 ^ Z.max (- e) 0
  | _ => 1
  end.

(** The float [x] is the binary64 number whose value is the integer [z]: a
    well-formed finite float of exact value [z], the positive zero for 0. *)
Definition represents (x : float) (z : Z) : Prop :=
  valid_binary prec emax x = true
  /\ is_finite x = true
  /\ numerator x = z * denominator x
  /\ (z = 0 -> x = S754_zero false).

(** No minimum compile time is configured: the option is unset, or is the
    number zero (0.0 or -0.0). *)
Definition threshold_unset (w : World) : Prop :=
  jax_persistent_cache_min_compile_time_secs w = None
  \/ jax_persistent_cache_min_compile_time_secs w = Some (S754_zero false)
  \/ jax_persistent_cache_min_compile_time_secs w = Some (S754_zero true).

(** The duration [d] is at least the configured minimum. *)
Definition threshold_reached (w : World) (d : float) : Prop :=
  exists min_compile_time,
    jax_persistent_cache_min_compile_time_secs w = Some min_compile_time
    /\ fle min_compile_time d = true.

(** ** Scenarios *)

Module Scenario.

Import Sample.

Definition io_error : exn :=
  {| exn_class_of := OtherException "OSError";
     exn_template := "cache directory is not readable";
     exn_args := [] |}.

(** The cache fails on lookups. *)
Definition unreadable : World := with_lookup world (fun _ _ _ => Raise io_error).

(** The cache holds an executable that took no time to compile. *)
Definition populated : World :=
  with_lookup world (fun _ _ _ => Ok (Some cached_executable, Some 0)).

(** The cache holds an executable without its compile time. *)
Definition untimed : World :=
  with_lookup world (fun _ _ _ => Ok (Some cached_executable, None)).

Definition key : str := py "key-" ++ sym_name module.

(** The cache holds an executable that took 10 seconds to compile. *)
Definition ten_seconds : World :=
  with_lookup world (fun _ _ _ => Ok (Some cached_executable, Some 10)).

(** The CPU runtime that can use the cache is enabled in the environment. *)
Definition cpu_runtime : World :=
  with_xla_flags world
    (Some (py "--xla_force_host_platform_device_count=8 --xla_cpu_use_xla_runtime=true")).

(** A minimum compile time of 10.0 seconds, and one of 0.0 seconds. *)
Definition patient : World :=
  with_min_compile_time world (Some (float_lit 10 0)).

Definition no_minimum : World :=
  with_min_compile_time world (Some (S754_zero false)).

End Scenario.

(** ** Vocabulary of the further properties *)

Definition is_digit (c : codepoint) : bool := in_range 48%N 57%N c.

(** The pattern of line 223: [f"jax_ir{id}_{safe_name}.mlir"]. *)
Definition dump_file_name (w : World) (id : nat) (name : str) : str :=
  py "jax_ir" ++ str_of_nat id ++ py "_"
  ++ _make_string_safe_for_filename w name ++ py ".mlir".

(** Lines 65-66: the provider of the latest profile version, as the module
    defines it before any patch. *)
Module Unpatched.

Definition get_latest_profile_version (_ : unit) : Z := -1.

End Unpatched.

Definition is_log (e : Event) : bool :=
  match e with EvLog _ _ _ => true | _ => false end.

(** Two outcomes that differ at most by the message of the exception. *)
Definition same_up_to_message {A} (o o' : result A) : Prop :=
  match o, o' with
  | Ok x, Ok x' => x = x'
  | Raise e, Raise e' => exn_class_of e = exn_class_of e'
  | _, _ => False
  end.

Definition is_lookup (e : Event) : bool :=
  match e with EvCacheGet _ _ _ => true | _ => false end.

Definition is_warning (e : Event) : bool :=
  match e with EvWarn _ _ => true | _ => false end.

Definition is_write_text (e : Event) : bool :=
  match e with EvWriteText _ _ _ => true | _ => false end.

(** The same process with another persistent cache and another setting of
    [jax_raise_persistent_cache_errors]. *)
Definition with_cache (w : World) (raise_errors : bool)
    (key : ir_Module -> ndarray -> CompileOptions -> Client -> bool ->
           result str)
    (lookup : str -> CompileOptions -> Client ->
              result (option LoadedExecutable * option Z))
    (put : str -> str -> LoadedExecutable -> Client -> Z -> result unit)
    : World :=
  {| _DISABLE_MOST_OPTIMIZATIONS := _DISABLE_MOST_OPTIMIZATIONS w;
     _DUMP_IR_TO := _DUMP_IR_TO w;
     jax_xla_profile_version := jax_xla_profile_version w;
     jax_raise_persistent_cache_errors := raise_errors;
     jax_persistent_cache_min_compile_time_secs :=
       jax_persistent_cache_min_compile_time_secs w;
     jax_use_original_compilation_cache_key_generation :=
       jax_use_original_compilation_cache_key_generation w;
     XLA_FLAGS := XLA_FLAGS w;
     cuda_path := cuda_path w;
     unicode_isalnum := unicode_isalnum w;
     get_latest_profile_version := get_latest_profile_version w;
     xc_CompileOptions := xc_CompileOptions w;
     xc_DeviceAssignment_create := xc_DeviceAssignment_create w;
     is_initialized := is_initialized w;
     get_cache_key := key;
     get_executable_and_time := lookup;
     put_executable_and_time := put;
     monotonic_reading := monotonic_reading w |}.

(** The same process with another directory for the dumps of the IR. *)
Definition with_dump_dir (w : World) (dir : str) : World :=
  {| _DISABLE_MOST_OPTIMIZATIONS := _DISABLE_MOST_OPTIMIZATIONS w;
     _DUMP_IR_TO := dir;
     jax_xla_profile_version := jax_xla_profile_version w;
     jax_raise_persistent_cache_errors := jax_raise_persistent_cache_errors w;
     jax_persistent_cache_min_compile_time_secs :=
       jax_persistent_cache_min_compile_time_secs w;
     jax_use_original_compilation_cache_key_generation :=
       jax_use_original_compilation_cache_key_generation w;
     XLA_FLAGS := XLA_FLAGS w;
     cuda_path := cuda_path w;
     unicode_isalnum := unicode_isalnum w;
     get_latest_profile_version := get_latest_profile_version w;
     xc_CompileOptions := xc_CompileOptions w;
     xc_DeviceAssignment_create := xc_DeviceAssignment_create w;
     is_initialized := is_initialized w;
     get_cache_key := get_cache_key w;
     get_executable_and_time := get_executable_and_time w;
     put_executable_and_time := put_executable_and_time w;
     monotonic_reading := monotonic_reading w |}.

Module Faults.

Import Sample.

Definition key_error : exn :=
  {| exn_class_of := OtherException "TypeError";
     exn_template := "cannot serialize the compile options";
     exn_args := [] |}.

Definition disk_full : exn :=
  {| exn_class_of := OtherException "OSError";
     exn_template := "no space left on device";
     exn_args := [] |}.

Definition interrupt : exn :=
  {| exn_class_of := KeyboardInterrupt; exn_template := ""; exn_args := [] |}.

Definition compiler_error : exn :=
  {| exn_class_of := OtherException "XlaRuntimeError";
     exn_template := "INTERNAL: compilation failed";
     exn_args := [] |}.

(** The key cannot be derived. *)
Definition no_key : World :=
  with_cache world false (fun _ _ _ _ _ => Raise key_error)
    (get_executable_and_time world) (put_executable_and_time world).

(** The cache cannot be written; errors are warnings, or are raised. *)
Definition read_only (raise_errors : bool) : World :=
  with_cache world raise_errors (get_cache_key world)
    (get_executable_and_time world) (fun _ _ _ _ _ => Raise disk_full).

(** The cache fails on every access. *)
Definition broken : World :=
  with_cache world false (get_cache_key world)
    (fun _ _ _ => Raise Scenario.io_error) (fun _ _ _ _ _ => Raise disk_full).

(** The lookup is interrupted from the keyboard. *)
Definition interrupted : World :=
  with_cache world false (get_cache_key world)
    (fun _ _ _ => Raise interrupt) (put_executable_and_time world).

(** A TPU backend whose compiler fails. *)
Definition failing_tpu : Client :=
  {| platform := py "tpu";
     needs_str_ir := None;
     compile_fn := fun _ _ _ => Raise compiler_error |}.

End Faults.

(** * Properties *)

(** ** Running the monad *)

Lemma run_eta {A} (run : result A * State * list Event) :
  run = (outcome run, final run, events run).
Proof. destruct run as [[r s] l]; reflexivity. Qed.

Lemma after_nil {A} (run : result A * State * list Event) : after [] run = run.
Proof. destruct run as [[r s] l]; reflexivity. Qed.

Lemma after_after {A} evs evs' (run : result A * State * list Event) :
  after evs (after evs' run) = after (evs ++ evs') run.
Proof. unfold after; cbn. now rewrite app_assoc. Qed.

Lemma outcome_after {A} evs (run : result A * State * list Event) :
  outcome (after evs run) = outcome run.
Proof. reflexivity. Qed.

Lemma final_after {A} evs (run : result A * State * list Event) :
  final (after evs run) = final run.
Proof. reflexivity. Qed.

Lemma events_after {A} evs (run : result A * State * list Event) :
  events (after evs run) = evs ++ events run.
Proof. reflexivity. Qed.

Section Run.

Context {A B : Type}.

Lemma bind_ret (a : A) (k : A -> M B) st : bind (ret a) k st = k a st.
Proof. unfold bind, ret. apply after_nil. Qed.

Lemma bind_raise (e : exn) (k : A -> M B) st :
  bind (raise e) k st = (Raise e, st, []).
Proof. reflexivity. Qed.

Lemma bind_lift (r : result A) (k : A -> M B) st :
  bind (lift r) k st
  = match r with Ok a => k a st | Raise e => (Raise e, st, []) end.
Proof. unfold bind, lift. destruct r; [apply after_nil | reflexivity]. Qed.

Lemma bind_emit (e : Event) (k : unit -> M B) st :
  bind (emit e) k st = after [e] (k tt st).
Proof. reflexivity. Qed.

Lemma bind_time_monotonic w (k : float -> M B) st :
  bind (time_monotonic w) k st
  = k (monotonic_reading w (clock_reads st)) (tick st).
Proof. unfold bind, time_monotonic. apply after_nil. Qed.

Lemma bind_assoc {C} (m : M A) (k : A -> M B) (h : B -> M C) st :
  bind (bind m k) h st = bind m (fun a => bind (k a) h) st.
Proof.
  unfold bind. destruct (m st) as [[[a|e] s] l]; [|reflexivity].
  destruct (k a s) as [[[b|e] s'] l']; cbn; [|reflexivity].
  now rewrite after_after.
Qed.

End Run.

Lemma bind_py_assert {B} (c : bool) (k : unit -> M B) st :
  bind (py_assert c) k st
  = if c then k tt st else (Raise assertion_error, st, []).
Proof. unfold py_assert. destruct c; [apply bind_ret | apply bind_raise]. Qed.

Ltac run_step :=
  first [ rewrite bind_ret | rewrite bind_raise | rewrite bind_lift
        | rewrite bind_emit | rewrite bind_time_monotonic
        | rewrite bind_py_assert | rewrite bind_assoc ].

Ltac run := unfold logger_debug, logger_info, logger_error, warnings_warn,
              record_event_duration_secs; repeat run_step.

(** ** Strings *)

Lemma startswith_spec (needle hay : str) :
  startswith needle hay = true <-> exists post, hay = needle ++ post.
Proof.
  revert hay. induction needle as [|c needle IH]; intros hay; cbn.
  - split; [exists hay; reflexivity | reflexivity].
  - destruct hay as [|d hay].
    + split; [discriminate | intros [post H]; discriminate].
    + rewrite andb_true_iff, N.eqb_eq, IH. split.
      * intros [-> [post ->]]. now exists post.
      * intros [post [= -> ->]]. split; [reflexivity | now exists post].
Qed.

Lemma contains_spec (needle hay : str) :
  contains needle hay = true <-> exists pre post, hay = pre ++ needle ++ post.
Proof.
  induction hay as [|d hay IH].
  - cbn [contains]. rewrite orb_false_r, startswith_spec. split.
    + intros [post H]. now exists [], post.
    + intros (pre & post & H). destruct pre as [|x pre]; [|discriminate].
      now exists post.
  - cbn [contains]. rewrite orb_true_iff, startswith_spec, IH. split.
    + intros [[post H] | (pre & post & H)].
      * now exists [], post.
      * exists (d :: pre), post. cbn. now rewrite H.
    + intros (pre & post & H). destruct pre as [|x pre].
      * left. now exists post.
      * right. injection H as _ H. now exists pre, post.
Qed.

Lemma str_eqb_spec (a b : str) : str_eqb a b = true <-> a = b.
Proof.
  unfold str_eqb. destruct (list_eq_dec N.eq_dec a b); split;
    congruence.
Qed.

Lemma str_in_spec (x : str) (l : list str) : str_in x l = true <-> In x l.
Proof.
  unfold str_in. rewrite existsb_exists. split.
  - intros (y & Hy & Heq). apply str_eqb_spec in Heq. now subst.
  - intros H. exists x. split; [exact H | now apply str_eqb_spec].
Qed.

(** ** Floats *)

Lemma SFcompare_antisym (x y : float) :
  SFcompare y x = option_map CompOpp (SFcompare x y).
Proof.
  destruct x as [sx|sx| |sx mx ex], y as [sy|sy| |sy my ey]; cbn;
    try reflexivity;
    try (destruct sx; reflexivity);
    try (destruct sy; reflexivity);
    try (destruct sx, sy; reflexivity).
  rewrite (Z.compare_antisym ex ey).
  assert (Hm : Pos.compare_cont Eq my mx = CompOpp (Pos.compare_cont Eq mx my))
    by (symmetry; apply (Pos.compare_cont_antisym mx my Eq)).
  rewrite Hm.
  destruct sx, sy; cbn; try reflexivity;
    destruct (ex ?= ey); cbn; try reflexivity.
Qed.

(** On numbers, "not less than" is "at least". *)
Lemma flt_false_iff_fle (d t : float) :
  is_nan d = false -> is_nan t = false ->
  (flt d t = false <-> fle t d = true).
Proof.
  intros Hd Ht. unfold flt, fle, SFltb, SFleb.
  rewrite (SFcompare_antisym d t).
  destruct (SFcompare d t) as [[| |]|] eqn:Hc; cbn; try easy.
  destruct d, t; cbn in *; try discriminate.
Qed.

(** [int] truncates toward zero: it is the quotient of the exact value,
    rounded toward zero. *)
Lemma int_of_float_truncates (x : float) (z : Z) :
  int_of_float x = Ok z -> z = Z.quot (numerator x) (denominator x).
Proof.
  destruct x as [s|s| |s m e]; cbn [int_of_float numerator denominator];
    try discriminate.
  - intros [= <-]. reflexivity.
  - intros [= <-].
    destruct e as [|p|p].
    + cbn [Z.max Z.opp Z.compare]. rewrite Z.shiftl_0_r, Z.mul_1_r.
      change (2 ^ 0) with 1. now rewrite Z.quot_1_r.
    + rewrite Z.shiftl_mul_pow2 by lia.
      replace (Z.max (Z.pos p) 0) with (Z.pos p) by lia.
      replace (Z.max (- Z.pos p) 0) with 0 by lia.
      change (2 ^ 0) with 1. now rewrite Z.quot_1_r.
    + replace (Z.max (Z.neg p) 0) with 0 by lia.
      replace (Z.max (- Z.neg p) 0) with (Z.pos p) by lia.
      change (2 ^ 0) with 1. rewrite Z.mul_1_r.
      change (Z.neg p) with (- Z.pos p).
      rewrite Z.shiftl_opp_r, Z.shiftr_div_pow2 by lia.
      assert (Hpow : 0 < 2 ^ Z.pos p) by (apply Z.pow_pos_nonneg; lia).
      destruct s; cbn [cond_Zopp].
      * rewrite Z.quot_opp_l by lia. f_equal.
        symmetry. apply Z.quot_div_nonneg; lia.
      * symmetry. apply Z.quot_div_nonneg; lia.
Qed.

Lemma int_of_float_finite (x : float) :
  is_finite x = true -> exists z, int_of_float x = Ok z.
Proof. destruct x; try discriminate; intros _; eexists; reflexivity. Qed.

(** *** [float(i)] is exact below 2^53 *)

Lemma digits2_pos_iter_xO (m k : positive) :
  digits2_pos (Pos.iter xO m k) = (digits2_pos m + k)%positive.
Proof.
  induction k as [|k IH] using Pos.peano_ind.
  - cbn. now rewrite Pos.add_1_r.
  - rewrite Pos.iter_succ. cbn [digits2_pos]. rewrite IH. lia.
Qed.

Lemma Zpos_iter_xO (m k : positive) :
  Zpos (Pos.iter xO m k) = Zpos m * 2 ^ Zpos k.
Proof.
  induction k as [|k IH] using Pos.peano_ind.
  - cbn [Pos.iter]. rewrite Pos2Z.inj_xO. lia.
  - rewrite Pos.iter_succ, Pos2Z.inj_xO, IH, Pos2Z.inj_succ, Z.pow_succ_r by lia.
    lia.
Qed.

Lemma digits2_pos_lower (m : positive) :
  2 ^ (Zpos (digits2_pos m) - 1) <= Zpos m.
Proof.
  induction m as [m IH|m IH|]; cbn [digits2_pos]; [| |cbn; lia];
    rewrite Pos2Z.inj_succ;
    replace (Z.succ (Zpos (digits2_pos m)) - 1)
      with (Z.succ (Zpos (digits2_pos m) - 1)) by lia;
    rewrite Z.pow_succ_r by lia; lia.
Qed.

Lemma binary_round_aux_canonical (sx : bool) (mz : positive) (ez : Z) :
  bounded prec emax mz ez = true ->
  binary_round_aux prec emax sx (Zpos mz) ez loc_Exact = S754_finite sx mz ez.
Proof.
  unfold bounded, canonical_mantissa. rewrite andb_true_iff, Z.eqb_eq.
  intros [Hc He].
  unfold binary_round_aux, shr_fexp.
  cbn [Zdigits2 shr_record_of_loc]. rewrite Hc, Z.sub_diag.
  cbn [shr shr_m loc_of_shr_record round_nearest_even Zdigits2
       shr_record_of_loc].
  rewrite Hc, Z.sub_diag. cbn [shr shr_m]. now rewrite He.
Qed.

Lemma binary_round_small (sx : bool) (m : positive) :
  Zpos m < 2 ^ 53 ->
  exists mz ez,
    binary_round prec emax sx m 0 = S754_finite sx mz ez
    /\ bounded prec emax mz ez = true
    /\ ez <= 0
    /\ Zpos mz = Zpos m * 2 ^ (- ez).
Proof.
  intros Hm.
  assert (Hd : Zpos (digits2_pos m) <= 53).
  { assert (H := digits2_pos_lower m).
    destruct (Z_le_gt_dec (Zpos (digits2_pos m)) 53) as [Hle|Hgt];
      [exact Hle|].
    assert (2 ^ 53 <= 2 ^ (Zpos (digits2_pos m) - 1))
      by (apply Z.pow_le_mono_r; lia).
    lia. }
  unfold binary_round, shl_align.
  assert (Hf : fexp prec emax (Zpos (digits2_pos m) + 0)
               = Zpos (digits2_pos m) - 53).
  { unfold fexp, emin, prec, emax. lia. }
  rewrite Hf.
  destruct (Zpos (digits2_pos m) - 53 - 0) as [|p|p] eqn:Hk; [|lia|].
  - exists m, 0. split; [|split; [|split]].
    + apply binary_round_aux_canonical.
      unfold bounded, canonical_mantissa, fexp, emin, prec, emax.
      rewrite andb_true_iff, Z.eqb_eq, Z.leb_le. lia.
    + unfold bounded, canonical_mantissa, fexp, emin, prec, emax.
      rewrite andb_true_iff, Z.eqb_eq, Z.leb_le. lia.
    + lia.
    + cbn. lia.
  - exists (Pos.iter xO m p), (Zpos (digits2_pos m) - 53).
    assert (Hb : bounded prec emax (Pos.iter xO m p)
                   (Zpos (digits2_pos m) - 53) = true).
    { unfold bounded, canonical_mantissa, fexp, emin, prec, emax.
      rewrite digits2_pos_iter_xO, andb_true_iff, Z.eqb_eq, Z.leb_le. lia. }
    split; [|split; [|split]].
    + now apply binary_round_aux_canonical.
    + exact Hb.
    + lia.
    + rewrite Zpos_iter_xO. f_equal. f_equal. lia.
Qed.

Lemma float_of_int_exact (i : Z) :
  Z.abs i < 2 ^ 53 ->
  exists f, float_of_int i = Ok f /\ represents f i.
Proof.
  intros Hi. unfold float_of_int, binary_normalize.
  destruct i as [|m|m].
  - exists (S754_zero false). split; [reflexivity|]. now repeat split.
  - destruct (binary_round_small false m Hi) as (mz & ez & -> & Hb & He & Hv).
    eexists. split; [reflexivity|].
    split; [exact Hb|]. split; [reflexivity|]. split; [|discriminate].
    unfold numerator, denominator. cbn [cond_Zopp].
    rewrite Z.max_r, Z.max_l by lia. rewrite Z.pow_0_r. lia.
  - destruct (binary_round_small true m Hi) as (mz & ez & -> & Hb & He & Hv).
    eexists. split; [reflexivity|].
    split; [exact Hb|]. split; [reflexivity|]. split; [|discriminate].
    unfold numerator, denominator. cbn [cond_Zopp].
    rewrite Z.max_r, Z.max_l by lia. rewrite Z.pow_0_r. lia.
Qed.

(** ** [backend_compile] *)

(** C9: a backend without the attribute [needs_str_ir] is compiled from the
    bytecode of the module, as one whose attribute is true; the module object
    itself is handed to [backend.compile] exactly when the attribute is
    present and false.  In every case the native entry point is called once,
    with the keyword [host_callbacks] only when the sequence is not empty. *)
Theorem backend_compile_needs_str_ir_default :
  forall backend module options host_callbacks st,
  exists built,
    backend_compile backend module options host_callbacks st
    = (let hc := if nonempty host_callbacks then Some host_callbacks else None in
       (compile_fn backend built options hc, st,
        [EvCompile backend built options hc]))
    /\ (needs_str_ir backend = None \/ needs_str_ir backend = Some true ->
        built = Bytecode (_module_to_bytecode module))
    /\ (built = ModuleObject module <-> needs_str_ir backend = Some false).
Proof.
  intros backend module options host_callbacks st.
  unfold backend_compile, getattr_needs_str_ir.
  destruct (needs_str_ir backend) as [[|]|] eqn:Hattr.
  - exists (Bytecode (_module_to_bytecode module)).
    split; [destruct host_callbacks; reflexivity|].
    split; [reflexivity|]. split; discriminate.
  - exists (ModuleObject module).
    split; [destruct host_callbacks; reflexivity|].
    split; [intros [H|H]; discriminate|]. split; reflexivity.
  - exists (Bytecode (_module_to_bytecode module)).
    split; [destruct host_callbacks; reflexivity|].
    split; [reflexivity|]. split; discriminate.
Qed.

(** A TPU backend without the attribute receives the bytecode. *)
Lemma backend_compile_needs_str_ir_default_witness :
  outcome (backend_compile Sample.tpu Sample.module Sample.options [] Sample.start)
  = Ok Sample.executable
  /\ events (backend_compile Sample.tpu Sample.module Sample.options []
               Sample.start)
     = [EvCompile Sample.tpu (Bytecode [77; 76; 239; 82]%N) Sample.options None].
Proof.
  destruct (backend_compile_needs_str_ir_default
              Sample.tpu Sample.module Sample.options [] Sample.start)
    as (built & Hrun & Hdefault & _).
  rewrite Hrun, (Hdefault (or_introl eq_refl)).
  split; reflexivity.
Defined.

(** ** [get_compile_options] *)

(** Whatever its outcome, the conversion of a device assignment emits one
    debug log and nothing else, and leaves the state alone. *)
Lemma convert_device_assignment_events :
  forall w nr np a st,
    events (convert_device_assignment w nr np a st)
    = [EvLog DEBUG
         "get_compile_options: num_replicas=%s num_partitions=%s device_assignment=%s"
         [ArgInt nr; ArgInt np; ArgArray a]]
    /\ final (convert_device_assignment w nr np a st) = st.
Proof.
  intros w nr np a st.
  unfold convert_device_assignment, ValueError_format.
  run. rewrite events_after, final_after.
  destruct (tuple_index _ 0); [|split; reflexivity].
  destruct (negb _); run; [split; reflexivity|].
  destruct (tuple_index _ 1); [|split; reflexivity].
  destruct (negb _); run; [split; reflexivity|].
  destruct (ids_of_devices _); [|split; reflexivity].
  run. destruct (xc_DeviceAssignment_create _ _); [|split; reflexivity].
  run. destruct (_ =? _); [|split; reflexivity].
  run. destruct (_ =? _); split; reflexivity.
Qed.

Lemma resolve_profile_version_run :
  forall w st,
    resolve_profile_version w st
    = if jax_xla_profile_version w >? 0 then
        (Ok (jax_xla_profile_version w), st,
         [EvLog DEBUG
            "get_compile_options XLA-AutoFDO profile: using JAX XLA profile version %d from flag"
            [ArgInt (jax_xla_profile_version w)]])
      else if get_latest_profile_version w tt =? 0 then
        (Ok (-1), st, [profile_version_error])
      else
        (Ok (get_latest_profile_version w tt), st,
         [EvLog DEBUG
            "get_compile_options XLA-AutoFDO profile: using XLA-AutoFDO profile version %d"
            [ArgInt (get_latest_profile_version w tt)]]).
Proof.
  intros w st. unfold resolve_profile_version.
  destruct (_ >? 0); [reflexivity|].
  destruct (_ =? 0); reflexivity.
Qed.

(** With an accepted device assignment, [get_compile_options] comes down to
    the resolution of the profile version, whose result is stored in the
    options. *)
Lemma get_compile_options_run :
  forall w nr np da spmd auto mesh_shape mesh_ids env fdo st,
    device_assignment_accepted w nr np da st ->
    exists (k : Z -> CompileOptions) (pre : list Event),
      (forall v, profile_version (k v) = v)
      /\ (forall v a d,
            da = Some a ->
            outcome (convert_device_assignment w nr np a st) = Ok d ->
            device_assignment (k v) = Some d)
      /\ filter is_error_log pre = []
      /\ get_compile_options w nr np da spmd auto mesh_shape mesh_ids env fdo st
         = after pre (bind (resolve_profile_version w) (fun v => ret (k v)) st).
Proof.
  intros w nr np da spmd auto mesh_shape mesh_ids env fdo st Hda.
  unfold get_compile_options.
  destruct da as [a|]; unfold device_assignment_accepted in Hda.
  - destruct Hda as [d Hd].
    destruct (convert_device_assignment_events w nr np a st) as [Hev Hfin].
    rewrite bind_assoc.
    unfold bind at 1.
    rewrite (run_eta (convert_device_assignment w nr np a st)), Hd, Hev, Hfin.
    rewrite bind_ret.
    eexists (fun v => _), _.
    split; [|split; [|split; [|reflexivity]]]; [reflexivity| |reflexivity].
    intros v a' d' [= <-] Hd'. cbn. congruence.
  - rewrite bind_ret.
    eexists (fun v => _), [].
    split; [|split; [|split; [|now rewrite after_nil]]];
      [reflexivity|discriminate|reflexivity].
Qed.

Lemma resolve_profile_version_total :
  forall w st, exists v evs, resolve_profile_version w st = (Ok v, st, evs).
Proof.
  intros w st. rewrite resolve_profile_version_run.
  destruct (_ >? 0); [|destruct (_ =? 0)]; eexists _, _; reflexivity.
Qed.

(** C5: the profile version of the options is the configured version when
    that is positive; otherwise what the provider of the latest version
    returns when that is not zero; otherwise -1, with one error-level log.
    None of the three cases fails the call: whenever the device assignment
    (if any) is accepted, [get_compile_options] returns options. *)
Theorem get_compile_options_profile_version :
  forall w nr np da spmd auto mesh_shape mesh_ids env fdo st,
    device_assignment_accepted w nr np da st ->
    exists opts,
      outcome (get_compile_options w nr np da spmd auto mesh_shape mesh_ids
                 env fdo st) = Ok opts
      /\ let errors :=
           filter is_error_log
             (events (get_compile_options w nr np da spmd auto mesh_shape
                        mesh_ids env fdo st)) in
         (0 < jax_xla_profile_version w ->
            profile_version opts = jax_xla_profile_version w /\ errors = [])
         /\ (jax_xla_profile_version w <= 0 ->
             get_latest_profile_version w tt <> 0 ->
               profile_version opts = get_latest_profile_version w tt /\ errors = [])
         /\ (jax_xla_profile_version w <= 0 ->
             get_latest_profile_version w tt = 0 ->
               profile_version opts = -1 /\ errors = [profile_version_error]).
Proof.
  intros w nr np da spmd auto mesh_shape mesh_ids env fdo st Hda.
  destruct (get_compile_options_run w nr np da spmd auto mesh_shape mesh_ids
              env fdo st Hda)
    as (k & pre & Hk & _ & Hpre & ->).
  unfold bind. rewrite resolve_profile_version_run, Z.gtb_ltb.
  destruct (Z.ltb_spec 0 (jax_xla_profile_version w)) as [Hv|Hv];
    [|destruct (Z.eqb_spec (get_latest_profile_version w tt) 0) as [Hl|Hl]];
    (eexists; split; [reflexivity|]);
    unfold after, ret, events, outcome; cbn [fst snd];
    rewrite filter_app, Hpre, Hk; cbn;
    repeat split; intros; try reflexivity; try lia; try contradiction.
Qed.

(** No flag, and the provider of the source, which returns -1. *)
Lemma get_compile_options_profile_version_witness :
  exists opts,
    outcome (get_compile_options Sample.world 1 1 None true false None None
               None None Sample.start) = Ok opts
    /\ profile_version opts = -1.
Proof.
  destruct (get_compile_options_profile_version
              Sample.world 1 1 None true false None None None None
              Sample.start I) as (opts & Hrun & _ & Hlatest & _).
  exists opts. split; [exact Hrun|].
  destruct Hlatest as [Hv _]; [cbn; lia | cbn; lia | exact Hv].
Defined.

(** *** The shape of the device assignment *)

Lemma convert_device_assignment_run :
  forall w nr np a st,
    convert_device_assignment w nr np a st
    = after [EvLog DEBUG
               "get_compile_options: num_replicas=%s num_partitions=%s device_assignment=%s"
               [ArgInt nr; ArgInt np; ArgArray a]]
        (match tuple_index (shape (allow_1d np a)) 0 with
         | Raise e => (Raise e, st, [])
         | Ok shape0 =>
             if negb (nr =? shape0) then
               (Raise {| exn_class_of := ValueError;
                         exn_template :=
                           "device_assignment does not match num_replicas: {} vs {}.";
                         exn_args := [ArgArray (allow_1d np a); ArgInt nr] |},
                st, [])
             else
               match tuple_index (shape (allow_1d np a)) 1 with
               | Raise e => (Raise e, st, [])
               | Ok shape1 =>
                   if negb (np =? shape1) then
                     (Raise {| exn_class_of := ValueError;
                               exn_template :=
                                 "device_assignment does not match num_partitions: {} vs {}.";
                               exn_args :=
                                 [ArgArray (allow_1d np a); ArgInt np] |},
                      st, [])
                   else
                     match ids_of_devices (allow_1d np a) with
                     | Raise e => (Raise e, st, [])
                     | Ok ids =>
                         match xc_DeviceAssignment_create w ids with
                         | Raise e => (Raise e, st, [])
                         | Ok d =>
                             if replica_count d =? nr then
                               if computation_count d =? np
                               then (Ok d, st, [])
                               else (Raise assertion_error, st, [])
                             else (Raise assertion_error, st, [])
                         end
                     end
               end
         end).
Proof.
  intros w nr np a st.
  unfold convert_device_assignment, ValueError_format. fold (allow_1d np a).
  run. f_equal.
  destruct (tuple_index _ 0); [|reflexivity].
  destruct (negb _); run; [reflexivity|].
  destruct (tuple_index _ 1); [|reflexivity].
  destruct (negb _); run; [reflexivity|].
  destruct (ids_of_devices _); [|reflexivity].
  run. destruct (xc_DeviceAssignment_create _ _); [|reflexivity].
  run. destruct (_ =? _); [|reflexivity].
  run. destruct (_ =? _); reflexivity.
Qed.

(** [get_compile_options] fails as the conversion of the device assignment
    does. *)
Lemma get_compile_options_raise :
  forall w nr np a spmd auto mesh_shape mesh_ids env fdo st e,
    outcome (convert_device_assignment w nr np a st) = Raise e ->
    outcome (get_compile_options w nr np (Some a) spmd auto mesh_shape
               mesh_ids env fdo st) = Raise e.
Proof.
  intros w nr np a spmd auto mesh_shape mesh_ids env fdo st e He.
  unfold get_compile_options. rewrite bind_assoc. unfold bind at 1.
  rewrite (run_eta (convert_device_assignment w nr np a st)), He.
  reflexivity.
Qed.

(** C6 as stated: every assignment whose shape is not [(num_replicas,
    num_partitions)], the 1-dimensional one with one partition apart, is
    refused with a [ValueError] whose message quotes the actual and the
    expected shape.  It does not hold.  Three devices in a column for two
    replicas and one partition are refused with a [ValueError], but its
    message is formatted from the assignment array and the number of
    replicas: neither shape is among the quoted values.  And a 1-dimensional
    assignment of two devices for two replicas and two partitions passes the
    check of the first axis; the check of the second axis then reads
    [shape[1]] of a 1-tuple, which is an [IndexError]. *)
Lemma get_compile_options_shape_mismatch_not_as_stated :
  (shape Sample.three_by_one <> [2; 1]
   /\ ~ refused_quoting_shapes
         (get_compile_options Sample.world 2 1 (Some Sample.three_by_one)
            true false None None None None Sample.start)
         (shape Sample.three_by_one) [2; 1])
  /\ (shape Sample.two_ids <> [2; 2]
      /\ ~ raises ValueError
            (get_compile_options Sample.world 2 2 (Some Sample.two_ids) true
               false None None None None Sample.start)).
Proof.
  split; (split; [discriminate|]).
  - intros (e & He & _ & Hactual & _).
    vm_compute in He. injection He as <-.
    cbn in Hactual. destruct Hactual as [H|[H|[]]]; discriminate H.
  - intros (e & He & Hc).
    vm_compute in He. injection He as <-. discriminate Hc.
Qed.

(** C6, amended: what the validation of lines 118-128 does.  A 1-dimensional
    assignment of [num_replicas] devices with one partition gets the shape
    [(num_replicas, 1)] and is accepted: once its devices are turned into ids
    and the device assignment object is built, the options carry that object.
    An assignment that has, after that reshape, at least two axes is refused
    with a [ValueError] when its first axis is not [num_replicas], and
    otherwise when its second axis is not [num_partitions]; the message is
    formatted from the assignment array and the expected count. *)
Theorem get_compile_options_device_assignment_shape :
  forall w nr np a spmd auto mesh_shape mesh_ids env fdo st,
    let run := get_compile_options w nr np (Some a) spmd auto mesh_shape
                 mesh_ids env fdo st in
    (shape a = [nr] -> np = 1 ->
       shape (allow_1d np a) = [nr; 1]
       /\ forall ids d,
            ids_of_devices (allow_1d np a) = Ok ids ->
            xc_DeviceAssignment_create w ids = Ok d ->
            replica_count d = nr -> computation_count d = 1 ->
            shape ids = [nr; 1]
            /\ exists opts,
                 outcome run = Ok opts /\ device_assignment opts = Some d)
    /\ (forall s0 s1 rest,
          shape (allow_1d np a) = s0 :: s1 :: rest -> s0 <> nr ->
          outcome run
          = Raise {| exn_class_of := ValueError;
                     exn_template :=
                       "device_assignment does not match num_replicas: {} vs {}.";
                     exn_args := [ArgArray (allow_1d np a); ArgInt nr] |})
    /\ (forall s1 rest,
          shape (allow_1d np a) = nr :: s1 :: rest -> s1 <> np ->
          outcome run
          = Raise {| exn_class_of := ValueError;
                     exn_template :=
                       "device_assignment does not match num_partitions: {} vs {}.";
                     exn_args := [ArgArray (allow_1d np a); ArgInt np] |}).
Proof.
  intros w nr np a spmd auto mesh_shape mesh_ids env fdo st run.
  split; [|split].
  - intros Hshape ->.
    assert (Hallow : shape (allow_1d 1 a) = [nr; 1]).
    { unfold allow_1d, ndim. rewrite Hshape. cbn. now rewrite Hshape. }
    split; [exact Hallow|].
    intros ids d Hids Hcreate Hr Hc.
    assert (Hconv : outcome (convert_device_assignment w nr 1 a st) = Ok d).
    { rewrite convert_device_assignment_run, outcome_after, Hallow. cbn.
      rewrite Z.eqb_refl. cbn. rewrite Hids, Hcreate, Hr, Hc, !Z.eqb_refl.
      reflexivity. }
    split.
    + unfold ids_of_devices, vectorize_id in Hids.
      destruct (dtype _); [injection Hids as <-; exact Hallow|].
      destruct (ids_of _); [injection Hids as <-; exact Hallow|discriminate].
    + destruct (get_compile_options_run w nr 1 (Some a) spmd auto mesh_shape
                  mesh_ids env fdo st (ex_intro _ d Hconv))
        as (k & pre & _ & Hk & _ & Hrun).
      destruct (resolve_profile_version_total w st) as (v & evs & Hv).
      exists (k v). split; [|apply (Hk v a d eq_refl Hconv)].
      subst run. rewrite Hrun, outcome_after. unfold bind. now rewrite Hv.
  - intros s0 s1 rest Hshape Hs0.
    apply get_compile_options_raise.
    rewrite convert_device_assignment_run, outcome_after, Hshape. cbn.
    destruct (Z.eqb_spec nr s0); [congruence | reflexivity].
  - intros s1 rest Hshape Hs1.
    apply get_compile_options_raise.
    rewrite convert_device_assignment_run, outcome_after, Hshape. cbn.
    rewrite Z.eqb_refl. cbn.
    destruct (Z.eqb_spec np s1); [congruence | reflexivity].
Qed.

(** [[0, 1]] for two replicas is accepted; three devices in a column are
    refused. *)
Lemma get_compile_options_device_assignment_shape_witness :
  (exists opts,
     outcome (get_compile_options Sample.world 2 1 (Some Sample.two_ids) true
                false None None None None Sample.start) = Ok opts
     /\ device_assignment opts
        = Some {| replica_count := 2; computation_count := 1;
                  assigned_ids := [0; 1] |})
  /\ outcome (get_compile_options Sample.world 2 1 (Some Sample.three_by_one)
                true false None None None None Sample.start)
     = Raise {| exn_class_of := ValueError;
                exn_template :=
                  "device_assignment does not match num_replicas: {} vs {}.";
                exn_args := [ArgArray Sample.three_by_one; ArgInt 2] |}.
Proof.
  split.
  - destruct (get_compile_options_device_assignment_shape
                Sample.world 2 1 Sample.two_ids true false None None None None
                Sample.start) as (H1d & _ & _).
    destruct (H1d eq_refl eq_refl) as (_ & Haccept).
    destruct (Haccept _ _ eq_refl eq_refl eq_refl eq_refl) as (_ & Hopts).
    exact Hopts.
  - destruct (get_compile_options_device_assignment_shape
                Sample.world 2 1 Sample.three_by_one true false None None None
                None Sample.start) as (_ & Hreplicas & _).
    apply (Hreplicas 3 1 [] eq_refl). discriminate.
Defined.

(** ** [_make_string_safe_for_filename] *)

Local Open Scope N_scope.

(** C7 as stated: the sanitised name is the module name without the
    characters outside [[A-Za-z0-9_.() -]].  It fails on the one-character
    name U+00E9 (e with acute accent): [\w] of a [str] pattern matches every
    Unicode alphanumeric character, so the character stays. *)
Lemma _make_string_safe_for_filename_keeps_e_acute :
  _make_string_safe_for_filename Sample.world [233]
  <> filter ascii_safe [233].
Proof. vm_compute. discriminate. Qed.

Lemma forall_below_256 (P : N -> bool) :
  forallb P (map N.of_nat (seq 0 256)) = true ->
  forall c, c < 256 -> P c = true.
Proof.
  intros Hall c Hc. rewrite forallb_forall in Hall. apply Hall.
  rewrite <- (N2Nat.id c). apply in_map, in_seq. lia.
Qed.

(** What the pattern [[^\w.)( -]] matches. *)
Lemma unsafe_for_filename_matches :
  forall beyond c,
    set_matches beyond unsafe_for_filename c
    = negb (ascii_safe c
            || (N.leb 128 c && Py_UNICODE_ISALNUM beyond c)).
Proof.
  intros beyond c.
  destruct (N.lt_ge_cases c 256) as [Hc|Hc].
  - apply Bool.eqb_prop. revert c Hc.
    apply (forall_below_256
             (fun c => Bool.eqb (set_matches beyond unsafe_for_filename c)
                         (negb (ascii_safe c
                                || (N.leb 128 c
                                    && Py_UNICODE_ISALNUM beyond c))))).
    vm_compute. reflexivity.
  - unfold set_matches, unsafe_for_filename, ascii_safe, item_matches,
      Py_UNICODE_ISALNUM, in_range. cbn [negate items existsb].
    repeat match goal with
           | |- context [N.eqb c ?k] => destruct (N.eqb_spec c k); [lia|]
           | |- context [N.leb c ?k] => destruct (N.leb_spec c k); [lia|]
           | |- context [N.leb ?k c] => destruct (N.leb_spec k c); [|lia]
           | |- context [N.ltb c ?k] => destruct (N.ltb_spec c k); [lia|]
           end.
    cbn. now rewrite !orb_false_r.
Qed.

(** C7, amended: the sanitised name keeps, in their order, the characters of
    [[A-Za-z0-9_.() -]] and the characters from U+0080 on that are
    alphanumeric in Unicode, and drops every other character. *)
Theorem _make_string_safe_for_filename_keeps :
  forall w s,
    _make_string_safe_for_filename w s
    = filter (fun c => ascii_safe c
                       || (N.leb 128 c
                           && Py_UNICODE_ISALNUM (unicode_isalnum w) c)) s.
Proof.
  intros w s. unfold _make_string_safe_for_filename, re_sub.
  induction s as [|c s IH]; [reflexivity|].
  cbn [flat_map filter]. rewrite IH, unsafe_for_filename_matches.
  destruct (ascii_safe c || _); reflexivity.
Qed.

Local Close Scope N_scope.

(** ** [compile_or_get_cached] *)

Lemma use_compilation_cache_spec (w : World) (backend : Client) :
  use_compilation_cache w backend = true <-> cache_eligible w backend.
Proof.
  unfold use_compilation_cache, cache_eligible, supported_platforms.
  rewrite andb_true_iff, str_in_spec.
  assert (Hflags : contains (py "--xla_cpu_use_xla_runtime=true")
                     (environ_XLA_FLAGS w) = true
                   <-> exists pre post,
                         XLA_FLAGS w
                         = Some (pre ++ py "--xla_cpu_use_xla_runtime=true"
                                 ++ post)).
  { rewrite contains_spec. unfold environ_XLA_FLAGS.
    destruct (XLA_FLAGS w) as [flags|].
    - split; intros (pre & post & H); exists pre, post;
        [now rewrite H | now injection H].
    - split; intros (pre & post & H); [|discriminate H].
      destruct pre; discriminate H. }
  destruct (contains _ (environ_XLA_FLAGS w)).
  - cbn [app In]. assert (H := proj1 Hflags eq_refl). intuition congruence.
  - assert (Hno : ~ exists pre post,
              XLA_FLAGS w
              = Some (pre ++ py "--xla_cpu_use_xla_runtime=true" ++ post)).
    { intros H. apply Hflags in H. discriminate H. }
    cbn [app In]. intuition congruence.
Qed.

(** *** The steps of a request *)

Lemma dump_run {B} w computation (k : unit -> M B) st :
  bind (if nonempty (_DUMP_IR_TO w)
        then _dump_ir_to_file w (sym_name computation)
               (_module_to_string computation)
        else ret tt) k st
  = after (dump_events w computation st) (k tt (dump_state w st)).
Proof.
  unfold dump_events, dump_state.
  destruct (nonempty (_DUMP_IR_TO w)).
  - unfold _dump_ir_to_file. rewrite bind_assoc.
    unfold bind at 1, next_ir_dump_counter. rewrite bind_emit.
    now rewrite after_after.
  - now rewrite bind_ret, after_nil.
Qed.

Lemma clock_reads_dump_state w st :
  clock_reads (dump_state w st) = clock_reads st.
Proof. unfold dump_state. now destruct (nonempty _). Qed.

Lemma dump_events_no_call w computation st (p : Event -> bool) :
  (forall dir file contents, p (EvWriteText dir file contents) = false) ->
  filter p (dump_events w computation st) = [].
Proof.
  intros Hp. unfold dump_events. destruct (nonempty _); [|reflexivity].
  cbn. now rewrite Hp.
Qed.

Lemma backend_compile_run backend module options host_callbacks st :
  backend_compile backend module options host_callbacks st
  = (compile_fn backend (built_for backend module) options
       (keyword_host_callbacks host_callbacks), st,
     [EvCompile backend (built_for backend module) options
        (keyword_host_callbacks host_callbacks)]).
Proof.
  unfold backend_compile, built_for, keyword_host_callbacks,
    backend_dot_compile.
  destruct (nonempty host_callbacks); rewrite bind_emit; reflexivity.
Qed.

Lemma _cache_read_run w module_name cache_key compile_options backend st :
  _cache_read w module_name cache_key compile_options backend st
  = match get_executable_and_time w cache_key compile_options backend with
    | Ok r => (Ok r, st, [EvCacheGet cache_key compile_options backend])
    | Raise ex =>
        if is_Exception (exn_class_of ex)
           && negb (jax_raise_persistent_cache_errors w)
        then (Ok (None, None), st,
              [EvCacheGet cache_key compile_options backend;
               read_warning module_name ex])
        else (Raise ex, st, [EvCacheGet cache_key compile_options backend])
    end.
Proof.
  unfold _cache_read, try_except, compilation_cache_get_executable_and_time.
  rewrite bind_emit. unfold lift, after. cbn [fst snd app].
  destruct (get_executable_and_time _ _ _ _) as [r|ex]; [reflexivity|].
  destruct (is_Exception _); [|reflexivity].
  destruct (jax_raise_persistent_cache_errors w); reflexivity.
Qed.

Lemma write_attempt_run w cache_key d module_name backend executable st :
  try_except
    (seconds <- lift (int_of_float d) ;;
     compilation_cache_put_executable_and_time w cache_key module_name
       executable backend seconds)
    (fun ex =>
       if jax_raise_persistent_cache_errors w then raise ex
       else
         warnings_warn
           "Error writing persistent compilation cache entry for '{module_name}': {type(ex).__name__}: {ex}"
           [ArgStr module_name; arg_of_exn ex]) st
  = write_attempt w cache_key d module_name backend executable st.
Proof.
  unfold try_except, write_attempt,
    compilation_cache_put_executable_and_time.
  rewrite bind_lift.
  destruct (int_of_float d) as [z|ex].
  - rewrite bind_emit. unfold lift, after. cbn [fst snd app].
    destruct (put_executable_and_time _ _ _ _ _ _) as [[]|ex]; [reflexivity|].
    destruct (is_Exception _); [|reflexivity].
    destruct (jax_raise_persistent_cache_errors w); reflexivity.
  - destruct (is_Exception _); [|reflexivity].
    destruct (jax_raise_persistent_cache_errors w); reflexivity.
Qed.

(** [_cache_write] logs its decision, and attempts the write when both gates
    are passed. *)
Lemma _cache_write_run w cache_key d module_name backend executable
    host_callbacks st :
  exists logs,
    forallb is_info_log logs = true
    /\ _cache_write w cache_key d module_name backend executable
         host_callbacks st
       = if admitted w host_callbacks d
         then after logs
                (write_attempt w cache_key d module_name backend executable st)
         else (Ok tt, st, logs).
Proof.
  unfold _cache_write, admitted, logger_info.
  destruct (nonempty host_callbacks); cbn [negb andb].
  - eexists. split; [|reflexivity]. reflexivity.
  - destruct (jax_persistent_cache_min_compile_time_secs w) as [t|].
    + destruct (float_bool t); cbn [andb].
      * destruct (flt d t); cbn [negb].
        -- eexists. split; [|reflexivity]. reflexivity.
        -- rewrite bind_emit, write_attempt_run.
           eexists. split; [|reflexivity]. reflexivity.
      * exists []. split; [reflexivity|].
        now rewrite after_nil, write_attempt_run.
    + exists []. split; [reflexivity|].
      now rewrite after_nil, write_attempt_run.
Qed.

Lemma compile_or_get_cached_ineligible
    w backend computation devices compile_options host_callbacks st :
  use_compilation_cache w backend = false ->
  compile_or_get_cached w backend computation devices compile_options
    host_callbacks st
  = after (dump_events w computation st)
      (backend_compile backend computation compile_options host_callbacks
         (dump_state w st)).
Proof.
  intros Huse. unfold compile_or_get_cached.
  now rewrite dump_run, Huse.
Qed.

Lemma compile_or_get_cached_eligible
    w backend computation devices compile_options host_callbacks st :
  use_compilation_cache w backend = true ->
  compile_or_get_cached w backend computation devices compile_options
    host_callbacks st
  = let st0 := dump_state w st in
    after
      (dump_events w computation st
       ++ [EvGetCacheKey computation devices compile_options backend
             (jax_use_original_compilation_cache_key_generation w)])
      match get_cache_key w computation devices compile_options backend
              (jax_use_original_compilation_cache_key_generation w) with
      | Raise e => (Raise e, st0, [])
      | Ok cache_key =>
          let lookup :=
            _cache_read w (sym_name computation) cache_key compile_options
              backend (tick st0) in
          after (events lookup)
            match outcome lookup with
            | Raise e => (Raise e, tick st0, [])
            | Ok (Some retrieved_executable, Some retrieved_compile_time) =>
                hit w (sym_name computation) retrieved_executable
                  retrieved_compile_time
                  (fsub (monotonic_reading w (S (clock_reads st)))
                     (monotonic_reading w (clock_reads st)))
                  (tick (tick st0))
            | Ok (Some _, None) => (Raise assertion_error, tick (tick st0), [])
            | Ok (None, _) =>
                compile_and_write w backend computation compile_options
                  host_callbacks cache_key (tick (tick st0))
            end
      end.
Proof.
  intros Huse. unfold compile_or_get_cached.
  rewrite dump_run, Huse. cbn [negb].
  unfold compilation_cache_get_cache_key. rewrite bind_assoc, bind_emit.
  rewrite after_after, bind_lift. cbv zeta. f_equal.
  destruct (get_cache_key _ _ _ _ _ _) as [cache_key|e]; [|reflexivity].
  rewrite bind_time_monotonic.
  assert (Hfinal : final (_cache_read w (sym_name computation) cache_key
                            compile_options backend (tick (dump_state w st)))
                   = tick (dump_state w st)).
  { rewrite _cache_read_run.
    destruct (get_executable_and_time _ _ _ _); [reflexivity|].
    destruct (_ && _); reflexivity. }
  unfold bind at 1.
  destruct (_cache_read _ _ _ _ _ _) as [[o s] evs].
  cbn [final outcome events fst snd] in *. subst s.
  destruct o as [[[exe|] [t|]]|e].
  - f_equal. rewrite bind_time_monotonic. unfold hit.
    unfold logger_info, record_event_duration_secs, int_sub_float.
    rewrite !bind_emit, bind_assoc, bind_lift, after_after.
    cbn [tick clock_reads]. rewrite clock_reads_dump_state.
    destruct (float_of_int t); [|reflexivity].
    now rewrite bind_ret, bind_emit.
  - reflexivity.
  - reflexivity.
  - reflexivity.
  - unfold after. cbn. now rewrite app_nil_r.
Qed.

Lemma compile_and_write_run
    w backend computation compile_options host_callbacks cache_key st :
  compile_and_write w backend computation compile_options host_callbacks
    cache_key st
  = after
      [EvCompile backend (built_for backend computation) compile_options
         (keyword_host_callbacks host_callbacks)]
      match compile_fn backend (built_for backend computation) compile_options
              (keyword_host_callbacks host_callbacks) with
      | Raise e => (Raise e, tick st, [])
      | Ok executable =>
          let write :=
            _cache_write w cache_key (measured w (clock_reads st))
              (sym_name computation) backend executable host_callbacks
              (tick (tick st)) in
          (match outcome write with
           | Ok _ => Ok executable
           | Raise e => Raise e
           end, final write, events write)
      end.
Proof.
  unfold compile_and_write. rewrite bind_time_monotonic.
  unfold bind at 1. rewrite backend_compile_run. f_equal.
  destruct (compile_fn _ _ _ _) as [executable|e]; [|reflexivity].
  rewrite bind_time_monotonic. unfold bind, measured. cbn [tick clock_reads].
  destruct (_cache_write _ _ _ _ _ _ _ _) as [[[[]|e] s] evs];
    unfold after, ret; cbn; now rewrite ?app_nil_r.
Qed.

(** [_cache_write] leaves the state of the process alone. *)
Lemma final__cache_write
    w cache_key d module_name backend executable host_callbacks st :
  final (_cache_write w cache_key d module_name backend executable
           host_callbacks st) = st.
Proof.
  destruct (_cache_write_run w cache_key d module_name backend executable
              host_callbacks st) as (logs & _ & ->).
  destruct (admitted _ _ _); [|reflexivity].
  rewrite final_after. unfold write_attempt.
  destruct (int_of_float d).
  - cbv zeta. destruct (put_executable_and_time _ _ _ _ _ _); [reflexivity|].
    destruct (_ && _); reflexivity.
  - destruct (_ && _); reflexivity.
Qed.

(** A TPU backend is eligible as soon as the cache is initialised. *)
Lemma tpu_eligible (w : World) :
  is_initialized w = true -> cache_eligible w Sample.tpu.
Proof. intros H. split; [exact H | left; reflexivity]. Defined.

(** An eligible request once the key is derived and the cache has answered
    the lookup. *)
Lemma compile_or_get_cached_found
    w backend computation devices compile_options host_callbacks st
    cache_key found :
  cache_eligible w backend ->
  get_cache_key w computation devices compile_options backend
    (jax_use_original_compilation_cache_key_generation w) = Ok cache_key ->
  get_executable_and_time w cache_key compile_options backend = Ok found ->
  compile_or_get_cached w backend computation devices compile_options
    host_callbacks st
  = after
      (dump_events w computation st
       ++ [EvGetCacheKey computation devices compile_options backend
             (jax_use_original_compilation_cache_key_generation w);
           EvCacheGet cache_key compile_options backend])
      match found with
      | (Some retrieved_executable, Some retrieved_compile_time) =>
          hit w (sym_name computation) retrieved_executable
            retrieved_compile_time (measured w (clock_reads st))
            (tick (tick (dump_state w st)))
      | (Some _, None) =>
          (Raise assertion_error, tick (tick (dump_state w st)), [])
      | (None, _) =>
          compile_and_write w backend computation compile_options
            host_callbacks cache_key (tick (tick (dump_state w st)))
      end.
Proof.
  intros Huse Hkey Hget. apply use_compilation_cache_spec in Huse.
  rewrite compile_or_get_cached_eligible by exact Huse.
  cbv zeta. rewrite Hkey, _cache_read_run, Hget.
  cbn [outcome events fst snd]. rewrite after_after, <- app_assoc.
  reflexivity.
Qed.

(** *** Eligibility *)

(** C1: a request makes a call into the persistent cache (key derivation,
    lookup or write) if and only if the cache is initialised and the platform
    of the backend is "tpu" or "gpu", or is "cpu" while [XLA_FLAGS] contains
    [--xla_cpu_use_xla_runtime=true].  A request that is not eligible is the
    call of [backend_compile], after the optional dump of the IR: its result
    is the one of the native compiler and the only call is the compilation. *)
Theorem compile_or_get_cached_cache_iff_eligible :
  forall w backend computation devices compile_options host_callbacks st,
    let run := compile_or_get_cached w backend computation devices
                 compile_options host_callbacks st in
    (filter is_cache_call (events run) <> [] <-> cache_eligible w backend)
    /\ (~ cache_eligible w backend ->
        run = after (dump_events w computation st)
                (backend_compile backend computation compile_options
                   host_callbacks (dump_state w st))
        /\ filter is_cache_call (events run) = []
        /\ filter is_compile (events run)
           = [EvCompile backend (built_for backend computation)
                compile_options (keyword_host_callbacks host_callbacks)]).
Proof.
  intros w backend computation devices compile_options host_callbacks st run.
  assert (Hdump : forall p,
            (forall dir file contents,
               p (EvWriteText dir file contents) = false) ->
            use_compilation_cache w backend = false ->
            filter p (events run)
            = filter p [EvCompile backend (built_for backend computation)
                          compile_options
                          (keyword_host_callbacks host_callbacks)]).
  { intros p Hp Huse. subst run.
    rewrite compile_or_get_cached_ineligible, backend_compile_run by exact Huse.
    rewrite events_after, filter_app, dump_events_no_call by exact Hp.
    reflexivity. }
  rewrite <- use_compilation_cache_spec.
  destruct (use_compilation_cache w backend) eqn:Huse.
  - split; [|intros H; now elim H].
    split; [reflexivity|]. intros _. subst run.
    rewrite compile_or_get_cached_eligible by exact Huse.
    cbv zeta. rewrite events_after, !filter_app. cbn [filter is_cache_call].
    intros H. apply app_eq_nil in H as [H _].
    apply app_eq_nil in H as [_ H]. discriminate H.
  - split.
    + rewrite (Hdump is_cache_call) by easy. cbn. split; [now intros H|easy].
    + intros _. split; [|split].
      * subst run. now apply compile_or_get_cached_ineligible.
      * now rewrite (Hdump is_cache_call).
      * now rewrite (Hdump is_compile).
Qed.

(** The platform "cpu", the cache being initialised.  Without [XLA_FLAGS]
    the compiler is called and the cache is not.  With [XLA_FLAGS] holding
    [--xla_cpu_use_xla_runtime=true] after another flag, the key is derived,
    the cache is looked up, and what is compiled is written. *)
Lemma compile_or_get_cached_cache_iff_eligible_witness :
  (~ cache_eligible Sample.world Sample.cpu
   /\ events (compile_or_get_cached Sample.world Sample.cpu Sample.module
                Sample.devices Sample.options [] Sample.start)
      = [EvCompile Sample.cpu (Bytecode [77; 76; 239; 82]%N) Sample.options
           None])
  /\ (cache_eligible Scenario.cpu_runtime Sample.cpu
      /\ filter is_cache_call
           (events (compile_or_get_cached Scenario.cpu_runtime Sample.cpu
                      Sample.module Sample.devices Sample.options []
                      Sample.start))
         <> []
      /\ filter is_cache_call
           (events (compile_or_get_cached Scenario.cpu_runtime Sample.cpu
                      Sample.module Sample.devices Sample.options []
                      Sample.start))
         = [EvGetCacheKey Sample.module Sample.devices Sample.options
              Sample.cpu false;
            EvCacheGet Scenario.key Sample.options Sample.cpu;
            EvCachePut Scenario.key (sym_name Sample.module)
              Sample.executable Sample.cpu 5]).
Proof.
  split.
  - assert (Hcpu : ~ cache_eligible Sample.world Sample.cpu).
    { intros (_ & [H | [H | (_ & pre & post & H)]]); discriminate H. }
    split; [exact Hcpu|].
    destruct (compile_or_get_cached_cache_iff_eligible
                Sample.world Sample.cpu Sample.module Sample.devices
                Sample.options [] Sample.start) as [_ Hdirect].
    destruct (Hdirect Hcpu) as (Hrun & _ & _).
    rewrite Hrun. reflexivity.
  - assert (Hcpu : cache_eligible Scenario.cpu_runtime Sample.cpu).
    { split; [reflexivity|]. right. right. split; [reflexivity|].
      exists (py "--xla_force_host_platform_device_count=8 "), [].
      reflexivity. }
    split; [exact Hcpu|].
    destruct (compile_or_get_cached_cache_iff_eligible
                Scenario.cpu_runtime Sample.cpu Sample.module Sample.devices
                Sample.options [] Sample.start) as [Hiff _].
    split; [apply Hiff; exact Hcpu | reflexivity].
Defined.

(** *** Errors of the lookup *)

(** C2: let the lookup of the cache raise an exception [ex], an instance of
    [Exception] as [except Exception] wants it.  If
    [jax_raise_persistent_cache_errors] is set, [_cache_read] raises [ex], and
    so does the request, without any call of the compiler.  If it is not set,
    [_cache_read] warns and returns [(None, None)], and the request goes on as
    with a cache that answers "not found": same result, same final state and
    same calls, the warning apart. *)
Theorem cache_read_error_policy :
  forall w backend computation devices compile_options host_callbacks st
         cache_key ex,
    cache_eligible w backend ->
    get_cache_key w computation devices compile_options backend
      (jax_use_original_compilation_cache_key_generation w) = Ok cache_key ->
    get_executable_and_time w cache_key compile_options backend = Raise ex ->
    is_Exception (exn_class_of ex) = true ->
    let lookup := _cache_read w (sym_name computation) cache_key
                    compile_options backend st in
    let run := compile_or_get_cached w backend computation devices
                 compile_options host_callbacks st in
    let miss := compile_or_get_cached (not_found w) backend computation
                  devices compile_options host_callbacks st in
    (jax_raise_persistent_cache_errors w = true ->
       outcome lookup = Raise ex
       /\ outcome run = Raise ex
       /\ filter is_compile (events run) = [])
    /\ (jax_raise_persistent_cache_errors w = false ->
          lookup = (Ok (None, None), st,
                    [EvCacheGet cache_key compile_options backend;
                     read_warning (sym_name computation) ex])
          /\ outcome run = outcome miss
          /\ final run = final miss
          /\ exists pre post,
               events miss = pre ++ post
               /\ events run
                  = pre ++ read_warning (sym_name computation) ex :: post).
Proof.
  intros w backend computation devices compile_options host_callbacks st
    cache_key ex Huse Hkey Hget Hex lookup run miss.
  apply use_compilation_cache_spec in Huse.
  assert (Huse' : use_compilation_cache (not_found w) backend = true)
    by exact Huse.
  subst lookup run miss.
  rewrite (compile_or_get_cached_eligible w) by exact Huse.
  rewrite (compile_or_get_cached_eligible (not_found w)) by exact Huse'.
  cbv zeta. change (get_cache_key (not_found w)) with (get_cache_key w).
  change (jax_use_original_compilation_cache_key_generation (not_found w))
    with (jax_use_original_compilation_cache_key_generation w).
  rewrite Hkey, !_cache_read_run, Hget, Hex. cbn [andb].
  change (get_executable_and_time (not_found w) cache_key compile_options
            backend) with (@Ok (option LoadedExecutable * option Z) (None, None)).
  split; intros Hflag; rewrite Hflag; cbn [negb outcome events fst snd].
  - split; [reflexivity|]. split; [reflexivity|].
    rewrite !events_after. cbn [events snd]. rewrite !filter_app.
    rewrite dump_events_no_call by reflexivity. reflexivity.
  - split; [reflexivity|]. split; [reflexivity|]. split; [reflexivity|].
    eexists (dump_events w computation st
             ++ [EvGetCacheKey computation devices compile_options backend
                   (jax_use_original_compilation_cache_key_generation w);
                 EvCacheGet cache_key compile_options backend]), _.
    rewrite !events_after. cbn [events snd].
    split.
    + change (dump_events (not_found w)) with (dump_events w).
      rewrite <- !app_assoc. cbn [app]. reflexivity.
    + rewrite <- !app_assoc. cbn [app]. reflexivity.
Qed.

(** An unreadable cache does not prevent the compilation. *)
Lemma cache_read_error_policy_witness :
  outcome (compile_or_get_cached Scenario.unreadable Sample.tpu Sample.module
             Sample.devices Sample.options [] Sample.start)
  = Ok Sample.executable.
Proof.
  destruct (cache_read_error_policy
              Scenario.unreadable Sample.tpu Sample.module Sample.devices
              Sample.options [] Sample.start Scenario.key Scenario.io_error
              (tpu_eligible Scenario.unreadable eq_refl)
              eq_refl eq_refl eq_refl) as [_ Hswallow].
  destruct (Hswallow eq_refl) as (_ & Hout & _).
  rewrite Hout. reflexivity.
Defined.

(** *** The write after a miss *)

Lemma filter_info_logs (p : Event -> bool) (logs : list Event) :
  (forall t args, p (EvLog INFO t args) = false) ->
  forallb is_info_log logs = true -> filter p logs = [].
Proof.
  intros Hp. induction logs as [|e logs IH]; [reflexivity|].
  cbn. rewrite andb_true_iff. intros [He Hlogs].
  destruct e as [[]| | | | | | |]; try discriminate He.
  rewrite Hp. now apply IH.
Qed.

(** The calls of [put_executable_and_time] made by [_cache_write]: one when
    both gates are passed and the duration has an integer part, none
    otherwise; a write that is not admitted returns. *)
Lemma _cache_write_puts
    w cache_key d module_name backend executable host_callbacks st :
  let write := _cache_write w cache_key d module_name backend executable
                 host_callbacks st in
  filter is_put (events write)
  = (if admitted w host_callbacks d then
       match int_of_float d with
       | Ok seconds =>
           [EvCachePut cache_key module_name executable backend seconds]
       | Raise _ => []
       end
     else [])
  /\ (admitted w host_callbacks d = false -> outcome write = Ok tt).
Proof.
  cbv zeta.
  destruct (_cache_write_run w cache_key d module_name backend executable
              host_callbacks st) as (logs & Hlogs & ->).
  apply (filter_info_logs is_put) in Hlogs; [|reflexivity].
  destruct (admitted _ _ _).
  - split; [|discriminate].
    rewrite events_after, filter_app, Hlogs. unfold write_attempt.
    destruct (int_of_float d) as [z|ex].
    + cbv zeta.
      destruct (put_executable_and_time _ _ _ _ _ _); [reflexivity|].
      destruct (_ && _); reflexivity.
    + destruct (_ && _); reflexivity.
  - split; [exact Hlogs | reflexivity].
Qed.

Lemma compile_and_write_puts
    w backend computation compile_options host_callbacks cache_key st :
  let run := compile_and_write w backend computation compile_options
               host_callbacks cache_key st in
  let d := measured w (clock_reads st) in
  match compile_fn backend (built_for backend computation) compile_options
          (keyword_host_callbacks host_callbacks) with
  | Raise e => filter is_put (events run) = [] /\ outcome run = Raise e
  | Ok executable =>
      filter is_put (events run)
      = (if admitted w host_callbacks d then
           match int_of_float d with
           | Ok seconds =>
               [EvCachePut cache_key (sym_name computation) executable
                  backend seconds]
           | Raise _ => []
           end
         else [])
      /\ (admitted w host_callbacks d = false -> outcome run = Ok executable)
  end.
Proof.
  cbv zeta. rewrite compile_and_write_run.
  destruct (compile_fn _ _ _ _) as [executable|e]; [|split; reflexivity].
  cbv zeta. rewrite events_after, outcome_after. cbn [events outcome fst snd app].
  destruct (_cache_write_puts w cache_key (measured w (clock_reads st))
              (sym_name computation) backend executable host_callbacks
              (tick (tick st))) as [Hputs Hskip].
  split; [exact Hputs|].
  intros Hadm. now rewrite (Hskip Hadm).
Qed.

Lemma admitted_spec w host_callbacks d :
  is_nan d = false ->
  (forall t, jax_persistent_cache_min_compile_time_secs w = Some t ->
             is_nan t = false) ->
  (admitted w host_callbacks d = true
   <-> host_callbacks = [] /\ (threshold_unset w \/ threshold_reached w d)).
Proof.
  intros Hd Ht. unfold admitted, threshold_unset, threshold_reached.
  rewrite andb_true_iff, negb_true_iff.
  assert (Hhc : nonempty host_callbacks = false <-> host_callbacks = [])
    by (destruct host_callbacks; cbn; split; congruence).
  rewrite Hhc.
  destruct (jax_persistent_cache_min_compile_time_secs w) as [t|].
  - rewrite negb_true_iff, andb_false_iff.
    rewrite (flt_false_iff_fle d t Hd (Ht t eq_refl)).
    split; intros [Hc Hg]; (split; [exact Hc|]).
    + destruct Hg as [Hg|Hg]; [left | right; now exists t].
      destruct t as [[]| | |]; try discriminate Hg;
        [right; right | right; left]; reflexivity.
    + destruct Hg as [[Hg|[Hg|Hg]]|(t' & [= <-] & Hg)];
        [discriminate Hg | | | now right];
        injection Hg as ->; left; reflexivity.
  - split; intros [Hc _]; (split; [exact Hc|]); [left; now left | reflexivity].
Qed.

(** C3: after an eligible miss and a successful compilation,
    [put_executable_and_time] is called (once) if and only if there is no host
    callback and either no minimum compile time is configured (the option is
    unset or zero) or the measured compile time is at least the configured
    minimum; when a gate fails nothing is written and the executable is
    returned.  The measured compile time is a finite float and the
    configured minimum is a number, so that "not below" and "at least"
    agree. *)
Theorem cache_write_admission :
  forall w backend computation devices compile_options host_callbacks st
         cache_key retrieved_compile_time executable,
    cache_eligible w backend ->
    get_cache_key w computation devices compile_options backend
      (jax_use_original_compilation_cache_key_generation w) = Ok cache_key ->
    get_executable_and_time w cache_key compile_options backend
    = Ok (None, retrieved_compile_time) ->
    compile_fn backend (built_for backend computation) compile_options
      (keyword_host_callbacks host_callbacks) = Ok executable ->
    let compile_time := measured w (2 + clock_reads st) in
    is_finite compile_time = true ->
    (forall t, jax_persistent_cache_min_compile_time_secs w = Some t ->
               is_nan t = false) ->
    let run := compile_or_get_cached w backend computation devices
                 compile_options host_callbacks st in
    let gates := host_callbacks = []
                 /\ (threshold_unset w \/ threshold_reached w compile_time) in
    (gates <->
     exists seconds,
       filter is_put (events run)
       = [EvCachePut cache_key (sym_name computation) executable backend
            seconds])
    /\ (~ gates -> filter is_put (events run) = [] /\ outcome run = Ok executable).
Proof.
  intros w backend computation devices compile_options host_callbacks st
    cache_key retrieved_compile_time executable Huse Hkey Hget Hcompile
    compile_time Hfinite Hnan run gates.
  assert (Hd : is_nan compile_time = false)
    by (destruct compile_time; try discriminate; reflexivity).
  assert (Hadm := admitted_spec w host_callbacks compile_time Hd Hnan).
  fold gates in Hadm.
  destruct (int_of_float_finite compile_time Hfinite) as [seconds Hint].
  assert (Hputs :
            filter is_put (events run)
            = (if admitted w host_callbacks compile_time
               then [EvCachePut cache_key (sym_name computation) executable
                       backend seconds]
               else [])
            /\ (admitted w host_callbacks compile_time = false ->
                outcome run = Ok executable)).
  { subst run.
    rewrite (compile_or_get_cached_found w backend computation devices
               compile_options host_callbacks st cache_key
               (None, retrieved_compile_time) Huse Hkey Hget).
    rewrite events_after, outcome_after, !filter_app.
    rewrite dump_events_no_call by reflexivity. cbn [filter is_put app].
    assert (H := compile_and_write_puts w backend computation compile_options
                   host_callbacks cache_key (tick (tick (dump_state w st)))).
    cbv zeta in H. rewrite Hcompile in H.
    cbn [tick clock_reads] in H. rewrite clock_reads_dump_state in H.
    change (measured w (S (S (clock_reads st)))) with compile_time in H.
    now rewrite Hint in H. }
  destruct Hputs as [Hputs Hskip].
  destruct (admitted w host_callbacks compile_time).
  - split.
    + split; [intros _; now exists seconds | intros _; now apply Hadm].
    + intros Hno. elim Hno. now apply Hadm.
  - assert (Hno : ~ gates) by (intros Hg; apply Hadm in Hg; discriminate).
    split.
    + split; [intros Hg; now elim Hno | intros [z Hz]].
      rewrite Hputs in Hz. discriminate.
    + intros _. split; [exact Hputs | now apply Hskip].
Qed.

(** A compilation of 5.75 seconds without host callbacks.  With a minimum of
    2.0 seconds it is written.  With a minimum of 0.0 seconds, which
    configures none, it is written.  With a minimum of 10.0 seconds it is not
    written, and the executable is returned. *)
Lemma cache_write_admission_witness :
  (exists seconds,
     filter is_put
       (events (compile_or_get_cached Sample.world Sample.tpu Sample.module
                  Sample.devices Sample.options [] Sample.start))
     = [EvCachePut Scenario.key (sym_name Sample.module) Sample.executable
          Sample.tpu seconds])
  /\ (exists seconds,
        filter is_put
          (events (compile_or_get_cached Scenario.no_minimum Sample.tpu
                     Sample.module Sample.devices Sample.options []
                     Sample.start))
        = [EvCachePut Scenario.key (sym_name Sample.module)
             Sample.executable Sample.tpu seconds])
  /\ (filter is_put
        (events (compile_or_get_cached Scenario.patient Sample.tpu
                   Sample.module Sample.devices Sample.options []
                   Sample.start)) = []
      /\ outcome (compile_or_get_cached Scenario.patient Sample.tpu
                    Sample.module Sample.devices Sample.options []
                    Sample.start)
         = Ok Sample.executable).
Proof.
  split; [|split].
  - assert (Hnan : forall t,
              jax_persistent_cache_min_compile_time_secs Sample.world = Some t ->
              is_nan t = false).
    { intros t [= <-]. reflexivity. }
    destruct (cache_write_admission
                Sample.world Sample.tpu Sample.module Sample.devices
                Sample.options [] Sample.start Scenario.key None
                Sample.executable
                (tpu_eligible Sample.world eq_refl)
                eq_refl eq_refl eq_refl eq_refl Hnan) as [Hiff _].
    apply Hiff. split; [reflexivity|].
    right. exists (Sample.float_lit 2 0). split; reflexivity.
  - assert (Hnan : forall t,
              jax_persistent_cache_min_compile_time_secs Scenario.no_minimum
              = Some t ->
              is_nan t = false).
    { intros t [= <-]. reflexivity. }
    destruct (cache_write_admission
                Scenario.no_minimum Sample.tpu Sample.module Sample.devices
                Sample.options [] Sample.start Scenario.key None
                Sample.executable
                (tpu_eligible Scenario.no_minimum eq_refl)
                eq_refl eq_refl eq_refl eq_refl Hnan) as [Hiff _].
    apply Hiff. split; [reflexivity|].
    left. right. left. reflexivity.
  - assert (Hnan : forall t,
              jax_persistent_cache_min_compile_time_secs Scenario.patient
              = Some t ->
              is_nan t = false).
    { intros t [= <-]. reflexivity. }
    destruct (cache_write_admission
                Scenario.patient Sample.tpu Sample.module Sample.devices
                Sample.options [] Sample.start Scenario.key None
                Sample.executable
                (tpu_eligible Scenario.patient eq_refl)
                eq_refl eq_refl eq_refl eq_refl Hnan) as [_ Hskip].
    apply Hskip.
    intros [_ [[H | [H | H]] | (t & [= <-] & H)]]; discriminate H.
Defined.

(** With a host callback the executable is compiled, with the callbacks
    passed on, and returned, and nothing is written. *)
Example host_callbacks_skip_the_write :
  let run := compile_or_get_cached Sample.world Sample.tpu Sample.module
               Sample.devices Sample.options [1%nat] Sample.start in
  outcome run = Ok Sample.executable
  /\ filter is_put (events run) = []
  /\ filter is_compile (events run)
     = [EvCompile Sample.tpu (Bytecode [77; 76; 239; 82]%N) Sample.options
          (Some [1%nat])].
Proof. vm_compute. repeat split. Qed.

(** *** Hits *)

(** C4: when an eligible request finds an executable in the cache, together
    with its recorded compile time, the request returns that executable, the
    compiler is not called, and exactly two metrics are recorded: the latency
    of the lookup, and the recorded compile time minus that latency, as the
    subtraction of floats gives it, negative or not.  The recorded compile
    time is an integer number of seconds, below 2^53; the minuend is the
    float of that very value. *)
Theorem cache_hit_returns_retrieved :
  forall w backend computation devices compile_options host_callbacks st
         cache_key retrieved_executable retrieved_compile_time,
    cache_eligible w backend ->
    get_cache_key w computation devices compile_options backend
      (jax_use_original_compilation_cache_key_generation w) = Ok cache_key ->
    get_executable_and_time w cache_key compile_options backend
    = Ok (Some retrieved_executable, Some retrieved_compile_time) ->
    Z.abs retrieved_compile_time < 2 ^ 53 ->
    let run := compile_or_get_cached w backend computation devices
                 compile_options host_callbacks st in
    let cache_retrieval_time := measured w (clock_reads st) in
    exists recorded,
      represents recorded retrieved_compile_time
      /\ outcome run = Ok retrieved_executable
      /\ filter is_compile (events run) = []
      /\ filter is_metric (events run)
         = [EvMetric "/jax/compilation_cache/cache_retrieval_time_sec"
              cache_retrieval_time;
            EvMetric "/jax/compilation_cache/original_compile_time_saved_sec"
              (fsub recorded cache_retrieval_time)].
Proof.
  intros w backend computation devices compile_options host_callbacks st
    cache_key retrieved_executable retrieved_compile_time
    Huse Hkey Hget Hsmall run cache_retrieval_time.
  destruct (float_of_int_exact retrieved_compile_time Hsmall)
    as (recorded & Hfloat & Hrecorded).
  exists recorded. split; [exact Hrecorded|].
  subst run.
  rewrite (compile_or_get_cached_found w backend computation devices
             compile_options host_callbacks st cache_key _ Huse Hkey Hget).
  unfold hit. rewrite Hfloat.
  rewrite outcome_after, !events_after, !filter_app.
  rewrite !dump_events_no_call by reflexivity.
  repeat split.
Qed.

(** A lookup of 0.25 seconds for an executable compiled in 10 seconds: the
    saving that is recorded is 9.75 seconds.  The same lookup for an
    executable compiled in 0 seconds: the saving that is recorded is -0.25
    seconds. *)
Lemma cache_hit_returns_retrieved_witness :
  (exists recorded,
     represents recorded 10
     /\ outcome (compile_or_get_cached Scenario.ten_seconds Sample.tpu
                   Sample.module Sample.devices Sample.options []
                   Sample.start)
        = Ok Sample.cached_executable
     /\ filter is_metric
          (events (compile_or_get_cached Scenario.ten_seconds Sample.tpu
                     Sample.module Sample.devices Sample.options []
                     Sample.start))
        = [EvMetric "/jax/compilation_cache/cache_retrieval_time_sec"
             (Sample.float_lit 1 (-2));
           EvMetric "/jax/compilation_cache/original_compile_time_saved_sec"
             (fsub recorded (Sample.float_lit 1 (-2)))]
     /\ fsub recorded (Sample.float_lit 1 (-2)) = Sample.float_lit 39 (-2))
  /\ (exists recorded,
        represents recorded 0
        /\ filter is_metric
             (events (compile_or_get_cached Scenario.populated Sample.tpu
                        Sample.module Sample.devices Sample.options []
                        Sample.start))
           = [EvMetric "/jax/compilation_cache/cache_retrieval_time_sec"
                (Sample.float_lit 1 (-2));
              EvMetric
                "/jax/compilation_cache/original_compile_time_saved_sec"
                (fsub recorded (Sample.float_lit 1 (-2)))]
        /\ fsub recorded (Sample.float_lit 1 (-2))
           = Sample.float_lit (-1) (-2)).
Proof.
  split.
  - destruct (cache_hit_returns_retrieved
                Scenario.ten_seconds Sample.tpu Sample.module Sample.devices
                Sample.options [] Sample.start Scenario.key
                Sample.cached_executable 10
                (tpu_eligible Scenario.ten_seconds eq_refl)
                eq_refl eq_refl eq_refl)
      as (recorded & Hrecorded & Hout & _ & Hmetrics).
    exists recorded.
    split; [exact Hrecorded|]. split; [exact Hout|].
    split; [exact Hmetrics|].
    assert (Hrun : filter is_metric
                     (events (compile_or_get_cached Scenario.ten_seconds
                                Sample.tpu Sample.module Sample.devices
                                Sample.options [] Sample.start))
                   = [EvMetric
                        "/jax/compilation_cache/cache_retrieval_time_sec"
                        (Sample.float_lit 1 (-2));
                      EvMetric
                        "/jax/compilation_cache/original_compile_time_saved_sec"
                        (Sample.float_lit 39 (-2))])
      by reflexivity.
    rewrite Hrun in Hmetrics. cbv zeta in Hmetrics. congruence.
  - destruct (cache_hit_returns_retrieved
                Scenario.populated Sample.tpu Sample.module Sample.devices
                Sample.options [] Sample.start Scenario.key
                Sample.cached_executable 0
                (tpu_eligible Scenario.populated eq_refl)
                eq_refl eq_refl eq_refl)
      as (recorded & Hrecorded & _ & _ & Hmetrics).
    exists recorded.
    split; [exact Hrecorded|]. split; [exact Hmetrics|].
    assert (Hrun : filter is_metric
                     (events (compile_or_get_cached Scenario.populated
                                Sample.tpu Sample.module Sample.devices
                                Sample.options [] Sample.start))
                   = [EvMetric
                        "/jax/compilation_cache/cache_retrieval_time_sec"
                        (Sample.float_lit 1 (-2));
                      EvMetric
                        "/jax/compilation_cache/original_compile_time_saved_sec"
                        (Sample.float_lit (-1) (-2))])
      by reflexivity.
    rewrite Hrun in Hmetrics. cbv zeta in Hmetrics. congruence.
Defined.

(** C10: an eligible request whose lookup answers with an executable and no
    compile time stops on the assertion, right after the lookup and without
    compiling; when the lookup answers with both or with neither, the request
    does not stop there. *)
Theorem cache_hit_asserts_compile_time :
  forall w backend computation devices compile_options host_callbacks st
         cache_key retrieved_executable retrieved_compile_time,
    cache_eligible w backend ->
    get_cache_key w computation devices compile_options backend
      (jax_use_original_compilation_cache_key_generation w) = Ok cache_key ->
    get_executable_and_time w cache_key compile_options backend
    = Ok (retrieved_executable, retrieved_compile_time) ->
    let run := compile_or_get_cached w backend computation devices
                 compile_options host_callbacks st in
    let stopped_on_assert :=
      outcome run = Raise assertion_error
      /\ events run
         = dump_events w computation st
           ++ [EvGetCacheKey computation devices compile_options backend
                 (jax_use_original_compilation_cache_key_generation w);
               EvCacheGet cache_key compile_options backend] in
    ((retrieved_executable = None /\ retrieved_compile_time = None)
     \/ (retrieved_executable <> None /\ retrieved_compile_time <> None) ->
     ~ stopped_on_assert)
    /\ (retrieved_executable <> None -> retrieved_compile_time = None ->
        stopped_on_assert /\ filter is_compile (events run) = []).
Proof.
  intros w backend computation devices compile_options host_callbacks st
    cache_key retrieved_executable retrieved_compile_time Huse Hkey Hget
    run stopped_on_assert.
  subst stopped_on_assert run.
  rewrite (compile_or_get_cached_found w backend computation devices
             compile_options host_callbacks st cache_key _ Huse Hkey Hget).
  rewrite outcome_after, events_after.
  split.
  - intros Hboth [_ Hevents].
    rewrite <- (app_nil_r (_ ++ [_; _])) in Hevents at 2.
    apply app_inv_head in Hevents.
    destruct retrieved_executable as [exe|], retrieved_compile_time as [t|];
      try (destruct Hboth as [[? ?]|[? ?]]; congruence).
    + unfold hit in Hevents. rewrite events_after in Hevents.
      discriminate Hevents.
    + rewrite compile_and_write_run, events_after in Hevents.
      discriminate Hevents.
  - intros Hexe ->. destruct retrieved_executable as [exe|]; [|congruence].
    cbn [outcome events fst snd]. rewrite app_nil_r.
    split; [split; reflexivity|].
    rewrite filter_app, dump_events_no_call by reflexivity. reflexivity.
Qed.

(** An executable without its compile time fails the request. *)
Lemma cache_hit_asserts_compile_time_witness :
  outcome (compile_or_get_cached Scenario.untimed Sample.tpu Sample.module
             Sample.devices Sample.options [] Sample.start)
  = Raise assertion_error.
Proof.
  destruct (cache_hit_asserts_compile_time
              Scenario.untimed Sample.tpu Sample.module Sample.devices
              Sample.options [] Sample.start Scenario.key
              (Some Sample.cached_executable) None
              (tpu_eligible Scenario.untimed eq_refl)
              eq_refl eq_refl) as [_ Hstop].
  destruct (Hstop ltac:(discriminate) eq_refl) as [[Hout _] _].
  exact Hout.
Defined.

(** *** The duration written to the cache *)

(** Whatever the request, [put_executable_and_time] is called at most once,
    and then with the integer part of the measured compile time. *)
Lemma compile_or_get_cached_puts
    w backend computation devices compile_options host_callbacks st :
  let run := compile_or_get_cached w backend computation devices
               compile_options host_callbacks st in
  filter is_put (events run) = []
  \/ exists cache_key executable seconds,
       filter is_put (events run)
       = [EvCachePut cache_key (sym_name computation) executable backend
            seconds]
       /\ int_of_float (measured w (2 + clock_reads st)) = Ok seconds.
Proof.
  cbv zeta.
  assert (Hmiss : forall cache_key,
            let run := compile_and_write w backend computation compile_options
                         host_callbacks cache_key
                         (tick (tick (dump_state w st))) in
            filter is_put (events run) = []
            \/ exists executable seconds,
                 filter is_put (events run)
                 = [EvCachePut cache_key (sym_name computation) executable
                      backend seconds]
                 /\ int_of_float (measured w (2 + clock_reads st)) = Ok seconds).
  { intros cache_key. cbv zeta.
    assert (H := compile_and_write_puts w backend computation compile_options
                   host_callbacks cache_key (tick (tick (dump_state w st)))).
    cbv zeta in H. cbn [tick clock_reads] in H.
    rewrite clock_reads_dump_state in H.
    change (S (S (clock_reads st))) with (2 + clock_reads st)%nat in H.
    destruct (compile_fn _ _ _ _) as [executable|e]; [|left; apply H].
    destruct H as [-> _].
    destruct (admitted _ _ _); [|now left].
    destruct (int_of_float _) as [seconds|]; [|now left].
    right. now exists executable, seconds. }
  destruct (use_compilation_cache w backend) eqn:Huse.
  - rewrite compile_or_get_cached_eligible by exact Huse. cbv zeta.
    rewrite events_after, !filter_app.
    rewrite dump_events_no_call by reflexivity. cbn [filter is_put app].
    destruct (get_cache_key _ _ _ _ _ _) as [cache_key|e]; [|now left].
    rewrite _cache_read_run.
    destruct (get_executable_and_time _ _ _ _) as [[[exe|] [t|]]|ex];
      [| | | |destruct (_ && _)];
      cbn [outcome events fst snd]; rewrite events_after; cbn [filter is_put app].
    + left. unfold hit. destruct (float_of_int t); reflexivity.
    + now left.
    + destruct (Hmiss cache_key) as [H|(executable & seconds & H & Hint)];
        [now left | right; now exists cache_key, executable, seconds].
    + destruct (Hmiss cache_key) as [H|(executable & seconds & H & Hint)];
        [now left | right; now exists cache_key, executable, seconds].
    + destruct (Hmiss cache_key) as [H|(executable & seconds & H & Hint)];
        [now left | right; now exists cache_key, executable, seconds].
    + now left.
  - left. rewrite compile_or_get_cached_ineligible by exact Huse.
    rewrite backend_compile_run, events_after, filter_app.
    rewrite dump_events_no_call by reflexivity. reflexivity.
Qed.

(** C8: the compile time that a request passes to [put_executable_and_time]
    is [int] of the float measured around the compilation: an integer, the
    exact value of that float rounded toward zero. *)
Theorem cache_write_duration_truncated :
  forall w backend computation devices compile_options host_callbacks st
         cache_key module_name executable client seconds,
    In (EvCachePut cache_key module_name executable client seconds)
       (events (compile_or_get_cached w backend computation devices
                  compile_options host_callbacks st)) ->
    let compile_time := measured w (2 + clock_reads st) in
    int_of_float compile_time = Ok seconds
    /\ seconds = Z.quot (numerator compile_time) (denominator compile_time).
Proof.
  intros w backend computation devices compile_options host_callbacks st
    cache_key module_name executable client seconds Hin compile_time.
  assert (Hput : In (EvCachePut cache_key module_name executable client seconds)
                   (filter is_put
                      (events (compile_or_get_cached w backend computation
                                 devices compile_options host_callbacks st))))
    by (apply filter_In; split; [exact Hin | reflexivity]).
  destruct (compile_or_get_cached_puts w backend computation devices
              compile_options host_callbacks st)
    as [Hnone | (key & exe & z & Hone & Hint)].
  - rewrite Hnone in Hput. destruct Hput.
  - rewrite Hone in Hput. destruct Hput as [[= _ _ _ _ <-]|[]].
    split; [exact Hint | now apply int_of_float_truncates].
Qed.

(** The 5.75 seconds measured between 101.0 and 106.75 are written as 5. *)
Lemma cache_write_duration_truncated_witness :
  int_of_float (measured Sample.world 2) = Ok 5.
Proof.
  destruct (cache_write_duration_truncated
              Sample.world Sample.tpu Sample.module Sample.devices
              Sample.options [] Sample.start Scenario.key
              (sym_name Sample.module) Sample.executable Sample.tpu 5)
    as [Hint _].
  - vm_compute. do 4 right. left. reflexivity.
  - exact Hint.
Defined.

(** * Further properties *)

(** ** File names of the dumped IR *)

(** Deleting the matches of a set keeps the characters it does not match. *)
Lemma re_sub_delete (beyond : codepoint -> bool) (p : char_set) (s : str) :
  re_sub beyond p [] s = filter (fun c => negb (set_matches beyond p c)) s.
Proof.
  unfold re_sub. induction s as [|c s IH]; [reflexivity|].
  cbn [flat_map filter]. rewrite IH.
  destruct (set_matches beyond p c); reflexivity.
Qed.

(** X1: whatever the module name, an ASCII character of the sanitised name
    is a letter, a digit or one of [_.() -]; in particular the name holds no
    slash, no backslash, no colon and no NUL, so that the dumped file stays in
    the configured directory. *)
Theorem _make_string_safe_for_filename_ascii_safe :
  forall w s c,
    In c (_make_string_safe_for_filename w s) ->
    (c < 128)%N ->
    ascii_safe c = true
    /\ c <> 47%N /\ c <> 92%N /\ c <> 58%N /\ c <> 0%N.
Proof.
  intros w s c Hin Hc.
  unfold _make_string_safe_for_filename in Hin.
  rewrite re_sub_delete in Hin. apply filter_In in Hin as [_ Hkeep].
  rewrite unsafe_for_filename_matches, negb_involutive in Hkeep.
  assert (Hsafe : ascii_safe c = true).
  { apply orb_true_iff in Hkeep as [H|H]; [exact H|].
    apply andb_true_iff in H as [H _]. apply N.leb_le in H. lia. }
  split; [exact Hsafe|].
  repeat split; intros ->; vm_compute in Hsafe; discriminate.
Qed.

Lemma _make_string_safe_for_filename_ascii_safe_witness :
  ~ In 47%N (_make_string_safe_for_filename Sample.world (py "jit_f/../x")).
Proof.
  intros Hin.
  destruct (_make_string_safe_for_filename_ascii_safe
              Sample.world (py "jit_f/../x") 47%N Hin eq_refl)
    as (_ & Hslash & _).
  now apply Hslash.
Defined.

(** X2: sanitising is idempotent, it only deletes characters (what is left
    is a subsequence, hence not longer), and a name made of characters of
    [[A-Za-z0-9_.() -]] is left as it is. *)
Theorem _make_string_safe_for_filename_idempotent :
  forall w s,
    _make_string_safe_for_filename w (_make_string_safe_for_filename w s)
    = _make_string_safe_for_filename w s
    /\ (List.length (_make_string_safe_for_filename w s) <= List.length s)%nat
    /\ (forallb ascii_safe s = true -> _make_string_safe_for_filename w s = s).
Proof.
  intros w s. unfold _make_string_safe_for_filename.
  rewrite !re_sub_delete. split; [|split].
  - induction s as [|c s IH]; [reflexivity|].
    cbn [filter].
    destruct (negb (set_matches _ _ c)) eqn:Hc; [|exact IH].
    cbn [filter]. now rewrite Hc, IH.
  - apply filter_length_le.
  - intros Hall. rewrite forallb_forall in Hall.
    induction s as [|c s IH]; [reflexivity|].
    cbn [filter]. rewrite unsafe_for_filename_matches, negb_involutive.
    rewrite (Hall c (or_introl eq_refl)). cbn [orb].
    f_equal. apply IH. intros x Hx. apply Hall. now right.
Qed.

Lemma _make_string_safe_for_filename_idempotent_witness :
  _make_string_safe_for_filename Sample.world (py "jit_step (2)-v1.0")
  = py "jit_step (2)-v1.0".
Proof.
  destruct (_make_string_safe_for_filename_idempotent
              Sample.world (py "jit_step (2)-v1.0")) as (_ & _ & Hsafe).
  apply Hsafe. reflexivity.
Defined.

Lemma str_of_uint_digits (d : Decimal.uint) :
  forallb is_digit (py (NilEmpty.string_of_uint d)) = true.
Proof. induction d; cbn; try reflexivity; exact IHd. Qed.

Lemma str_of_uint_inj (d d' : Decimal.uint) :
  py (NilEmpty.string_of_uint d) = py (NilEmpty.string_of_uint d') -> d = d'.
Proof.
  revert d'. induction d; intros d'; destruct d'; cbn; try discriminate;
    try reflexivity; intros [= H]; f_equal; now apply IHd.
Qed.

Lemma str_of_nat_inj (n m : nat) : str_of_nat n = str_of_nat m -> n = m.
Proof.
  intros H. apply str_of_uint_inj in H.
  rewrite <- (Unsigned.of_to n), <- (Unsigned.of_to m). now rewrite H.
Qed.

(** Two runs of digits that are followed by the same other character. *)
Lemma digits_then_inv (l l' r r' : str) (x : codepoint) :
  forallb is_digit l = true -> forallb is_digit l' = true ->
  is_digit x = false ->
  l ++ x :: r = l' ++ x :: r' -> l = l'.
Proof.
  intros Hl Hl' Hx. revert l' Hl'.
  induction l as [|c l IH]; intros [|c' l'] Hl' H; cbn in *.
  - reflexivity.
  - injection H as <- _. apply andb_true_iff in Hl' as [Hc _]. congruence.
  - injection H as -> _. apply andb_true_iff in Hl as [Hc _]. congruence.
  - injection H as <- H. apply andb_true_iff in Hl as [_ Hl].
    apply andb_true_iff in Hl' as [_ Hl']. f_equal. now apply (IH Hl l').
Qed.

Lemma dump_file_name_inj (w : World) (id id' : nat) (name name' : str) :
  dump_file_name w id name = dump_file_name w id' name' -> id = id'.
Proof.
  unfold dump_file_name. intros H. apply app_inv_head in H.
  apply str_of_nat_inj.
  apply (digits_then_inv _ _ _ _ 95%N) in H;
    [exact H | apply str_of_uint_digits | apply str_of_uint_digits
    | reflexivity].
Qed.

Lemma _dump_ir_to_file_run (w : World) (name ir : str) (st : State) :
  _dump_ir_to_file w name ir st
  = (Ok tt,
     {| clock_reads := clock_reads st;
        _ir_dump_counter := S (_ir_dump_counter st) |},
     [EvWriteText (_DUMP_IR_TO w)
        (dump_file_name w (_ir_dump_counter st) name) ir]).
Proof. reflexivity. Qed.

(** X3: a dump writes one file, into the configured directory, and moves
    the counter by one; the file names of two dumps made at different values
    of the counter differ, whatever the two module names.  Hence no two dumps
    of a process share a file name. *)
Theorem _dump_ir_to_file_names_distinct :
  forall w name ir st,
    (exists file,
       events (_dump_ir_to_file w name ir st)
       = [EvWriteText (_DUMP_IR_TO w) file ir])
    /\ _ir_dump_counter (final (_dump_ir_to_file w name ir st))
       = S (_ir_dump_counter st)
    /\ forall name' ir' st' dir file dir' file',
         _ir_dump_counter st <> _ir_dump_counter st' ->
         In (EvWriteText dir file ir) (events (_dump_ir_to_file w name ir st)) ->
         In (EvWriteText dir' file' ir')
            (events (_dump_ir_to_file w name' ir' st')) ->
         file <> file'.
Proof.
  intros w name ir st. rewrite _dump_ir_to_file_run.
  split; [eexists; reflexivity|]. split; [reflexivity|].
  intros name' ir' st' dir file dir' file' Hcounter Hin Hin' Heq.
  rewrite _dump_ir_to_file_run in Hin'.
  destruct Hin as [[= _ <-]|[]]. destruct Hin' as [[= _ <-]|[]].
  apply dump_file_name_inj in Heq. contradiction.
Qed.

Lemma _dump_ir_to_file_names_distinct_witness :
  py "jax_ir0_f.mlir" <> py "jax_ir1_f.mlir".
Proof.
  destruct (_dump_ir_to_file_names_distinct
              Sample.world (py "f") (py "a") Sample.start) as (_ & _ & H).
  apply (H (py "f") (py "b")
           (final (_dump_ir_to_file Sample.world (py "f") (py "a")
                     Sample.start))
           [] (py "jax_ir0_f.mlir") [] (py "jax_ir1_f.mlir")).
  - cbn. discriminate.
  - left. reflexivity.
  - left. reflexivity.
Defined.

(** ** More on [get_compile_options] *)

(** What a successful conversion of the device assignment went through. *)
Lemma convert_device_assignment_ok_inv :
  forall w nr np a st d,
    outcome (convert_device_assignment w nr np a st) = Ok d ->
    exists rest ids,
      shape (allow_1d np a) = nr :: np :: rest
      /\ ids_of_devices (allow_1d np a) = Ok ids
      /\ xc_DeviceAssignment_create w ids = Ok d
      /\ replica_count d = nr /\ computation_count d = np.
Proof.
  intros w nr np a st d.
  rewrite convert_device_assignment_run, outcome_after.
  destruct (shape (allow_1d np a)) as [|s0 [|s1 rest]] eqn:Hshape; cbn;
    try discriminate.
  - destruct (nr =? s0); discriminate.
  - destruct (Z.eqb_spec nr s0) as [<-|]; cbn; [|discriminate].
    destruct (Z.eqb_spec np s1) as [<-|]; cbn; [|discriminate].
    destruct (ids_of_devices _) as [ids|]; [|discriminate].
    destruct (xc_DeviceAssignment_create w ids) as [d'|] eqn:Hcreate;
      [|discriminate].
    destruct (Z.eqb_spec (replica_count d') nr); [|discriminate].
    destruct (Z.eqb_spec (computation_count d') np); [|discriminate].
    intros [= <-]. exists rest, ids. repeat split; assumption.
Qed.

Lemma ids_of_devices_int (a ids : ndarray) :
  ids_of_devices a = Ok ids -> dtype ids = dtype_int /\ shape ids = shape a.
Proof.
  unfold ids_of_devices, vectorize_id.
  destruct (dtype a) eqn:Hd.
  - intros [= <-]. now split.
  - destruct (ids_of (data a)); [|discriminate]. intros [= <-]. now split.
Qed.

(** The options that a successful call returns, field by field. *)
Lemma get_compile_options_ok_inv :
  forall w nr np da spmd auto mesh_shape mesh_ids env fdo st opts,
    outcome (get_compile_options w nr np da spmd auto mesh_shape mesh_ids env
               fdo st) = Ok opts ->
    let fresh := xc_CompileOptions w in
    let build := executable_build_options opts in
    let fresh_build := executable_build_options fresh in
    num_replicas opts = nr
    /\ num_partitions opts = np
    /\ use_spmd_partitioning build = spmd
    /\ use_auto_spmd_partitioning build = auto
    /\ xc.fdo_profile build
       = match fdo with Some p => Some p | None => xc.fdo_profile fresh_build end
    /\ auto_spmd_partitioning_mesh_shape build
       = (if auto then or_empty mesh_shape
          else auto_spmd_partitioning_mesh_shape fresh_build)
    /\ auto_spmd_partitioning_mesh_ids build
       = (if auto then or_empty mesh_ids
          else auto_spmd_partitioning_mesh_ids fresh_build)
    /\ env_option_overrides opts
       = match env with Some items => items | None => env_option_overrides fresh end
    /\ match da with
       | Some a =>
           exists d,
             outcome (convert_device_assignment w nr np a st) = Ok d
             /\ device_assignment opts = Some d
       | None => device_assignment opts = device_assignment fresh
       end
    /\ xla_gpu_cuda_data_dir (debug_options build)
       = match cuda_path w with
         | Some p => Some p
         | None => xla_gpu_cuda_data_dir (debug_options fresh_build)
         end
    /\ (if _DISABLE_MOST_OPTIMIZATIONS w then
          xla_backend_optimization_level (debug_options build) = 0
          /\ xla_llvm_disable_expensive_passes (debug_options build) = true
          /\ xla_test_all_input_layouts (debug_options build) = false
        else
          xla_backend_optimization_level (debug_options build)
          = xla_backend_optimization_level (debug_options fresh_build)
          /\ xla_llvm_disable_expensive_passes (debug_options build)
             = xla_llvm_disable_expensive_passes (debug_options fresh_build)
          /\ xla_test_all_input_layouts (debug_options build)
             = xla_test_all_input_layouts (debug_options fresh_build)).
Proof.
  intros w nr np da spmd auto mesh_shape mesh_ids env fdo st opts.
  unfold get_compile_options.
  assert (Hres := resolve_profile_version_total w).
  destruct da as [a|].
  - rewrite bind_assoc. unfold bind at 1.
    destruct (convert_device_assignment_events w nr np a st) as [_ Hfin].
    destruct (convert_device_assignment w nr np a st) as [[[d|e] s] evs] eqn:Hc;
      [|discriminate].
    cbn [final fst snd] in Hfin. subst s.
    rewrite bind_ret, outcome_after. unfold bind.
    destruct (Hres st) as (v & evs' & ->).
    cbn. intros [= <-]. cbn.
    repeat split; try (now exists d);
      destruct (_DISABLE_MOST_OPTIMIZATIONS w); repeat split.
  - rewrite bind_ret. unfold bind.
    destruct (Hres st) as (v & evs' & ->).
    cbn. intros [= <-]. cbn.
    repeat split; destruct (_DISABLE_MOST_OPTIMIZATIONS w); repeat split.
Qed.

(** X4: when [get_compile_options] returns for a device assignment, the
    options carry the requested numbers of replicas and partitions and a
    device assignment object whose replica and computation counts are those
    numbers, whatever [xc.DeviceAssignment.create] does; that object was
    built from an integer array whose first two axes are [(num_replicas,
    num_partitions)]. *)
Theorem get_compile_options_device_assignment_counts :
  forall w nr np a spmd auto mesh_shape mesh_ids env fdo st opts,
    outcome (get_compile_options w nr np (Some a) spmd auto mesh_shape
               mesh_ids env fdo st) = Ok opts ->
    num_replicas opts = nr /\ num_partitions opts = np
    /\ exists d ids rest,
         device_assignment opts = Some d
         /\ replica_count d = nr /\ computation_count d = np
         /\ xc_DeviceAssignment_create w ids = Ok d
         /\ dtype ids = dtype_int
         /\ shape ids = nr :: np :: rest.
Proof.
  intros w nr np a spmd auto mesh_shape mesh_ids env fdo st opts Hok.
  destruct (get_compile_options_ok_inv w nr np (Some a) spmd auto mesh_shape
              mesh_ids env fdo st opts Hok)
    as (Hnr & Hnp & _ & _ & _ & _ & _ & _ & (d & Hd & Hopts) & _).
  destruct (convert_device_assignment_ok_inv w nr np a st d Hd)
    as (rest & ids & Hshape & Hids & Hcreate & Hr & Hc).
  destruct (ids_of_devices_int _ _ Hids) as [Hdtype Hsh].
  split; [exact Hnr|]. split; [exact Hnp|].
  exists d, ids, rest. repeat split; try assumption. congruence.
Qed.

Lemma get_compile_options_device_assignment_counts_witness :
  exists opts d,
    outcome (get_compile_options Sample.world 2 1 (Some Sample.two_ids) true
               false None None None None Sample.start) = Ok opts
    /\ device_assignment opts = Some d
    /\ replica_count d = 2 /\ computation_count d = 1.
Proof.
  eexists.
  assert (Hok : outcome (get_compile_options Sample.world 2 1
                           (Some Sample.two_ids) true false None None None
                           None Sample.start) = Ok _) by reflexivity.
  destruct (get_compile_options_device_assignment_counts
              Sample.world 2 1 Sample.two_ids true false None None None None
              Sample.start _ Hok)
    as (_ & _ & d & ids & rest & Hd & Hr & Hc & _).
  exists d. split; [exact Hok|]. split; [exact Hd|]. split; assumption.
Defined.

(** X5: a device assignment with fewer than two axes, once a 1-dimensional
    one for a single partition has got its second axis, is never accepted.
    Without any axis the check of the replicas reads [shape[0]] and raises
    [IndexError].  With one axis and several partitions the call raises
    [ValueError] when the length is not [num_replicas], and otherwise the
    check of the partitions reads [shape[1]] and raises [IndexError]. *)
Theorem get_compile_options_too_few_axes :
  forall w nr np a spmd auto mesh_shape mesh_ids env fdo st,
    let run := get_compile_options w nr np (Some a) spmd auto mesh_shape
                 mesh_ids env fdo st in
    (shape a = [] -> raises IndexError run)
    /\ (forall n, shape a = [n] -> np <> 1 ->
          (n <> nr -> raises ValueError run)
          /\ (n = nr -> raises IndexError run)).
Proof.
  intros w nr np a spmd auto mesh_shape mesh_ids env fdo st run.
  assert (Hraise : forall e,
            outcome (convert_device_assignment w nr np a st) = Raise e ->
            raises (exn_class_of e) run).
  { intros e He. exists e. split; [|reflexivity].
    now apply get_compile_options_raise. }
  split.
  - intros Hshape.
    apply (Hraise {| exn_class_of := IndexError;
                     exn_template := "tuple index out of range";
                     exn_args := [] |}).
    rewrite convert_device_assignment_run, outcome_after.
    unfold allow_1d, ndim. rewrite Hshape. cbn. now rewrite Hshape.
  - intros n Hshape Hnp.
    assert (Hallow : allow_1d np a = a).
    { unfold allow_1d, ndim. rewrite Hshape. cbn.
      destruct (Z.eqb_spec np 1); [contradiction | reflexivity]. }
    split; intros Hn.
    + apply (Hraise {| exn_class_of := ValueError;
                       exn_template :=
                         "device_assignment does not match num_replicas: {} vs {}.";
                       exn_args := [ArgArray a; ArgInt nr] |}).
      rewrite convert_device_assignment_run, outcome_after, Hallow, Hshape.
      cbn. destruct (Z.eqb_spec nr n); [congruence | reflexivity].
    + apply (Hraise {| exn_class_of := IndexError;
                       exn_template := "tuple index out of range";
                       exn_args := [] |}).
      rewrite convert_device_assignment_run, outcome_after, Hallow, Hshape.
      cbn. subst n. now rewrite Z.eqb_refl.
Qed.

Lemma get_compile_options_too_few_axes_witness :
  raises IndexError
    (get_compile_options Sample.world 2 2 (Some Sample.two_ids) true false
       None None None None Sample.start).
Proof.
  destruct (get_compile_options_too_few_axes
              Sample.world 2 2 Sample.two_ids true false None None None None
              Sample.start) as [_ H1d].
  destruct (H1d 2 eq_refl ltac:(discriminate)) as [_ Hindex].
  now apply Hindex.
Defined.

Lemma ids_of_map_EDevice (devs : list Device) :
  ids_of (map EDevice devs) = Ok (map (fun d => EInt (id d)) devs).
Proof.
  induction devs as [|d devs IH]; [reflexivity|]. cbn. now rewrite IH.
Qed.

Lemma ids_of_EInt (l : list np_elt) (i : Z) :
  In (EInt i) l -> exists e, ids_of l = Raise e /\ exn_class_of e = AttributeError.
Proof.
  induction l as [|x l IH]; [intros []|].
  intros [->|Hin]; [eexists; split; reflexivity|].
  destruct x as [j|d]; [eexists; split; reflexivity|].
  destruct (IH Hin) as (e & He & Hc). exists e. cbn. now rewrite He.
Qed.

(** The outcome of [get_compile_options] depends on the device assignment
    through the outcome of its conversion only. *)
Lemma get_compile_options_outcome_congr :
  forall w nr np a a' spmd auto mesh_shape mesh_ids env fdo st,
    same_up_to_message
      (outcome (convert_device_assignment w nr np a st))
      (outcome (convert_device_assignment w nr np a' st)) ->
    same_up_to_message
      (outcome (get_compile_options w nr np (Some a) spmd auto mesh_shape
                  mesh_ids env fdo st))
      (outcome (get_compile_options w nr np (Some a') spmd auto mesh_shape
                  mesh_ids env fdo st)).
Proof.
  intros w nr np a a' spmd auto mesh_shape mesh_ids env fdo st Hsame.
  unfold get_compile_options. rewrite !bind_assoc. unfold bind at 1 4.
  destruct (convert_device_assignment_events w nr np a st) as [_ Hfin].
  destruct (convert_device_assignment_events w nr np a' st) as [_ Hfin'].
  destruct (convert_device_assignment w nr np a st) as [[o s] evs].
  destruct (convert_device_assignment w nr np a' st) as [[o' s'] evs'].
  cbn [outcome final fst snd] in *. subst s s'.
  destruct o as [d|e], o' as [d'|e']; cbn in Hsame; try contradiction.
  - subst d'. rewrite !bind_ret, !outcome_after. unfold bind.
    destruct (resolve_profile_version_total w st) as (v & evs0 & ->).
    reflexivity.
  - exact Hsame.
Qed.

(** X6: device objects stand for their ids: an assignment given as an array
    of [dtype=object] holding devices is accepted exactly when the same array
    holding the ids of those devices is, with the same options, and is
    refused with an exception of the same class otherwise (the message quotes
    the array as it was given).  An object array that holds a bare integer,
    and whose first two axes are as requested, raises [AttributeError]. *)
Theorem get_compile_options_devices_as_ids :
  forall w nr np spmd auto mesh_shape mesh_ids env fdo st,
    (forall sh devs,
       same_up_to_message
         (outcome (get_compile_options w nr np
                     (Some {| shape := sh; dtype := dtype_object;
                              data := map EDevice devs |})
                     spmd auto mesh_shape mesh_ids env fdo st))
         (outcome (get_compile_options w nr np
                     (Some {| shape := sh; dtype := dtype_int;
                              data := map (fun d => EInt (id d)) devs |})
                     spmd auto mesh_shape mesh_ids env fdo st)))
    /\ (forall a i rest,
          dtype a = dtype_object -> In (EInt i) (data a) ->
          shape (allow_1d np a) = nr :: np :: rest ->
          raises AttributeError
            (get_compile_options w nr np (Some a) spmd auto mesh_shape
               mesh_ids env fdo st)).
Proof.
  intros w nr np spmd auto mesh_shape mesh_ids env fdo st. split.
  - intros sh devs. apply get_compile_options_outcome_congr.
    rewrite !convert_device_assignment_run, !outcome_after.
    unfold allow_1d, ndim, add_trailing_axis, ids_of_devices, vectorize_id.
    cbn [shape dtype data].
    destruct ((Z.of_nat (List.length sh) =? 1) && (np =? 1));
      cbn [shape dtype data]; rewrite ids_of_map_EDevice;
      match goal with
      | |- context [tuple_index ?s 0] => destruct (tuple_index s 0)
      end; cbn; try reflexivity;
      match goal with
      | |- context [negb (nr =? ?x)] => destruct (negb (nr =? x))
      end; cbn; try reflexivity;
      match goal with
      | |- context [tuple_index ?s 1] => destruct (tuple_index s 1)
      end; cbn; try reflexivity;
      match goal with
      | |- context [negb (np =? ?x)] => destruct (negb (np =? x))
      end; cbn; try reflexivity;
      match goal with
      | |- context [xc_DeviceAssignment_create w ?x] =>
          destruct (xc_DeviceAssignment_create w x) as [d|]
      end; cbn; try reflexivity;
      destruct (replica_count d =? nr); cbn; try reflexivity;
      destruct (computation_count d =? np); reflexivity.
  - intros a i rest Hdtype Hin Hshape.
    assert (Hin' : In (EInt i) (data (allow_1d np a))).
    { unfold allow_1d. destruct (_ && _); exact Hin. }
    assert (Hdtype' : dtype (allow_1d np a) = dtype_object).
    { unfold allow_1d. destruct (_ && _); exact Hdtype. }
    destruct (ids_of_EInt _ i Hin') as (e & He & Hc).
    exists e. split; [|exact Hc].
    apply get_compile_options_raise.
    rewrite convert_device_assignment_run, outcome_after, Hshape. cbn.
    rewrite !Z.eqb_refl. cbn.
    unfold ids_of_devices, vectorize_id. now rewrite Hdtype', He.
Qed.

Lemma get_compile_options_devices_as_ids_witness :
  raises AttributeError
    (get_compile_options Sample.world 1 1
       (Some {| shape := [1]; dtype := dtype_object; data := [EInt 0] |})
       true false None None None None Sample.start).
Proof.
  destruct (get_compile_options_devices_as_ids
              Sample.world 1 1 true false None None None None Sample.start)
    as [_ Hmixed].
  apply (Hmixed _ 0 []); [reflexivity | left; reflexivity | reflexivity].
Defined.

(** X7: what a successful call stores besides the device assignment.  The
    counts and the two partitioning flags are the arguments.  The FDO profile
    and the environment overrides replace those of a fresh
    [xc.CompileOptions()] only when they are given.  The mesh shape and ids of
    the automatic partitioning are stored only when it is enabled, and are
    then the given lists, or empty lists when they are not given; when it is
    not enabled the given mesh is ignored.  The three optimisation settings
    of the debug options are forced when [jax_disable_most_optimizations] is
    set and are otherwise those of the fresh options. *)
Theorem get_compile_options_stores :
  forall w nr np da spmd auto mesh_shape mesh_ids env fdo st opts,
    outcome (get_compile_options w nr np da spmd auto mesh_shape mesh_ids env
               fdo st) = Ok opts ->
    let fresh := xc_CompileOptions w in
    let build := executable_build_options opts in
    let fresh_build := executable_build_options fresh in
    num_replicas opts = nr
    /\ num_partitions opts = np
    /\ use_spmd_partitioning build = spmd
    /\ use_auto_spmd_partitioning build = auto
    /\ (forall p, fdo = Some p -> xc.fdo_profile build = Some p)
    /\ (fdo = None -> xc.fdo_profile build = xc.fdo_profile fresh_build)
    /\ (forall items, env = Some items -> env_option_overrides opts = items)
    /\ (env = None -> env_option_overrides opts = env_option_overrides fresh)
    /\ (auto = true ->
        auto_spmd_partitioning_mesh_shape build = or_empty mesh_shape
        /\ auto_spmd_partitioning_mesh_ids build = or_empty mesh_ids)
    /\ (auto = false ->
        auto_spmd_partitioning_mesh_shape build
        = auto_spmd_partitioning_mesh_shape fresh_build
        /\ auto_spmd_partitioning_mesh_ids build
           = auto_spmd_partitioning_mesh_ids fresh_build)
    /\ (da = None -> device_assignment opts = device_assignment fresh)
    /\ (forall p, cuda_path w = Some p ->
        xla_gpu_cuda_data_dir (debug_options build) = Some p)
    /\ (_DISABLE_MOST_OPTIMIZATIONS w = true ->
        xla_backend_optimization_level (debug_options build) = 0
        /\ xla_llvm_disable_expensive_passes (debug_options build) = true
        /\ xla_test_all_input_layouts (debug_options build) = false)
    /\ (_DISABLE_MOST_OPTIMIZATIONS w = false ->
        xla_backend_optimization_level (debug_options build)
        = xla_backend_optimization_level (debug_options fresh_build)
        /\ xla_llvm_disable_expensive_passes (debug_options build)
           = xla_llvm_disable_expensive_passes (debug_options fresh_build)
        /\ xla_test_all_input_layouts (debug_options build)
           = xla_test_all_input_layouts (debug_options fresh_build)).
Proof.
  intros w nr np da spmd auto mesh_shape mesh_ids env fdo st opts Hok.
  destruct (get_compile_options_ok_inv w nr np da spmd auto mesh_shape
              mesh_ids env fdo st opts Hok)
    as (Hnr & Hnp & Hspmd & Hauto & Hfdo & Hshape & Hids & Henv & Hda
        & Hcuda & Hopt).
  cbv zeta.
  split; [exact Hnr|]. split; [exact Hnp|]. split; [exact Hspmd|].
  split; [exact Hauto|].
  split; [intros p ->; exact Hfdo|]. split; [intros ->; exact Hfdo|].
  split; [intros items ->; exact Henv|]. split; [intros ->; exact Henv|].
  split; [intros ->; now split|]. split; [intros ->; now split|].
  split; [intros ->; exact Hda|].
  split; [intros p Hp; now rewrite Hp in Hcuda|].
  split; intros Hflag; rewrite Hflag in Hopt; exact Hopt.
Qed.

Lemma get_compile_options_stores_witness :
  exists opts,
    outcome (get_compile_options Sample.world 4 2 None true true None
               (Some [0; 1]) None None Sample.start) = Ok opts
    /\ auto_spmd_partitioning_mesh_shape (executable_build_options opts) = []
    /\ auto_spmd_partitioning_mesh_ids (executable_build_options opts) = [0; 1].
Proof.
  eexists.
  assert (Hok : outcome (get_compile_options Sample.world 4 2 None true true
                           None (Some [0; 1]) None None Sample.start) = Ok _)
    by reflexivity.
  split; [exact Hok|].
  destruct (get_compile_options_stores
              Sample.world 4 2 None true true None (Some [0; 1]) None None
              Sample.start _ Hok)
    as (_ & _ & _ & _ & _ & _ & _ & _ & Hmesh & _).
  exact (Hmesh eq_refl).
Defined.

(** X8: with the provider of the latest profile version as the module
    defines it, which returns -1, and no version configured, the options
    carry the profile version -1; that is the value of the provider, used as
    it is, and no error is logged. *)
Theorem get_compile_options_unpatched_provider :
  forall w nr np da spmd auto mesh_shape mesh_ids env fdo st,
    (forall u, get_latest_profile_version w u
               = Unpatched.get_latest_profile_version u) ->
    jax_xla_profile_version w <= 0 ->
    device_assignment_accepted w nr np da st ->
    exists opts,
      outcome (get_compile_options w nr np da spmd auto mesh_shape mesh_ids
                 env fdo st) = Ok opts
      /\ profile_version opts = -1
      /\ filter is_error_log
           (events (get_compile_options w nr np da spmd auto mesh_shape
                      mesh_ids env fdo st)) = [].
Proof.
  intros w nr np da spmd auto mesh_shape mesh_ids env fdo st Hprovider Hv Hda.
  destruct (get_compile_options_run w nr np da spmd auto mesh_shape mesh_ids
              env fdo st Hda) as (k & pre & Hk & _ & Hpre & ->).
  unfold bind. rewrite resolve_profile_version_run, Z.gtb_ltb, Hprovider.
  destruct (Z.ltb_spec 0 (jax_xla_profile_version w)) as [Hpos|_]; [lia|].
  cbn. exists (k (-1)). split; [reflexivity|]. split; [apply Hk|].
  unfold after, events. cbn. rewrite filter_app, Hpre. reflexivity.
Qed.

Lemma get_compile_options_unpatched_provider_witness :
  exists opts,
    outcome (get_compile_options Sample.world 1 1 None true false None None
               None None Sample.start) = Ok opts
    /\ profile_version opts = -1.
Proof.
  destruct (get_compile_options_unpatched_provider
              Sample.world 1 1 None true false None None None None
              Sample.start (fun _ => eq_refl) ltac:(cbn; lia) I)
    as (opts & Hok & Hv & _).
  now exists opts.
Defined.

(** X9: whatever its arguments and its outcome, [get_compile_options] only
    logs: it leaves the state of the process as it is, calls neither the
    cache nor the compiler, and logs at most one error. *)
Theorem get_compile_options_only_logs :
  forall w nr np da spmd auto mesh_shape mesh_ids env fdo st,
    let run := get_compile_options w nr np da spmd auto mesh_shape mesh_ids
                 env fdo st in
    final run = st
    /\ forallb is_log (events run) = true
    /\ (List.length (filter is_error_log (events run)) <= 1)%nat.
Proof.
  intros w nr np da spmd auto mesh_shape mesh_ids env fdo st.
  assert (Hres : forall k : Z -> CompileOptions,
            let r := bind (resolve_profile_version w) (fun v => ret (k v)) st in
            final r = st /\ forallb is_log (events r) = true
            /\ (List.length (filter is_error_log (events r)) <= 1)%nat).
  { intros k. cbv zeta. unfold bind. rewrite resolve_profile_version_run.
    destruct (_ >? 0); [|destruct (_ =? 0)]; cbn; repeat split; lia. }
  intros run.
  assert (Hrun : (exists e, run = (Raise e, st, events run)
                            /\ forallb is_log (events run) = true
                            /\ filter is_error_log (events run) = [])
                 \/ exists k pre,
                      forallb is_log pre = true
                      /\ filter is_error_log pre = []
                      /\ run = after pre (bind (resolve_profile_version w)
                                            (fun v => ret (k v)) st)).
  { subst run. destruct da as [a|].
    - destruct (convert_device_assignment_events w nr np a st) as [Hev Hfin].
      destruct (convert_device_assignment w nr np a st) as [[[d|e] s] evs]
        eqn:Hc; cbn [events final fst snd] in Hev, Hfin; subst s evs.
      + right. eexists (fun v => _), _.
        split; [|split].
        3: { unfold get_compile_options. rewrite bind_assoc.
             unfold bind at 1. rewrite Hc. cbv beta iota.
             rewrite bind_ret. reflexivity. }
        all: reflexivity.
      + left. exists e.
        assert (Heq : get_compile_options w nr np (Some a) spmd auto
                        mesh_shape mesh_ids env fdo st
                      = (Raise e, st,
                         [EvLog DEBUG
                            "get_compile_options: num_replicas=%s num_partitions=%s device_assignment=%s"
                            [ArgInt nr; ArgInt np; ArgArray a]])).
        { unfold get_compile_options. rewrite bind_assoc.
          unfold bind at 1. now rewrite Hc. }
        rewrite Heq. repeat split.
    - right. eexists (fun v => _), [].
      split; [|split].
      3: { unfold get_compile_options. rewrite bind_ret, after_nil.
           reflexivity. }
      all: reflexivity. }
  destruct Hrun as [(e & Hrun & Hlogs & Herr) | (k & pre & Hlogs & Herr & Hrun)].
  - split; [now rewrite Hrun|]. split; [exact Hlogs|]. rewrite Herr. cbn. lia.
  - destruct (Hres k) as (H1 & H2 & H3).
    rewrite Hrun, final_after, events_after, forallb_app, filter_app, Herr.
    split; [exact H1|]. split; [now rewrite Hlogs, H2 | exact H3].
Qed.

(** ** More on [compile_or_get_cached] *)

(** The ways a request can go.  [pre] is what happened before the
    compilation, the hit or the exception. *)
Lemma compile_or_get_cached_paths
    w backend computation devices compile_options host_callbacks st :
  let run := compile_or_get_cached w backend computation devices
               compile_options host_callbacks st in
  let st0 := dump_state w st in
  exists pre,
    filter is_compile pre = [] /\ filter is_put pre = []
    /\ filter is_metric pre = []
    /\ ((use_compilation_cache w backend = false
         /\ run = after pre (backend_compile backend computation
                               compile_options host_callbacks st0))
        \/ (exists e s, run = (Raise e, s, pre))
        \/ (exists exe t,
              run = after pre (hit w (sym_name computation) exe t
                                 (measured w (clock_reads st))
                                 (tick (tick st0))))
        \/ (exists cache_key,
              use_compilation_cache w backend = true
              /\ get_cache_key w computation devices compile_options backend
                   (jax_use_original_compilation_cache_key_generation w)
                 = Ok cache_key
              /\ In (EvCacheGet cache_key compile_options backend) pre
              /\ run = after pre (compile_and_write w backend computation
                                    compile_options host_callbacks cache_key
                                    (tick (tick st0))))).
Proof.
  cbv zeta.
  assert (Hd : forall p,
            (forall dir file contents,
               p (EvWriteText dir file contents) = false) ->
            filter p (dump_events w computation st) = [])
    by (intros p Hp; now apply dump_events_no_call).
  set (key_event := EvGetCacheKey computation devices compile_options backend
                      (jax_use_original_compilation_cache_key_generation w)).
  assert (Hpre : forall evs p,
            (forall dir file contents,
               p (EvWriteText dir file contents) = false) ->
            filter p (key_event :: evs) = [] ->
            filter p ((dump_events w computation st ++ [key_event]) ++ evs)
            = []).
  { intros evs p Hp Hevs. rewrite <- app_assoc, filter_app, Hd by exact Hp.
    exact Hevs. }
  destruct (use_compilation_cache w backend) eqn:Huse.
  - rewrite compile_or_get_cached_eligible by exact Huse. cbv zeta.
    fold key_event.
    destruct (get_cache_key _ _ _ _ _ _) as [cache_key|e] eqn:Hkey.
    + rewrite _cache_read_run.
      destruct (get_executable_and_time _ _ _ _) as [[[exe|] [t|]]|ex];
        [| | | |destruct (_ && _)];
        cbn [outcome events fst snd]; rewrite after_after;
        match goal with
        | |- context [after (?l ++ ?evs) _] => exists (l ++ evs)
        end;
        (split; [now apply Hpre|]); (split; [now apply Hpre|]);
        (split; [now apply Hpre|]).
      * right. right. left. now exists exe, t.
      * right. left. eexists _, _. unfold after. cbn. now rewrite app_nil_r.
      * right. right. right. exists cache_key.
        repeat split; try reflexivity.
        apply in_or_app. right. now left.
      * right. right. right. exists cache_key.
        repeat split; try reflexivity.
        apply in_or_app. right. now left.
      * right. right. right. exists cache_key.
        repeat split; try reflexivity.
        apply in_or_app. right. now left.
      * right. left. eexists _, _. unfold after. cbn. now rewrite app_nil_r.
    + exists (dump_events w computation st ++ [key_event]).
      rewrite !filter_app, !Hd by reflexivity.
      repeat split.
      right. left. eexists _, _. unfold after. cbn. now rewrite app_nil_r.
  - rewrite compile_or_get_cached_ineligible by exact Huse.
    exists (dump_events w computation st).
    rewrite !Hd by reflexivity. repeat split. now left.
Qed.

(** X10: the derivation of the key is not guarded: when an eligible request
    cannot derive its key, it raises the exception of the derivation whatever
    [jax_raise_persistent_cache_errors] says, and neither looks the cache up
    nor compiles. *)
Theorem compile_or_get_cached_key_error :
  forall w backend computation devices compile_options host_callbacks st e,
    cache_eligible w backend ->
    get_cache_key w computation devices compile_options backend
      (jax_use_original_compilation_cache_key_generation w) = Raise e ->
    let run := compile_or_get_cached w backend computation devices
                 compile_options host_callbacks st in
    outcome run = Raise e
    /\ filter is_lookup (events run) = []
    /\ filter is_compile (events run) = []
    /\ filter is_put (events run) = []
    /\ filter is_warning (events run) = [].
Proof.
  intros w backend computation devices compile_options host_callbacks st e
    Huse Hkey run.
  apply use_compilation_cache_spec in Huse. subst run.
  rewrite compile_or_get_cached_eligible by exact Huse.
  cbv zeta. rewrite Hkey, outcome_after, events_after.
  cbn [outcome events fst snd]. rewrite app_nil_r, !filter_app.
  rewrite !dump_events_no_call by reflexivity. repeat split.
Qed.

Lemma compile_or_get_cached_key_error_witness :
  outcome (compile_or_get_cached Faults.no_key Sample.tpu Sample.module
             Sample.devices Sample.options [] Sample.start)
  = Raise Faults.key_error.
Proof.
  destruct (compile_or_get_cached_key_error
              Faults.no_key Sample.tpu Sample.module Sample.devices
              Sample.options [] Sample.start Faults.key_error
              (tpu_eligible Faults.no_key eq_refl) eq_refl) as [Hout _].
  exact Hout.
Defined.

(** An eligible request that misses: what follows the lookup. *)
Lemma compile_or_get_cached_miss_outcome
    w backend computation devices compile_options host_callbacks st
    cache_key retrieved_compile_time executable :
  cache_eligible w backend ->
  get_cache_key w computation devices compile_options backend
    (jax_use_original_compilation_cache_key_generation w) = Ok cache_key ->
  get_executable_and_time w cache_key compile_options backend
  = Ok (None, retrieved_compile_time) ->
  compile_fn backend (built_for backend computation) compile_options
    (keyword_host_callbacks host_callbacks) = Ok executable ->
  let run := compile_or_get_cached w backend computation devices
               compile_options host_callbacks st in
  let write := _cache_write w cache_key (measured w (2 + clock_reads st))
                 (sym_name computation) backend executable host_callbacks
                 (tick (tick (tick (tick (dump_state w st))))) in
  outcome run
  = match outcome write with Ok _ => Ok executable | Raise e => Raise e end
  /\ events run
     = dump_events w computation st
       ++ [EvGetCacheKey computation devices compile_options backend
             (jax_use_original_compilation_cache_key_generation w);
           EvCacheGet cache_key compile_options backend;
           EvCompile backend (built_for backend computation) compile_options
             (keyword_host_callbacks host_callbacks)]
       ++ events write.
Proof.
  intros Huse Hkey Hget Hcompile. cbv zeta.
  rewrite (compile_or_get_cached_found w backend computation devices
             compile_options host_callbacks st cache_key
             (None, retrieved_compile_time) Huse Hkey Hget).
  rewrite compile_and_write_run, Hcompile. cbv zeta.
  rewrite outcome_after, !events_after. cbn [outcome events fst snd tick clock_reads].
  rewrite clock_reads_dump_state. split; [reflexivity|].
  rewrite <- !app_assoc. reflexivity.
Qed.

(** X11: errors of the write follow the policy of the errors of the lookup.
    Let an eligible request miss, compile, pass both gates of the write, and
    let [put_executable_and_time] raise an exception [ex] (an instance of
    [Exception]).  If [jax_raise_persistent_cache_errors] is set the request
    raises [ex]: the compiled executable is not returned.  If it is not set
    the request warns and returns the executable. *)
Theorem cache_write_error_policy :
  forall w backend computation devices compile_options host_callbacks st
         cache_key retrieved_compile_time executable seconds ex,
    cache_eligible w backend ->
    get_cache_key w computation devices compile_options backend
      (jax_use_original_compilation_cache_key_generation w) = Ok cache_key ->
    get_executable_and_time w cache_key compile_options backend
    = Ok (None, retrieved_compile_time) ->
    compile_fn backend (built_for backend computation) compile_options
      (keyword_host_callbacks host_callbacks) = Ok executable ->
    admitted w host_callbacks (measured w (2 + clock_reads st)) = true ->
    int_of_float (measured w (2 + clock_reads st)) = Ok seconds ->
    put_executable_and_time w cache_key (sym_name computation) executable
      backend seconds = Raise ex ->
    is_Exception (exn_class_of ex) = true ->
    let run := compile_or_get_cached w backend computation devices
                 compile_options host_callbacks st in
    (jax_raise_persistent_cache_errors w = true ->
       outcome run = Raise ex /\ filter is_warning (events run) = [])
    /\ (jax_raise_persistent_cache_errors w = false ->
          outcome run = Ok executable
          /\ filter is_warning (events run)
             = [write_warning (sym_name computation) ex]).
Proof.
  intros w backend computation devices compile_options host_callbacks st
    cache_key retrieved_compile_time executable seconds ex
    Huse Hkey Hget Hcompile Hadm Hint Hput Hex run.
  destruct (compile_or_get_cached_miss_outcome
              w backend computation devices compile_options host_callbacks st
              cache_key retrieved_compile_time executable
              Huse Hkey Hget Hcompile) as [Hout Hev].
  fold run in Hout, Hev. rewrite Hout, Hev. clear Hout Hev.
  destruct (_cache_write_run w cache_key (measured w (2 + clock_reads st))
              (sym_name computation) backend executable host_callbacks
              (tick (tick (tick (tick (dump_state w st))))))
    as (logs & Hlogs & ->).
  rewrite Hadm. unfold write_attempt. rewrite Hint. cbv zeta.
  rewrite Hput, Hex. cbn [andb].
  apply (filter_info_logs is_warning) in Hlogs; [|reflexivity].
  split; intros Hflag; rewrite Hflag; cbn [negb];
    rewrite outcome_after, events_after, !filter_app, Hlogs;
    rewrite dump_events_no_call by reflexivity; split; reflexivity.
Qed.

Lemma cache_write_error_policy_witness :
  outcome (compile_or_get_cached (Faults.read_only true) Sample.tpu
             Sample.module Sample.devices Sample.options [] Sample.start)
  = Raise Faults.disk_full
  /\ outcome (compile_or_get_cached (Faults.read_only false) Sample.tpu
                Sample.module Sample.devices Sample.options [] Sample.start)
     = Ok Sample.executable.
Proof.
  split.
  - destruct (cache_write_error_policy
                (Faults.read_only true) Sample.tpu Sample.module
                Sample.devices Sample.options [] Sample.start Scenario.key
                None Sample.executable 5 Faults.disk_full
                (tpu_eligible (Faults.read_only true) eq_refl)
                eq_refl eq_refl eq_refl eq_refl eq_refl eq_refl eq_refl)
      as [Hstrict _].
    now destruct (Hstrict eq_refl).
  - destruct (cache_write_error_policy
                (Faults.read_only false) Sample.tpu Sample.module
                Sample.devices Sample.options [] Sample.start Scenario.key
                None Sample.executable 5 Faults.disk_full
                (tpu_eligible (Faults.read_only false) eq_refl)
                eq_refl eq_refl eq_refl eq_refl eq_refl eq_refl eq_refl)
      as [_ Hlenient].
    now destruct (Hlenient eq_refl).
Defined.

Lemma hit_events_outcome w module_name exe t latency st :
  filter is_compile (events (hit w module_name exe t latency st)) = []
  /\ filter is_put (events (hit w module_name exe t latency st)) = []
  /\ (outcome (hit w module_name exe t latency st) = Ok exe
      \/ exists e, outcome (hit w module_name exe t latency st) = Raise e
                   /\ exn_class_of e = OverflowError).
Proof.
  unfold hit. rewrite outcome_after, events_after, !filter_app.
  unfold float_of_int.
  destruct (binary_normalize _ _ _ _ _); cbn; repeat split;
    try (now left); right; eexists; split; reflexivity.
Qed.

Lemma compile_and_write_compiles
    w backend computation compile_options host_callbacks cache_key st :
  filter is_compile
    (events (compile_and_write w backend computation compile_options
               host_callbacks cache_key st))
  = [EvCompile backend (built_for backend computation) compile_options
       (keyword_host_callbacks host_callbacks)].
Proof.
  rewrite compile_and_write_run, events_after.
  destruct (compile_fn _ _ _ _) as [executable|e]; [|reflexivity].
  cbv zeta. cbn [events snd filter is_compile app]. f_equal.
  destruct (_cache_write_run w cache_key (measured w (clock_reads st))
              (sym_name computation) backend executable host_callbacks
              (tick (tick st))) as (logs & Hlogs & ->).
  apply (filter_info_logs is_compile) in Hlogs; [|reflexivity].
  destruct (admitted _ _ _); [|exact Hlogs].
  rewrite events_after, filter_app, Hlogs. unfold write_attempt.
  destruct (int_of_float _).
  - cbv zeta. destruct (put_executable_and_time _ _ _ _ _ _); [reflexivity|].
    destruct (_ && _); reflexivity.
  - destruct (_ && _); reflexivity.
Qed.

(** X12: a failure of the compiler is the failure of the request, and
    nothing of it reaches the cache: when [backend.compile] raises [e], no
    request writes to the cache, and every request that called the compiler
    raises [e]. *)
Theorem compile_or_get_cached_compile_error :
  forall w backend computation devices compile_options host_callbacks st e,
    compile_fn backend (built_for backend computation) compile_options
      (keyword_host_callbacks host_callbacks) = Raise e ->
    let run := compile_or_get_cached w backend computation devices
                 compile_options host_callbacks st in
    filter is_put (events run) = []
    /\ (filter is_compile (events run) <> [] -> outcome run = Raise e).
Proof.
  intros w backend computation devices compile_options host_callbacks st e
    Hcompile run.
  destruct (compile_or_get_cached_paths w backend computation devices
              compile_options host_callbacks st)
    as (pre & Hc & Hp & _ & Hpath).
  fold run in Hpath.
  destruct Hpath as [[_ ->] | [(e' & s & ->) | [(exe & t & ->)
                    | (cache_key & _ & _ & _ & ->)]]].
  - rewrite backend_compile_run, Hcompile, events_after, outcome_after,
      !filter_app, Hp. split; [reflexivity | intros _; reflexivity].
  - cbn [events outcome fst snd]. split; [exact Hp | now rewrite Hc].
  - destruct (hit_events_outcome w (sym_name computation) exe t
                (measured w (clock_reads st))
                (tick (tick (dump_state w st)))) as (Hhc & Hhp & _).
    rewrite events_after, !filter_app, Hp, Hc, Hhp, Hhc.
    split; [reflexivity | intros H; now elim H].
  - assert (H := compile_and_write_puts w backend computation compile_options
                   host_callbacks cache_key (tick (tick (dump_state w st)))).
    cbv zeta in H. rewrite Hcompile in H. destruct H as [Hputs Hout].
    rewrite events_after, outcome_after, !filter_app, Hp, Hputs.
    split; [reflexivity | intros _; exact Hout].
Qed.

Lemma compile_or_get_cached_compile_error_witness :
  outcome (compile_or_get_cached Sample.world Faults.failing_tpu Sample.module
             Sample.devices Sample.options [] Sample.start)
  = Raise Faults.compiler_error.
Proof.
  destruct (compile_or_get_cached_compile_error
              Sample.world Faults.failing_tpu Sample.module Sample.devices
              Sample.options [] Sample.start Faults.compiler_error eq_refl)
    as [_ Hout].
  apply Hout. vm_compute. discriminate.
Defined.

(** X13: what is written is what was compiled.  Every call of
    [put_executable_and_time] made by a request is made once, for a backend
    that is eligible, without host callbacks, under the key that the request
    derived and looked up, under the name of the module, and with the
    executable that the compiler returned for this request. *)
Theorem compile_or_get_cached_put_provenance :
  forall w backend computation devices compile_options host_callbacks st
         cache_key module_name executable client seconds,
    let run := compile_or_get_cached w backend computation devices
                 compile_options host_callbacks st in
    In (EvCachePut cache_key module_name executable client seconds)
       (events run) ->
    filter is_put (events run)
    = [EvCachePut cache_key module_name executable client seconds]
    /\ cache_eligible w backend
    /\ host_callbacks = []
    /\ get_cache_key w computation devices compile_options backend
         (jax_use_original_compilation_cache_key_generation w) = Ok cache_key
    /\ In (EvCacheGet cache_key compile_options backend) (events run)
    /\ module_name = sym_name computation
    /\ client = backend
    /\ compile_fn backend (built_for backend computation) compile_options
         (keyword_host_callbacks host_callbacks) = Ok executable.
Proof.
  intros w backend computation devices compile_options host_callbacks st
    cache_key module_name executable client seconds run Hin.
  assert (Hput : In (EvCachePut cache_key module_name executable client seconds)
                   (filter is_put (events run)))
    by (apply filter_In; split; [exact Hin | reflexivity]).
  destruct (compile_or_get_cached_paths w backend computation devices
              compile_options host_callbacks st)
    as (pre & Hc & Hp & _ & Hpath).
  fold run in Hpath.
  destruct Hpath as [[_ Hrun] | [(e' & s & Hrun) | [(exe & t & Hrun)
                    | (key & Huse & Hkey & Hget & Hrun)]]];
    rewrite Hrun in Hput |- *.
  - rewrite backend_compile_run, events_after, filter_app, Hp in Hput.
    destruct Hput.
  - cbn [events snd] in Hput. rewrite Hp in Hput. destruct Hput.
  - destruct (hit_events_outcome w (sym_name computation) exe t
                (measured w (clock_reads st))
                (tick (tick (dump_state w st)))) as (_ & Hhp & _).
    rewrite events_after, filter_app, Hp, Hhp in Hput. destruct Hput.
  - assert (H := compile_and_write_puts w backend computation compile_options
                   host_callbacks key (tick (tick (dump_state w st)))).
    cbv zeta in H.
    rewrite events_after, filter_app, Hp in Hput. cbn [app] in Hput.
    rewrite events_after, filter_app, Hp. cbn [app].
    destruct (compile_fn _ _ _ _) as [exe|e];
      [|destruct H as [H _]; rewrite H in Hput; destruct Hput].
    destruct H as [H _]. rewrite H in Hput |- *.
    destruct (admitted _ _ _) eqn:Hadm; [|destruct Hput].
    destruct (int_of_float _) as [z|]; [|destruct Hput].
    destruct Hput as [[= <- <- <- <- <-]|[]].
    split; [reflexivity|].
    split; [now apply use_compilation_cache_spec|].
    split.
    { unfold admitted in Hadm. apply andb_true_iff in Hadm as [Hhc _].
      destruct host_callbacks; [reflexivity | discriminate]. }
    split; [exact Hkey|].
    split; [apply in_or_app; now left|].
    repeat split.
Qed.

Lemma compile_or_get_cached_put_provenance_witness :
  get_cache_key Sample.world Sample.module Sample.devices Sample.options
    Sample.tpu false = Ok Scenario.key
  /\ compile_fn Sample.tpu (built_for Sample.tpu Sample.module) Sample.options
       None = Ok Sample.executable.
Proof.
  assert (Hin : In (EvCachePut Scenario.key (sym_name Sample.module)
                      Sample.executable Sample.tpu 5)
                  (events (compile_or_get_cached Sample.world Sample.tpu
                             Sample.module Sample.devices Sample.options []
                             Sample.start))).
  { vm_compute. do 4 right. left. reflexivity. }
  destruct (compile_or_get_cached_put_provenance
              Sample.world Sample.tpu Sample.module Sample.devices
              Sample.options [] Sample.start Scenario.key
              (sym_name Sample.module) Sample.executable Sample.tpu 5 Hin)
    as (_ & _ & _ & Hkey & _ & _ & _ & Hcompile).
  split; [exact Hkey | exact Hcompile].
Defined.

Lemma compile_and_write_metrics
    w backend computation compile_options host_callbacks cache_key st :
  filter is_metric
    (events (compile_and_write w backend computation compile_options
               host_callbacks cache_key st)) = [].
Proof.
  rewrite compile_and_write_run, events_after.
  destruct (compile_fn _ _ _ _) as [executable|e]; [|reflexivity].
  cbv zeta. cbn [events snd filter is_metric app].
  destruct (_cache_write_run w cache_key (measured w (clock_reads st))
              (sym_name computation) backend executable host_callbacks
              (tick (tick st))) as (logs & Hlogs & ->).
  apply (filter_info_logs is_metric) in Hlogs; [|reflexivity].
  destruct (admitted _ _ _); [|exact Hlogs].
  rewrite events_after, filter_app, Hlogs. unfold write_attempt.
  destruct (int_of_float _).
  - cbv zeta. destruct (put_executable_and_time _ _ _ _ _ _); [reflexivity|].
    destruct (_ && _); reflexivity.
  - destruct (_ && _); reflexivity.
Qed.



(** X19: what a request returns is what the cache answered or what the
    compiler returned, never anything else.  A request that returns an
    executable either called the compiler, once, and returns its result
    without recording a metric, or it did not call the compiler and the
    backend is eligible, the key was derived, and the lookup under that key
    answered with this executable and a compile time; nothing is then
    written to the cache. *)
Theorem compile_or_get_cached_returns_retrieved_or_compiled :
  forall w backend computation devices compile_options host_callbacks st
         executable,
    let run := compile_or_get_cached w backend computation devices
                 compile_options host_callbacks st in
    outcome run = Ok executable ->
    (compile_fn backend (built_for backend computation) compile_options
       (keyword_host_callbacks host_callbacks) = Ok executable
     /\ List.length (filter is_compile (events run)) = 1%nat
     /\ filter is_metric (events run) = [])
    \/ (exists cache_key retrieved_compile_time,
          cache_eligible w backend
          /\ get_cache_key w computation devices compile_options backend
               (jax_use_original_compilation_cache_key_generation w)
             = Ok cache_key
          /\ get_executable_and_time w cache_key compile_options backend
             = Ok (Some executable, Some retrieved_compile_time)
          /\ filter is_compile (events run) = []
          /\ filter is_put (events run) = []).
Proof.
  intros w backend computation devices compile_options host_callbacks st
    executable run.
  assert (Hd : forall p,
            (forall dir file contents,
               p (EvWriteText dir file contents) = false) ->
            filter p (dump_events w computation st) = [])
    by (intros p Hp; now apply dump_events_no_call).
  assert (Hmiss : forall pre cache_key s,
            filter is_compile pre = [] -> filter is_metric pre = [] ->
            outcome (after pre (compile_and_write w backend computation
                                  compile_options host_callbacks cache_key s))
            = Ok executable ->
            compile_fn backend (built_for backend computation) compile_options
              (keyword_host_callbacks host_callbacks) = Ok executable
            /\ List.length
                 (filter is_compile
                    (events (after pre
                               (compile_and_write w backend computation
                                  compile_options host_callbacks cache_key
                                  s)))) = 1%nat
            /\ filter is_metric
                 (events (after pre
                            (compile_and_write w backend computation
                               compile_options host_callbacks cache_key s)))
               = []).
  { intros pre cache_key s Hc Hm Hout.
    rewrite events_after, !filter_app, Hc, Hm, compile_and_write_compiles,
      compile_and_write_metrics.
    split; [|split; reflexivity].
    rewrite outcome_after, compile_and_write_run, outcome_after in Hout.
    destruct (compile_fn _ _ _ _) as [exe|e]; [|discriminate Hout].
    cbv zeta in Hout. cbn [outcome fst] in Hout.
    destruct (outcome (_cache_write _ _ _ _ _ _ _ _)); [|discriminate Hout].
    exact Hout. }
  subst run.
  destruct (use_compilation_cache w backend) eqn:Huse.
  - rewrite compile_or_get_cached_eligible by exact Huse. cbv zeta.
    destruct (get_cache_key _ _ _ _ _ _) as [cache_key|e] eqn:Hkey;
      [|rewrite outcome_after; discriminate].
    rewrite _cache_read_run.
    destruct (get_executable_and_time _ _ _ _) as [[[exe|] [t|]]|ex] eqn:Hget;
      [| | | |destruct (_ && _)];
      cbn [outcome events fst snd]; rewrite after_after; intros Hout.
    + right. exists cache_key, t.
      destruct (hit_events_outcome w (sym_name computation) exe t
                  (measured w (clock_reads st))
                  (tick (tick (dump_state w st)))) as (Hhc & Hhp & Hho).
      fold (measured w (clock_reads st)) in Hout |- *.
      rewrite outcome_after in Hout.
      destruct Hho as [Hho | (e & Hho & _)]; rewrite Hho in Hout;
        [|discriminate Hout].
      injection Hout as <-.
      split; [now apply use_compilation_cache_spec|].
      split; [reflexivity|]. split; [exact Hget|].
      rewrite events_after, !filter_app, Hhc, Hhp, !Hd by reflexivity.
      split; reflexivity.
    + rewrite outcome_after in Hout. discriminate Hout.
    + left. apply Hmiss in Hout; [exact Hout| |];
        rewrite <- app_assoc, filter_app, Hd by reflexivity; reflexivity.
    + left. apply Hmiss in Hout; [exact Hout| |];
        rewrite <- app_assoc, filter_app, Hd by reflexivity; reflexivity.
    + left. apply Hmiss in Hout; [exact Hout| |];
        rewrite <- app_assoc, filter_app, Hd by reflexivity; reflexivity.
    + rewrite outcome_after in Hout. discriminate Hout.
  - rewrite compile_or_get_cached_ineligible by exact Huse.
    rewrite backend_compile_run, outcome_after, events_after, !filter_app,
      !Hd by reflexivity.
    cbn [outcome events fst snd]. intros Hout. left.
    split; [exact Hout | split; reflexivity].
Qed.

Lemma compile_or_get_cached_returns_retrieved_or_compiled_witness :
  compile_fn Sample.tpu (built_for Sample.tpu Sample.module) Sample.options
    None = Ok Sample.executable
  \/ exists cache_key retrieved_compile_time,
       get_executable_and_time Sample.world cache_key Sample.options
         Sample.tpu
       = Ok (Some Sample.executable, Some retrieved_compile_time).
Proof.
  destruct (compile_or_get_cached_returns_retrieved_or_compiled
              Sample.world Sample.tpu Sample.module Sample.devices
              Sample.options [] Sample.start Sample.executable eq_refl)
    as [(Hcompile & _) | (cache_key & t & _ & _ & Hget & _)].
  - now left.
  - right. now exists cache_key, t.
Defined.

(** X15: the persistent cache is no dependency of the compilation.  Take a
    process where [jax_raise_persistent_cache_errors] is not set, a cache
    whose lookups and writes fail only with instances of [Exception], and an
    eligible request whose key is derived and whose lookup does not answer
    with an executable.  Whether the cache works or fails, the request
    returns what the compiler returns, or raises what the compiler raises. *)
Theorem compile_or_get_cached_survives_cache_errors :
  forall w backend computation devices compile_options host_callbacks st
         cache_key,
    cache_eligible w backend ->
    jax_raise_persistent_cache_errors w = false ->
    get_cache_key w computation devices compile_options backend
      (jax_use_original_compilation_cache_key_generation w) = Ok cache_key ->
    (forall executable retrieved_compile_time,
       get_executable_and_time w cache_key compile_options backend
       <> Ok (Some executable, retrieved_compile_time)) ->
    (forall ex,
       get_executable_and_time w cache_key compile_options backend = Raise ex ->
       is_Exception (exn_class_of ex) = true) ->
    (forall executable seconds ex,
       put_executable_and_time w cache_key (sym_name computation) executable
         backend seconds = Raise ex ->
       is_Exception (exn_class_of ex) = true) ->
    outcome (compile_or_get_cached w backend computation devices
               compile_options host_callbacks st)
    = compile_fn backend (built_for backend computation) compile_options
        (keyword_host_callbacks host_callbacks).
Proof.
  intros w backend computation devices compile_options host_callbacks st
    cache_key Huse Hflag Hkey Hmiss Hget Hput.
  apply use_compilation_cache_spec in Huse.
  rewrite compile_or_get_cached_eligible by exact Huse.
  cbv zeta. rewrite Hkey, _cache_read_run, Hflag, !outcome_after.
  assert (Hwrite : outcome
                     (compile_and_write w backend computation compile_options
                        host_callbacks cache_key
                        (tick (tick (dump_state w st))))
                   = compile_fn backend (built_for backend computation)
                       compile_options (keyword_host_callbacks host_callbacks)).
  { rewrite compile_and_write_run, outcome_after.
    destruct (compile_fn _ _ _ _) as [executable|e]; [|reflexivity].
    cbv zeta. cbn [outcome fst].
    destruct (_cache_write_run w cache_key
                (measured w (clock_reads (tick (tick (dump_state w st)))))
                (sym_name computation) backend executable host_callbacks
                (tick (tick (tick (tick (dump_state w st))))))
      as (logs & _ & ->).
    destruct (admitted _ _ _); [|reflexivity].
    rewrite outcome_after. unfold write_attempt. rewrite Hflag.
    destruct (int_of_float _) as [seconds|ex] eqn:Hint.
    - cbv zeta.
      destruct (put_executable_and_time _ _ _ _ _ _) as [[]|ex] eqn:Hp;
        [reflexivity|].
      now rewrite (Hput _ _ _ Hp).
    - assert (Hex : is_Exception (exn_class_of ex) = true).
      { unfold int_of_float in Hint.
        destruct (measured _ _); try discriminate;
          injection Hint as <-; reflexivity. }
      now rewrite Hex. }
  destruct (get_executable_and_time _ _ _ _) as [[[exe|] t]|ex] eqn:Hlookup.
  - now elim (Hmiss exe t).
  - exact Hwrite.
  - rewrite (Hget ex eq_refl). exact Hwrite.
Qed.

Lemma compile_or_get_cached_survives_cache_errors_witness :
  outcome (compile_or_get_cached Faults.broken Sample.tpu Sample.module
             Sample.devices Sample.options [] Sample.start)
  = Ok Sample.executable.
Proof.
  rewrite (compile_or_get_cached_survives_cache_errors
             Faults.broken Sample.tpu Sample.module Sample.devices
             Sample.options [] Sample.start Scenario.key
             (tpu_eligible Faults.broken eq_refl) eq_refl eq_refl).
  - reflexivity.
  - intros executable t. discriminate.
  - intros ex [= <-]. reflexivity.
  - intros executable seconds ex [= <-]. reflexivity.
Defined.

(** X16: only instances of [Exception] are treated as cache errors.  When
    the lookup is stopped by an exception that is not one (a
    [KeyboardInterrupt], a [SystemExit]), the request raises it even when
    [jax_raise_persistent_cache_errors] is not set, without warning and
    without compiling. *)
Theorem cache_read_propagates_base_exceptions :
  forall w backend computation devices compile_options host_callbacks st
         cache_key ex,
    cache_eligible w backend ->
    get_cache_key w computation devices compile_options backend
      (jax_use_original_compilation_cache_key_generation w) = Ok cache_key ->
    get_executable_and_time w cache_key compile_options backend = Raise ex ->
    is_Exception (exn_class_of ex) = false ->
    let run := compile_or_get_cached w backend computation devices
                 compile_options host_callbacks st in
    outcome run = Raise ex
    /\ filter is_warning (events run) = []
    /\ filter is_compile (events run) = [].
Proof.
  intros w backend computation devices compile_options host_callbacks st
    cache_key ex Huse Hkey Hget Hex run.
  apply use_compilation_cache_spec in Huse. subst run.
  rewrite compile_or_get_cached_eligible by exact Huse.
  cbv zeta. rewrite Hkey, _cache_read_run, Hget, Hex.
  cbn [andb outcome events fst snd].
  rewrite !outcome_after, !events_after. cbn [outcome events fst snd].
  rewrite !filter_app, !dump_events_no_call by reflexivity. repeat split.
Qed.

Lemma cache_read_propagates_base_exceptions_witness :
  outcome (compile_or_get_cached Faults.interrupted Sample.tpu Sample.module
             Sample.devices Sample.options [] Sample.start)
  = Raise Faults.interrupt.
Proof.
  destruct (cache_read_propagates_base_exceptions
              Faults.interrupted Sample.tpu Sample.module Sample.devices
              Sample.options [] Sample.start Scenario.key Faults.interrupt
              (tpu_eligible Faults.interrupted eq_refl)
              eq_refl eq_refl eq_refl) as [Hout _].
  exact Hout.
Defined.

(** X17: [int(compile_time_secs)] is evaluated inside the [try] of the
    write, after the gates.  A compile time that is not a number or is
    positive infinity is below no threshold: without host callbacks it passes
    the gates whatever minimum is configured.  Then [int] fails,
    [put_executable_and_time] is not called, and the failure follows the
    policy of the cache errors: a warning and a normal return when
    [jax_raise_persistent_cache_errors] is not set, the [ValueError] (not a
    number) or [OverflowError] (infinity) of [int] when it is. *)
Theorem cache_write_non_finite_duration :
  forall w cache_key d module_name backend executable st,
    d = S754_nan \/ d = S754_infinity false ->
    let run := _cache_write w cache_key d module_name backend executable []
                 st in
    admitted w [] d = true
    /\ filter is_put (events run) = []
    /\ final run = st
    /\ (jax_raise_persistent_cache_errors w = false ->
        outcome run = Ok tt
        /\ List.length (filter is_warning (events run)) = 1%nat)
    /\ (jax_raise_persistent_cache_errors w = true ->
        filter is_warning (events run) = []
        /\ (d = S754_nan -> raises ValueError run)
        /\ (d = S754_infinity false -> raises OverflowError run)).
Proof.
  intros w cache_key d module_name backend executable st Hd run.
  assert (Hadm : admitted w [] d = true).
  { unfold admitted. cbn [nonempty negb andb].
    destruct (jax_persistent_cache_min_compile_time_secs w) as [t|];
      [|reflexivity].
    destruct Hd as [-> | ->]; destruct t as [[]|[]| |[] m e];
      reflexivity. }
  split; [exact Hadm|].
  subst run. unfold raises.
  destruct (_cache_write_run w cache_key d module_name backend executable []
              st) as (logs & Hlogs & ->).
  rewrite Hadm.
  assert (Hp := filter_info_logs is_put logs (fun _ _ => eq_refl) Hlogs).
  assert (Hw := filter_info_logs is_warning logs (fun _ _ => eq_refl) Hlogs).
  rewrite outcome_after, events_after, final_after, !filter_app, Hp, Hw.
  unfold write_attempt, int_of_float.
  destruct Hd as [-> | ->];
    cbn [raise_cls exn_class_of is_Exception andb];
    destruct (jax_raise_persistent_cache_errors w); cbn [negb];
    (split; [reflexivity|]); (split; [reflexivity|]);
    (split; intros Hflag; try discriminate Hflag).
  - split; [reflexivity|].
    split; [intros _; eexists; split; reflexivity | discriminate].
  - split; reflexivity.
  - split; [reflexivity|].
    split; [discriminate | intros _; eexists; split; reflexivity].
  - split; reflexivity.
Qed.

Lemma cache_write_non_finite_duration_witness :
  filter is_put
    (events (_cache_write Sample.world Scenario.key (S754_infinity false)
               (sym_name Sample.module) Sample.tpu Sample.executable []
               Sample.start)) = []
  /\ final (_cache_write Sample.world Scenario.key (S754_infinity false)
              (sym_name Sample.module) Sample.tpu Sample.executable []
              Sample.start) = Sample.start.
Proof.
  destruct (cache_write_non_finite_duration
              Sample.world Scenario.key (S754_infinity false)
              (sym_name Sample.module) Sample.tpu Sample.executable
              Sample.start (or_intror eq_refl))
    as (_ & Hputs & Hfinal & _).
  now split.
Defined.

(** X18: the IR is dumped before the request looks at the cache, and
    whether or not the backend is eligible: with a dump directory
    configured, the first thing a request does is to write one file, the
    text of the module, into that directory, and the counter of the dumps
    moves by one; without a directory no file is written and the counter
    stays. *)
Theorem compile_or_get_cached_dumps_first :
  forall w backend computation devices compile_options host_callbacks st,
    let run := compile_or_get_cached w backend computation devices
                 compile_options host_callbacks st in
    (_DUMP_IR_TO w <> [] ->
       (exists file rest,
          events run
          = EvWriteText (_DUMP_IR_TO w) file (_module_to_string computation)
            :: rest
          /\ filter is_write_text rest = [])
       /\ _ir_dump_counter (final run) = S (_ir_dump_counter st))
    /\ (_DUMP_IR_TO w = [] ->
          filter is_write_text (events run) = []
          /\ _ir_dump_counter (final run) = _ir_dump_counter st).
Proof.
  intros w backend computation devices compile_options host_callbacks st run.
  assert (Hrest : exists rest,
            events run = dump_events w computation st ++ rest
            /\ filter is_write_text rest = []
            /\ _ir_dump_counter (final run)
               = _ir_dump_counter (dump_state w st)).
  { assert (Hcw : forall cache_key s,
              filter is_write_text
                (events (compile_and_write w backend computation
                           compile_options host_callbacks cache_key s)) = []
              /\ _ir_dump_counter
                   (final (compile_and_write w backend computation
                             compile_options host_callbacks cache_key s))
                 = _ir_dump_counter s).
    { intros cache_key s. rewrite compile_and_write_run, events_after,
        final_after.
      destruct (compile_fn _ _ _ _) as [executable|e]; [|now split].
      cbv zeta. cbn [events final fst snd filter is_write_text app].
      rewrite final__cache_write.
      destruct (_cache_write_run w cache_key (measured w (clock_reads s))
                  (sym_name computation) backend executable host_callbacks
                  (tick (tick s))) as (logs & Hlogs & ->).
      apply (filter_info_logs is_write_text) in Hlogs; [|reflexivity].
      split; [|reflexivity].
      destruct (admitted _ _ _); [|exact Hlogs].
      rewrite events_after, filter_app, Hlogs. unfold write_attempt.
      destruct (int_of_float _).
      - cbv zeta.
        destruct (put_executable_and_time _ _ _ _ _ _); [reflexivity|].
        destruct (_ && _); reflexivity.
      - destruct (_ && _); reflexivity. }
    subst run.
    destruct (use_compilation_cache w backend) eqn:Huse.
    - rewrite compile_or_get_cached_eligible by exact Huse. cbv zeta.
      rewrite events_after, final_after, <- app_assoc.
      eexists. split; [reflexivity|].
      destruct (get_cache_key _ _ _ _ _ _) as [cache_key|e]; [|now split].
      rewrite _cache_read_run.
      destruct (Hcw cache_key (tick (tick (dump_state w st)))) as [Hw1 Hw2].
      destruct (get_executable_and_time _ _ _ _) as [[[exe|] [t|]]|ex];
        [| | | |destruct (_ && _)];
        cbn [outcome events fst snd]; rewrite events_after, final_after;
        unfold read_warning; cbn [app filter is_write_text].
      + unfold hit. rewrite events_after, final_after.
        destruct (float_of_int t); now split.
      + now split.
      + split; [exact Hw1 | exact Hw2].
      + split; [exact Hw1 | exact Hw2].
      + split; [exact Hw1 | exact Hw2].
      + now split.
    - rewrite compile_or_get_cached_ineligible by exact Huse.
      rewrite backend_compile_run, events_after, final_after.
      eexists. split; [reflexivity|]. now split. }
  destruct Hrest as (rest & Hev & Hrest & Hcounter).
  unfold dump_events in Hev. unfold dump_state in Hcounter.
  split; intros Hdir.
  - destruct (_DUMP_IR_TO w) as [|c dir] eqn:Hd; [now elim Hdir|].
    cbn [nonempty] in Hev, Hcounter.
    split; [|exact Hcounter]. eexists _, rest. split; [exact Hev | exact Hrest].
  - rewrite Hdir in Hev, Hcounter. cbn [nonempty app] in Hev, Hcounter.
    rewrite Hev. now split.
Qed.

Lemma compile_or_get_cached_dumps_first_witness :
  events (compile_or_get_cached (with_dump_dir Sample.world (py "/tmp/ir"))
            Sample.cpu Sample.module Sample.devices Sample.options []
            Sample.start)
  = [EvWriteText (py "/tmp/ir") (py "jax_ir0_jit_f" ++ [233%N] ++ py "1.mlir")
       (py "module @jit_f {}");
     EvCompile Sample.cpu (Bytecode [77; 76; 239; 82]%N) Sample.options None].
Proof.
  destruct (compile_or_get_cached_dumps_first
              (with_dump_dir Sample.world (py "/tmp/ir")) Sample.cpu
              Sample.module Sample.devices Sample.options [] Sample.start)
    as [Hdump _].
  destruct (Hdump ltac:(discriminate)) as ((file & rest & Hev & _) & _).
  rewrite Hev. injection Hev as <- <-. reflexivity.
Defined.
